(** * Text-Classification-PyTorch: the model family of [network/model.py]

    A shallow embedding of [network/model.py] and of the tensor operations
    it calls, with the theorems that settle the specification's claims.

    Tensors are nested lists: a batch of token ids is a list of rows of
    [Z]; a real tensor of shape (batch, len, dim) is a list of examples,
    each a list of positions, each a list of scalars.  Scalars are kept
    abstract (class [Scalar]): nothing below depends on floating point
    arithmetic, only on which operation is applied where.

    An exception raised by the tensor library is a value [Raise e]; every
    operation that can raise returns a [Result]. *)

From Stdlib Require Import ZArith List Lia Bool Arith Permutation.
From ExtLib Require Import Structures.Monad Structures.MonadExc.
From ExtLib Require Import Data.Monads.EitherMonad.
Import ListNotations.
Import MonadNotation.
Local Open Scope monad_scope.

(** ** Exceptions and results *)

(** The two exception classes the tensor library raises in this code:
    [IndexError] (an index outside its axis, a reduction over an empty
    axis) and [RuntimeError] (operand shapes that do not fit). *)
Inductive Error : Type :=
| IndexError
| RuntimeError.

Abbreviation Result := (sum Error).
Abbreviation Ok := (@inr Error _).
Abbreviation Raise := (@inl Error _).

(** [mapM f l]: apply [f] to each element, left to right; the first
    exception stops the traversal. *)
Fixpoint mapM {A B : Type} (f : A -> Result B) (l : list A) : Result (list B) :=
  match l with
  | [] => Ok []
  | a :: l' =>
      match f a with
      | inl e => Raise e
      | inr b =>
          match mapM f l' with
          | inl e => Raise e
          | inr bs => Ok (b :: bs)
          end
      end
  end.

(** [zipM f l1 l2]: apply [f] to the elements pairwise; lists of
    different length are a shape mismatch. *)
Fixpoint zipM {A B C : Type} (f : A -> B -> Result C) (l1 : list A) (l2 : list B)
  : Result (list C) :=
  match l1, l2 with
  | [], [] => Ok []
  | a :: l1', b :: l2' =>
      match f a b with
      | inl e => Raise e
      | inr c =>
          match zipM f l1' l2' with
          | inl e => Raise e
          | inr cs => Ok (c :: cs)
          end
      end
  | _, _ => Raise RuntimeError
  end.

(** [map2 f l1 l2]: elementwise, up to the shorter list. *)
Fixpoint map2 {A B C : Type} (f : A -> B -> C) (l1 : list A) (l2 : list B) : list C :=
  match l1, l2 with
  | a :: l1', b :: l2' => f a b :: map2 f l1' l2'
  | _, _ => []
  end.

(** A call that starts in a world [W], returns or raises, and leaves a
    world behind. *)
Definition Call (W A : Type) : Type := W -> Result A * W.

(** What a module call of the library can read and write besides its
    arguments and the weights: the flag [training] that every
    [nn.Module] carries ([True] once constructed, [False] after
    [eval()]), and the state of the library's random generator, of some
    type [G]. *)
Record World (G : Type) : Type := {
  training : bool;
  generator : G
}.

Arguments training {G} _.
Arguments generator {G} _.

(** A traversal that threads the generator through the draws, left to
    right. *)
Fixpoint draw_list {A B G : Type} (f : A -> G -> B * G) (l : list A) (g : G)
  : list B * G :=
  match l with
  | [] => ([], g)
  | a :: l' =>
      let (b, g1) := f a g in
      let (bs, g2) := draw_list f l' g1 in
      (b :: bs, g2)
  end.

(** ** Scalars *)

(** The entries of a real tensor, with the operations the layers apply to
    them.  No law is assumed. *)
Class Scalar (R : Type) : Type := {
  s0 : R;
  sadd : R -> R -> R;
  smul : R -> R -> R;
  sdiv : R -> R -> R;
  smax : R -> R -> R;
  srelu : R -> R;
  stanh : R -> R;
  ssigmoid : R -> R;
  sexp : R -> R
}.

(** ** Shapes *)

(** A batch of token ids, shape (batch_size, max_len). *)
Definition Ids := list (list Z).

(** [x.shape] of a two-axis tensor.  The width of a batch without rows is
    read as 0. *)
Definition shape2 {A : Type} (x : list (list A)) : nat * nat :=
  (length x, match x with [] => 0 | r :: _ => length r end).

(** [has_shape2 b n x]: [x] has [b] rows of [n] entries. *)
Definition has_shape2 {A : Type} (b n : nat) (x : list (list A)) : Prop :=
  length x = b /\ Forall (fun r => length r = n) x.

(** [seq_shape n d s]: [s] has [n] positions of [d] entries. *)
Definition seq_shape {A : Type} (n d : nat) (s : list (list A)) : Prop :=
  length s = n /\ Forall (fun v => length v = d) s.

(** [has_shape3 b n d x]: [b] examples of [n] positions of [d] entries. *)
Definition has_shape3 {A : Type} (b n d : nat) (x : list (list (list A))) : Prop :=
  length x = b /\ Forall (seq_shape n d) x.

(** [all_length n l]: every list of [l] has [n] entries. *)
Definition all_length {A : Type} (n : nat) (l : list (list A)) : bool :=
  forallb (fun v => length v =? n) l.

(** ** [cal_seq_len] *)

(** [x == padding_id]: the boolean tensor of the positions that hold
    [padding_id]. *)
Definition eq_scalar (x : Ids) (v : Z) : list (list bool) :=
  map (map (fun t => Z.eqb t v)) x.

(** [.sum(dim=-1)] of a boolean tensor: the number of [true] in each row,
    as an integer.  (The library counts in 64 bits; a row has far fewer
    than 2^63 positions, so the count never wraps.) *)
Definition sum_last (m : list (list bool)) : list Z :=
  map (fun row => fold_left (fun acc (b : bool) => (acc + Z.b2z b)%Z) row 0%Z) m.

(** model.py, lines 10-11:
    [return max_seq_len - (x == padding_id).sum(dim=-1)] *)
Definition cal_seq_len (x : Ids) (max_seq_len : Z) (padding_id : Z) : list Z :=
  map (fun c => (max_seq_len - c)%Z) (sum_last (eq_scalar x padding_id)).

(** The number of positions of [row] that hold [v]. *)
Definition count_padding (row : list Z) (v : Z) : nat := count_occ Z.eq_dec row v.

(** ** Tensor operations of the library *)

Section Network.
Context {R : Type} {SR : Scalar R}.

(** A vector; a tensor of shape (batch, dim); a tensor of shape
    (batch, len, dim). *)
Local Abbreviation Vec := (list R).
Local Abbreviation T2 := (list (list R)).
Local Abbreviation T3 := (list (list (list R))).

Definition zeros (n : nat) : Vec := repeat s0 n.
Definition vadd (u v : Vec) : Vec := map2 sadd u v.
Definition vmul (u v : Vec) : Vec := map2 smul u v.
Definition vmax (u v : Vec) : Vec := map2 smax u v.
Definition vscale (a : R) (v : Vec) : Vec := map (smul a) v.
Definition sum_list (l : list R) : R := fold_right sadd s0 l.
Definition dot (u v : Vec) : R := sum_list (vmul u v).
(** matrix (rows of [w]) times vector *)
Definition matvec (w : list Vec) (v : Vec) : Vec := map (fun row => dot row v) w.

(** *** [nn.Embedding] *)

(** The table has [num_embeddings] rows of [embedding_dim] entries. *)
Record Embedding : Type := {
  num_embeddings : nat;
  embedding_dim : nat;
  emb_weight : list Vec
}.

(** One lookup; an id outside [0, num_embeddings) raises. *)
Definition Embedding_lookup (e : Embedding) (id : Z) : Result Vec :=
  if (id <? 0)%Z then Raise IndexError
  else match nth_error (emb_weight e) (Z.to_nat id) with
       | Some v => Ok v
       | None => Raise IndexError
       end.

(** (batch, len) ids to (batch, len, embedding_dim) vectors. *)
Definition Embedding_forward (e : Embedding) (x : Ids) : Result T3 :=
  mapM (mapM (Embedding_lookup e)) x.

(** *** [nn.Linear] *)

(** [lin_weight] has [out_features] rows of [in_features] entries. *)
Record Linear : Type := {
  in_features : nat;
  out_features : nat;
  lin_weight : list Vec;
  lin_bias : Vec
}.

(** [W v + b] on one vector; its width must be [in_features]. *)
Definition Linear_apply (l : Linear) (v : Vec) : Result Vec :=
  if length v =? in_features l
  then Ok (vadd (matvec (lin_weight l) v) (lin_bias l))
  else Raise RuntimeError.

(** A linear layer acts on the last axis. *)
Definition Linear_forward (l : Linear) (x : T2) : Result T2 :=
  mapM (Linear_apply l) x.

Definition Linear_forward3 (l : Linear) (x : T3) : Result T3 :=
  mapM (mapM (Linear_apply l)) x.

(** *** Pointwise functions: [F.relu], [Tensor.tanh] *)

Definition relu2 (x : T2) : T2 := map (map srelu) x.
Definition relu3 (x : T3) : T3 := map (map (map srelu)) x.
Definition tanh3 (x : T3) : T3 := map (map (map stanh)) x.

(** *** [torch.max(x, dim=1)], the values *)

(** The maximum over the positions of one example, entry by entry; an
    example without positions has no maximum. *)
Definition max_positions (s : list Vec) : Result Vec :=
  match s with
  | [] => Raise IndexError
  | v :: s' => Ok (fold_left vmax s' v)
  end.

Definition max_dim1 (x : T3) : Result T2 := mapM max_positions x.

(** *** [torch.cat(..., dim=-1)] *)

(** Two tensors of shape (batch, len, _): the other axes must agree. *)
Definition cat_last3 (a b : T3) : Result T3 :=
  zipM (zipM (fun u v : Vec => Ok (u ++ v))) a b.

(** Three tensors of shape (batch, _). *)
Definition cat_last2 (a b c : T2) : Result T2 :=
  ab <- zipM (fun u v : Vec => Ok (u ++ v)) a b ;;
  zipM (fun u v : Vec => Ok (u ++ v)) ab c.

(** *** [a + b] *)

(** Entry by entry, for operands of one shape (the only case model.py
    meets with layers of the widths it declares; broadcasting of an
    axis of size 1 is not modelled and counts as a mismatch). *)
Definition add3 (a b : T3) : Result T3 :=
  zipM (zipM (fun u v : Vec =>
                if length u =? length v then Ok (vadd u v)
                else Raise RuntimeError)) a b.

(** *** Indexing with integer tensors: [x[rows, cols, :]] *)

(** [torch.arange(n)] *)
Definition arange (n : nat) : list Z := map Z.of_nat (seq 0 n).

(** An index [j] into an axis of size [n]: [-n <= j < n], and a
    negative index counts from the end. *)
Definition wrap_index (n : nat) (j : Z) : Result nat :=
  if ((0 <=? j) && (j <? Z.of_nat n))%Z then Ok (Z.to_nat j)
  else if ((- Z.of_nat n <=? j) && (j <? 0))%Z then Ok (Z.to_nat (j + Z.of_nat n))
  else Raise IndexError.

Definition index_axis {A : Type} (l : list A) (j : Z) : Result A :=
  match wrap_index (length l) j with
  | inl e => Raise e
  | inr k =>
      match nth_error l k with
      | Some a => Ok a
      | None => Raise IndexError
      end
  end.

(** The position an index [j] in [-n, n) stands for. *)
Definition position (n : nat) (j : Z) : nat :=
  Z.to_nat (if (j <? 0)%Z then j + Z.of_nat n else j).

(** [x[r, c, :]] for one pair of indices. *)
Definition index_pair (x : T3) (rc : Z * Z) : Result Vec :=
  match index_axis x (fst rc) with
  | inl e => Raise e
  | inr s => index_axis s (snd rc)
  end.

(** [x[rows, cols, :]]: entry [i] of the result is
    [x[rows[i], cols[i], :]]; the two index tensors must have one
    shape. *)
Definition index_rows (x : T3) (rows cols : list Z) : Result T2 :=
  if length rows =? length cols
  then mapM (index_pair x) (combine rows cols)
  else Raise IndexError.


(** ** The layers of [network/layer.py] *)

(** [network/layer.py] is not part of the sources at hand; model.py
    imports [LSTMLayer], [CNNLayer], [AttnLayer] and [CNNBlock] from it.
    The first three are modelled from the specification; of [CNNBlock]
    the specification gives only an outline, and a block is modelled by
    its forward pass, whatever it is. *)

(** *** [CNNLayer] *)

(** Modelled from the spec: [CNNLayer(in_dim, out_dim, win, pad)] of
    layer.py, absent from the sources.  "Convolutional encoder: extract
    local n-gram features via sliding windows"; without padding the
    "output length = input_len - window + 1", and a window larger than
    the (padded) input is a size error.  The layer is a one-dimensional
    convolution along the sequence axis, stride 1, with [cnn_pad] zero
    vectors added at both ends: [cnn_weight] holds, for each of the
    [cnn_out_dim] output features, [cnn_win] rows of [cnn_in_dim]
    entries. *)
Record CNNLayer : Type := {
  cnn_in_dim : nat;
  cnn_out_dim : nat;
  cnn_win : nat;
  cnn_pad : nat;
  cnn_weight : list (list Vec);
  cnn_bias : Vec
}.

(** Modelled from the spec: the sliding windows of [CNNLayer], all the
    runs of [win] consecutive positions, in order. *)
Definition windows (win : nat) (s : list Vec) : list (list Vec) :=
  map (fun t => firstn win (skipn t s)) (seq 0 (length s + 1 - win)).

(** Modelled from the spec: one output position of [CNNLayer]; for each
    output feature, the sum over the window of the products with its
    filter, plus the bias. *)
Definition conv_at (c : CNNLayer) (w : list Vec) : Vec :=
  vadd (map (fun filt => sum_list (map2 dot filt w)) (cnn_weight c)) (cnn_bias c).

(** Modelled from the spec: [CNNLayer] on one example.  The vectors
    must have [cnn_in_dim] entries and the window must fit into the
    padded sequence; the library raises otherwise. *)
Definition conv1d (c : CNNLayer) (s : list Vec) : Result (list Vec) :=
  if all_length (cnn_in_dim c) s then
    let padded := repeat (zeros (cnn_in_dim c)) (cnn_pad c) ++ s
                  ++ repeat (zeros (cnn_in_dim c)) (cnn_pad c) in
    if cnn_win c <=? length padded
    then Ok (map (conv_at c) (windows (cnn_win c) padded))
    else Raise RuntimeError
  else Raise RuntimeError.

(** Modelled from the spec: the forward pass of [CNNLayer], from
    (batch, len, in_dim) to (batch, len + 2 pad - win + 1, out_dim). *)
Definition CNNLayer_forward (c : CNNLayer) (x : T3) : Result T3 :=
  mapM (conv1d c) x.

(** *** [LSTMLayer] *)

(** Modelled from the spec: the weights of one direction of one layer
    of [LSTMLayer], as the library stores them for its LSTM: the four gates (input, forget, cell, output) stacked, so
    [w_ih] and [w_hh] have [4 * hidden] rows. *)
Record LSTMCell : Type := {
  w_ih : list Vec;
  w_hh : list Vec;
  b_ih : Vec;
  b_hh : Vec
}.

(** Modelled from the spec: [LSTMLayer(in_dim, out_dim, n_layer,
    dropout, bi)] of layer.py, absent from the sources.  "Recurrent
    encoder (uni/bi-directional): contextualizes embeddings via
    sequential state"; "a single/multi-layer unidirectional recurrent
    encoder over the full padded sequence"; bidirectional: "forward/
    backward halves each [out_dim], concatenated".  Each entry of
    [lstm_layers] is one layer: its forward cell and, for a
    bidirectional layer, its backward cell.  [lstm_dropout] is the rate
    the constructor was given; the specification's encoder, the forward
    pass below, makes no use of it. *)
Record LSTMLayer : Type := {
  lstm_in_dim : nat;
  lstm_out_dim : nat;
  lstm_layers : list (LSTMCell * option LSTMCell);
  lstm_dropout : R
}.

(** Modelled from the spec: the width of the states a layer of hidden
    size [hid] hands on, [2 * hid] when bidirectional ("forward/backward
    halves ... concatenated"). *)
Definition lstm_width (hid : nat) (bi : bool) : nat := if bi then 2 * hid else hid.

(** Modelled from the spec: one step of the recurrent encoder, taken to
    be the library's LSTM cell as the name of the layer says; the state
    is the pair (h, c). *)
Definition lstm_step (hid : nat) (cell : LSTMCell) (hc : Vec * Vec) (x : Vec)
  : Vec * Vec :=
  let g := vadd (vadd (matvec (w_ih cell) x) (b_ih cell))
                (vadd (matvec (w_hh cell) (fst hc)) (b_hh cell)) in
  let i := map ssigmoid (firstn hid g) in
  let f := map ssigmoid (firstn hid (skipn hid g)) in
  let g' := map stanh (firstn hid (skipn (2 * hid) g)) in
  let o := map ssigmoid (firstn hid (skipn (3 * hid) g)) in
  let c' := vadd (vmul f (snd hc)) (vmul i g') in
  (vmul o (map stanh c'), c').

(** Modelled from the spec: "sequential state"; the hidden states along
    a sequence, first position first. *)
Fixpoint lstm_scan (hid : nat) (cell : LSTMCell) (hc : Vec * Vec) (s : list Vec)
  : list Vec :=
  match s with
  | [] => []
  | x :: s' =>
      let hc' := lstm_step hid cell hc x in
      fst hc' :: lstm_scan hid cell hc' s'
  end.

(** Modelled from the spec: one direction of a layer, from the zero
    state. *)
Definition lstm_direction (hid : nat) (cell : LSTMCell) (s : list Vec) : list Vec :=
  lstm_scan hid cell (zeros hid, zeros hid) s.

(** Modelled from the spec: one layer; left to right, and for a
    bidirectional layer also right to left, the two states of a position
    side by side. *)
Definition lstm_layer (hid : nat) (l : LSTMCell * option LSTMCell) (s : list Vec)
  : list Vec :=
  match snd l with
  | None => lstm_direction hid (fst l) s
  | Some bw =>
      map2 (@app R) (lstm_direction hid (fst l) s)
                    (rev (lstm_direction hid bw (rev s)))
  end.

(** Modelled from the spec: the stack ("single/multi-layer"); each layer
    reads the states of the one below. *)
Definition lstm_stack (hid : nat) (ls : list (LSTMCell * option LSTMCell))
           (s : list Vec) : list Vec :=
  fold_left (fun acc l => lstm_layer hid l acc) ls s.

(** Modelled from the spec: the forward pass of [LSTMLayer] "over the
    full padded sequence", from (batch, len, in_dim) to
    (batch, len, out_dim) or, bidirectional, (batch, len, 2 * out_dim). *)
Definition LSTMLayer_forward (l : LSTMLayer) (x : T3) : Result T3 :=
  if forallb (all_length (lstm_in_dim l)) x
  then Ok (map (lstm_stack (lstm_out_dim l) (lstm_layers l)) x)
  else Raise RuntimeError.

(** *** [AttnLayer] *)

(** Modelled from the spec: [AttnLayer(in_dim, attn_dim)] of layer.py,
    absent from the sources.  "Attention pooling: computes a learned
    weighted summary of a sequence of vectors"; "additive/learned
    attention pooling producing a single weighted-sum vector per
    example".  Position [t] is scored by
    [attn_u . tanh (attn_w x_t + attn_b)], the scores are normalised by
    softmax, and the result is the sum of the positions weighted by
    them.  No length reaches the layer: every position is weighted. *)
Record AttnLayer : Type := {
  attn_in_dim : nat;
  attn_dim : nat;
  attn_w : list Vec;
  attn_b : Vec;
  attn_u : Vec
}.

(** Modelled from the spec: the weights of the positions, their scores
    normalised to sum to one. *)
Definition softmax (scores : list R) : list R :=
  let e := map sexp scores in
  map (fun a => sdiv a (sum_list e)) e.

(** Modelled from the spec: the learned score of one position. *)
Definition attn_score (a : AttnLayer) (x : Vec) : R :=
  dot (attn_u a) (map stanh (vadd (matvec (attn_w a) x) (attn_b a))).

(** Modelled from the spec: [AttnLayer] on one example, "a single
    weighted-sum vector". *)
Definition attn_pool (a : AttnLayer) (s : list Vec) : Result Vec :=
  if all_length (attn_in_dim a) s then
    let alpha := softmax (map (attn_score a) s) in
    Ok (fold_left vadd (map2 vscale alpha s) (zeros (attn_in_dim a)))
  else Raise RuntimeError.

(** Modelled from the spec: the forward pass of [AttnLayer], from
    (batch, len, in_dim) to (batch, in_dim). *)
Definition AttnLayer_forward (a : AttnLayer) (x : T3) : Result T2 :=
  mapM (attn_pool a) x.

(** *** [CNNBlock] and [nn.Sequential] *)

(** Modelled from the spec: [CNNBlock] of layer.py, absent from the
    sources.  The specification describes it by example only
    ("downsampling (e.g., stride-2 pooling) plus convolution") and
    leaves open what it does on a sequence too short to halve.  A block
    is modelled by its forward pass, any function from tensors to
    results. *)
Record CNNBlock : Type := {
  block_forward : T3 -> Result T3
}.

(** Modelled from the spec: the forward pass of [CNNBlock], the
    function the block stands for. *)
Definition CNNBlock_forward (blk : CNNBlock) (x : T3) : Result T3 :=
  block_forward blk x.

(** Modelled from the spec: what the specification asks of a block.
    "Pyramid block: downsampling + convolution unit that halves sequence
    length"; "each block must tolerate sequences shrinking below a
    usable length"; the width is the constant 250.  A block meets the
    contract when it maps a tensor of shape (b, len, 250) with at least
    one position to one of shape (b, len', 250) with at least one
    position. *)
Definition CNNBlock_contract (blk : CNNBlock) : Prop :=
  forall (b len : nat) (y : T3),
    has_shape3 b len 250 y -> 1 <= len ->
    exists (len' : nat) (z : T3),
      1 <= len' /\ CNNBlock_forward blk y = Ok z /\ has_shape3 b len' 250 z.

(** ** Module calls *)

(** [self.layer(x)] goes through the library's call protocol before it
    reaches the layer's forward pass.  A [Runtime] says what such a
    call does, in a monad [M] of the effects a call may have; model.py
    is embedded once, over any runtime. *)
Record Runtime (M : Type -> Type) : Type := {
  call_embedding : Embedding -> Ids -> M T3;
  call_lstm : LSTMLayer -> T3 -> M T3;
  call_cnn : CNNLayer -> T3 -> M T3;
  call_attn : AttnLayer -> T3 -> M T2;
  call_block : CNNBlock -> T3 -> M T3;
  call_linear : Linear -> T2 -> M T2;
  call_linear3 : Linear -> T3 -> M T3
}.

Arguments call_embedding {M} _ _ _.
Arguments call_lstm {M} _ _ _.
Arguments call_cnn {M} _ _ _.
Arguments call_attn {M} _ _ _.
Arguments call_block {M} _ _ _.
Arguments call_linear {M} _ _ _.
Arguments call_linear3 {M} _ _ _.

(** The runtime of the tensor library with the layers above: a call
    runs the forward pass and nothing else. *)
Definition torch : Runtime Result := {|
  call_embedding := Embedding_forward;
  call_lstm := LSTMLayer_forward;
  call_cnn := CNNLayer_forward;
  call_attn := AttnLayer_forward;
  call_block := CNNBlock_forward;
  call_linear := Linear_forward;
  call_linear3 := Linear_forward3
|}.

(** ** The configuration and the models *)

(** The fields of [config] that model.py reads. *)
Record Config : Type := {
  vocab : nat;
  embed_dim : nat;
  hidden_dim : nat;
  tag_dim : nat;
  padding_id : Z;
  n_layer : nat;
  dropout : R;
  cfg_attn_dim : nat;
  n_block : nat
}.

(** Each model holds the embedding of [BaseModel] (lines 14-18) and
    the layers its [__init__] creates. *)
Record LSTMModel : Type := {
  LSTM_embedding : Embedding;
  LSTM_lstm : LSTMLayer;
  LSTM_linear : Linear;
  LSTM_padding_id : Z
}.

Record RCNNModel : Type := {
  RCNN_embedding : Embedding;
  RCNN_bilstm : LSTMLayer;
  RCNN_encoder : Linear;
  RCNN_linear : Linear
}.

Record BiLSTMAttnModel : Type := {
  BiLSTMAttn_embedding : Embedding;
  BiLSTMAttn_bilstm : LSTMLayer;
  BiLSTMAttn_attn : AttnLayer;
  BiLSTMAttn_linear : Linear;
  BiLSTMAttn_padding_id : Z
}.

Record CNNModel : Type := {
  CNN_embedding : Embedding;
  CNN_conv : CNNLayer;
  CNN_linear : Linear
}.

Record TextCNNModel : Type := {
  TextCNN_embedding : Embedding;
  TextCNN_conv1 : CNNLayer;
  TextCNN_conv2 : CNNLayer;
  TextCNN_conv3 : CNNLayer;
  TextCNN_linear : Linear
}.

Record DPCNNModel : Type := {
  DPCNN_embedding : Embedding;
  DPCNN_region_embedding : CNNLayer;
  DPCNN_conv1 : CNNLayer;
  DPCNN_conv2 : CNNLayer;
  DPCNN_blocks : list CNNBlock;
  DPCNN_linear : Linear
}.

Record CNNAttnModel : Type := {
  CNNAttn_embedding : Embedding;
  CNNAttn_cnn : CNNLayer;
  CNNAttn_attn : AttnLayer;
  CNNAttn_linear : Linear
}.

(** ** The forward passes *)

Section Forward.
Context {M : Type -> Type} {Monad_M : Monad M} {Exc_M : MonadExc Error M}.
Variable rt : Runtime M.

(** A tensor function of the library: its value, or its exception. *)
Definition lift {A : Type} (r : Result A) : M A :=
  match r with
  | inr a => ret a
  | inl e => raise e
  end.

(** model.py, lines 29-42. *)
Definition LSTMModel_forward (self : LSTMModel) (x : Ids) : M T2 :=
  let '(batch_size, max_len) := shape2 x in
  let lens := cal_seq_len x (Z.of_nat max_len) (LSTM_padding_id self) in
  x <- call_embedding rt (LSTM_embedding self) x ;;
  x <- call_lstm rt (LSTM_lstm self) x ;;
  x <- lift (index_rows x (arange batch_size) (map (fun l => (l - 1)%Z) lens)) ;;
  call_linear rt (LSTM_linear self) x.

(** Lines 33-40 alone: the vectors handed to the linear head. *)
Definition LSTMModel_selected (self : LSTMModel) (x : Ids) : M T2 :=
  let '(batch_size, max_len) := shape2 x in
  let lens := cal_seq_len x (Z.of_nat max_len) (LSTM_padding_id self) in
  x <- call_embedding rt (LSTM_embedding self) x ;;
  x <- call_lstm rt (LSTM_lstm self) x ;;
  lift (index_rows x (arange batch_size) (map (fun l => (l - 1)%Z) lens)).

(** model.py, lines 54-64. *)
Definition RCNNModel_forward (self : RCNNModel) (x : Ids) : M T2 :=
  word <- call_embedding rt (RCNN_embedding self) x ;;
  context <- call_lstm rt (RCNN_bilstm self) word ;;
  x <- lift (cat_last3 word context) ;;
  x <- call_linear3 rt (RCNN_encoder self) x ;;
  let x := tanh3 x in
  x <- lift (max_dim1 x) ;;
  call_linear rt (RCNN_linear self) x.

(** model.py, lines 76-85. *)
Definition BiLSTMAttnModel_forward (self : BiLSTMAttnModel) (x : Ids) : M T2 :=
  x <- call_embedding rt (BiLSTMAttn_embedding self) x ;;
  x <- call_lstm rt (BiLSTMAttn_bilstm self) x ;;
  x <- call_attn rt (BiLSTMAttn_attn self) x ;;
  call_linear rt (BiLSTMAttn_linear self) x.

(** model.py, lines 94-108. *)
Definition CNNModel_forward (self : CNNModel) (x : Ids) : M T2 :=
  x <- call_embedding rt (CNN_embedding self) x ;;
  x <- call_cnn rt (CNN_conv self) x ;;
  x <- lift (max_dim1 x) ;;
  let x := relu2 x in
  call_linear rt (CNN_linear self) x.

(** model.py, lines 123-146. *)
Definition TextCNNModel_forward (self : TextCNNModel) (x : Ids) : M T2 :=
  x <- call_embedding rt (TextCNN_embedding self) x ;;
  feat1 <- call_cnn rt (TextCNN_conv1 self) x ;;
  let feat1 := relu3 feat1 in
  feat2 <- call_cnn rt (TextCNN_conv2 self) x ;;
  let feat2 := relu3 feat2 in
  feat3 <- call_cnn rt (TextCNN_conv3 self) x ;;
  let feat3 := relu3 feat3 in
  feat1 <- lift (max_dim1 feat1) ;;
  feat2 <- lift (max_dim1 feat2) ;;
  feat3 <- lift (max_dim1 feat3) ;;
  feat <- lift (cat_last2 feat1 feat2 feat3) ;;
  call_linear rt (TextCNN_linear self) feat.

(** [nn.Sequential]: the blocks in order, each on the result of the
    one before; no block, no change. *)
Fixpoint Sequential_forward (blocks : list CNNBlock) (x : T3) : M T3 :=
  match blocks with
  | [] => ret x
  | b :: blocks' => y <- call_block rt b x ;; Sequential_forward blocks' y
  end.

(** model.py, lines 160-181. *)
Definition DPCNNModel_forward (self : DPCNNModel) (x : Ids) : M T2 :=
  emb <- call_embedding rt (DPCNN_embedding self) x ;;
  emb <- call_cnn rt (DPCNN_region_embedding self) emb ;;
  let x := relu3 emb in
  x <- call_cnn rt (DPCNN_conv1 self) x ;;
  let x := relu3 x in
  x <- call_cnn rt (DPCNN_conv2 self) x ;;
  s <- lift (add3 x emb) ;;
  x <- Sequential_forward (DPCNN_blocks self) s ;;
  x <- lift (max_dim1 x) ;;
  call_linear rt (DPCNN_linear self) x.

(** model.py, lines 191-201. *)
Definition CNNAttnModel_forward (self : CNNAttnModel) (x : Ids) : M T2 :=
  x <- call_embedding rt (CNNAttn_embedding self) x ;;
  x <- call_cnn rt (CNNAttn_cnn self) x ;;
  let x := relu3 x in
  x <- call_attn rt (CNNAttn_attn self) x ;;
  call_linear rt (CNNAttn_linear self) x.

End Forward.

(** ** What the constructors build *)

(** [__init__] fixes the sizes of every layer; training changes the
    values of the weights and nothing else.  [X_built ... l] holds of a
    layer [l] exactly when it has the sizes the constructor call
    [X(...)] gives it. *)

(** [nn.Embedding(n, d)] *)
Definition Embedding_built (n d : nat) (e : Embedding) : bool :=
  (num_embeddings e =? n) && (embedding_dim e =? d)
  && (length (emb_weight e) =? n) && all_length d (emb_weight e).

(** [nn.Linear(i, o)] *)
Definition Linear_built (i o : nat) (l : Linear) : bool :=
  (in_features l =? i) && (out_features l =? o)
  && (length (lin_weight l) =? o) && all_length i (lin_weight l)
  && (length (lin_bias l) =? o).

(** Modelled from the spec: the sizes [CNNLayer(i, o, win, pad)] of
    layer.py gives its convolution. *)
Definition CNNLayer_built (i o win pad : nat) (c : CNNLayer) : bool :=
  (cnn_in_dim c =? i) && (cnn_out_dim c =? o)
  && (cnn_win c =? win) && (cnn_pad c =? pad)
  && (length (cnn_weight c) =? o)
  && forallb (fun filt => (length filt =? win) && all_length i filt) (cnn_weight c)
  && (length (cnn_bias c) =? o).

(** Modelled from the spec: [CNNLayer(i, o)], window and padding left
    to the defaults of layer.py, which is absent from the sources.
    The layer keeps the length of the sequence (model.py, line 101:
    "x.shape=(batch_size, max_seq_len, hidden_dim)" after the
    convolution; spec 4.5: "default padding such that output length
    >= 1"): the window is [2 * pad + 1]. *)
Definition CNNLayer_built_default (i o : nat) (c : CNNLayer) : bool :=
  CNNLayer_built i o (2 * cnn_pad c + 1) (cnn_pad c) c.

(** Modelled from the spec: the sizes of the weights of a cell that
    reads [i] entries and keeps [hid]. *)
Definition LSTMCell_built (i hid : nat) (cell : LSTMCell) : bool :=
  (length (w_ih cell) =? 4 * hid) && all_length i (w_ih cell)
  && (length (w_hh cell) =? 4 * hid) && all_length hid (w_hh cell)
  && (length (b_ih cell) =? 4 * hid) && (length (b_hh cell) =? 4 * hid).

(** Modelled from the spec: the layers of a stack whose first layer
    reads vectors of width [i]: a bidirectional layer hands [2 * hid] entries to the next
    one, a unidirectional layer [hid]. *)
Fixpoint lstm_layers_built (i hid : nat) (bi : bool)
         (ls : list (LSTMCell * option LSTMCell)) : bool :=
  match ls with
  | [] => true
  | (fw, bw) :: ls' =>
      LSTMCell_built i hid fw
      && match bw with
         | Some c => bi && LSTMCell_built i hid c
         | None => negb bi
         end
      && lstm_layers_built (if bi then 2 * hid else hid) hid bi ls'
  end.

(** Modelled from the spec: the sizes [LSTMLayer(i, hid, n, bi=bi)] of
    layer.py gives its encoder; the library refuses to build a
    recurrent encoder without a layer. *)
Definition LSTMLayer_built (i hid n : nat) (bi : bool) (l : LSTMLayer) : bool :=
  (lstm_in_dim l =? i) && (lstm_out_dim l =? hid)
  && (1 <=? n) && (length (lstm_layers l) =? n)
  && lstm_layers_built i hid bi (lstm_layers l).

(** Modelled from the spec: the sizes [AttnLayer(i, a)] of layer.py
    gives its weights. *)
Definition AttnLayer_built (i a : nat) (l : AttnLayer) : bool :=
  (attn_in_dim l =? i) && (attn_dim l =? a)
  && (length (attn_w l) =? a) && all_length i (attn_w l)
  && (length (attn_b l) =? a) && (length (attn_u l) =? a).

(** model.py, lines 22-27. *)
Definition LSTMModel_built (config : Config) (m : LSTMModel) : bool :=
  Embedding_built (vocab config) (embed_dim config) (LSTM_embedding m)
  && LSTMLayer_built (embed_dim config) (hidden_dim config) (n_layer config) false
                     (LSTM_lstm m)
  && Linear_built (hidden_dim config) (tag_dim config) (LSTM_linear m)
  && (LSTM_padding_id m =? padding_id config)%Z.

(** model.py, lines 47-52. *)
Definition RCNNModel_built (config : Config) (m : RCNNModel) : bool :=
  Embedding_built (vocab config) (embed_dim config) (RCNN_embedding m)
  && LSTMLayer_built (embed_dim config) (embed_dim config / 2) 1 true (RCNN_bilstm m)
  && Linear_built (2 * embed_dim config) (hidden_dim config) (RCNN_encoder m)
  && Linear_built (hidden_dim config) (tag_dim config) (RCNN_linear m).

(** model.py, lines 68-74. *)
Definition BiLSTMAttnModel_built (config : Config) (m : BiLSTMAttnModel) : bool :=
  Embedding_built (vocab config) (embed_dim config) (BiLSTMAttn_embedding m)
  && LSTMLayer_built (embed_dim config) (hidden_dim config / 2) 1 true
                     (BiLSTMAttn_bilstm m)
  && AttnLayer_built (hidden_dim config) (cfg_attn_dim config) (BiLSTMAttn_attn m)
  && Linear_built (hidden_dim config) (tag_dim config) (BiLSTMAttn_linear m)
  && (BiLSTMAttn_padding_id m =? padding_id config)%Z.

(** model.py, lines 89-92. *)
Definition CNNModel_built (config : Config) (m : CNNModel) : bool :=
  Embedding_built (vocab config) (embed_dim config) (CNN_embedding m)
  && CNNLayer_built_default (embed_dim config) (hidden_dim config) (CNN_conv m)
  && Linear_built (hidden_dim config) (tag_dim config) (CNN_linear m).

(** model.py, lines 112-121. *)
Definition TextCNNModel_built (config : Config) (m : TextCNNModel) : bool :=
  Embedding_built (vocab config) (embed_dim config) (TextCNN_embedding m)
  && CNNLayer_built (embed_dim config) (hidden_dim config) 2 0 (TextCNN_conv1 m)
  && CNNLayer_built (embed_dim config) (hidden_dim config) 3 0 (TextCNN_conv2 m)
  && CNNLayer_built (embed_dim config) (hidden_dim config) 4 0 (TextCNN_conv3 m)
  && Linear_built (hidden_dim config * 3) (tag_dim config) (TextCNN_linear m).

(** model.py, lines 150-158; [hidden_dim = 250] is the constant of
    line 152, not the field of the configuration. *)
Definition DPCNNModel_built (config : Config) (m : DPCNNModel) : bool :=
  let hidden_dim := 250 in
  Embedding_built (vocab config) (embed_dim config) (DPCNN_embedding m)
  && CNNLayer_built (embed_dim config) hidden_dim 3 1 (DPCNN_region_embedding m)
  && CNNLayer_built hidden_dim hidden_dim 3 1 (DPCNN_conv1 m)
  && CNNLayer_built hidden_dim hidden_dim 3 1 (DPCNN_conv2 m)
  && (length (DPCNN_blocks m) =? n_block config)
  && Linear_built hidden_dim (tag_dim config) (DPCNN_linear m).

(** model.py, lines 185-189. *)
Definition CNNAttnModel_built (config : Config) (m : CNNAttnModel) : bool :=
  Embedding_built (vocab config) (embed_dim config) (CNNAttn_embedding m)
  && CNNLayer_built_default (embed_dim config) (hidden_dim config) (CNNAttn_cnn m)
  && AttnLayer_built (hidden_dim config) (cfg_attn_dim config) (CNNAttn_attn m)
  && Linear_built (hidden_dim config) (tag_dim config) (CNNAttn_linear m).

(** ** Input batches *)

(** An input of the interface: a matrix of [b] rows of [n] token ids,
    each in [0, vocab). *)
Definition ids_in_vocab (v : nat) (x : Ids) : bool :=
  forallb (forallb (fun t => (0 <=? t)%Z && (t <? Z.of_nat v)%Z)) x.

Definition batch_of (config : Config) (b n : nat) (x : Ids) : Prop :=
  has_shape2 b n x /\ ids_in_vocab (vocab config) x = true.

(** ** Named parts of the forward passes *)

(** The column indices of line 40: [lens - 1], row by row. *)
Definition last_columns (n : nat) (pad : Z) (x : Ids) : list Z :=
  map (fun l => (l - 1)%Z)
      (map (fun row => (Z.of_nat n - Z.of_nat (count_padding row pad))%Z) x).

(** The specification's "last non-padding position" of a row: the
    greatest position that does not hold the padding id, if the row has
    one. *)
Fixpoint spec_last_non_padding (row : list Z) (pad : Z) : option nat :=
  match row with
  | [] => None
  | t :: row' =>
      match spec_last_non_padding row' pad with
      | Some p => Some (S p)
      | None => if (t =? pad)%Z then None else Some 0
      end
  end.

(** The recurrent state obtained by feeding the tokens [toks] alone, no
    padding, through the embedding and the encoder of [self]: the
    encoder's state at the last position, [h[0, -1, :]]. *)
Definition LSTMModel_final_state (self : LSTMModel) (toks : list Z) : Result Vec :=
  e <- Embedding_forward (LSTM_embedding self) [toks] ;;
  h <- LSTMLayer_forward (LSTM_lstm self) e ;;
  s <- index_axis h 0 ;;
  index_axis s (-1).

(** The forward pass of [DPCNNModel] as the specification words it for
    a model without blocks: the sum
    [conv2(relu(conv1(relu(region_embedding(emb))))) + region_embedding(emb)],
    its maximum over the positions, and the linear head. *)
Definition DPCNNModel_without_blocks (self : DPCNNModel) (x : Ids) : Result T2 :=
  emb <- Embedding_forward (DPCNN_embedding self) x ;;
  region <- CNNLayer_forward (DPCNN_region_embedding self) emb ;;
  c1 <- CNNLayer_forward (DPCNN_conv1 self) (relu3 region) ;;
  c2 <- CNNLayer_forward (DPCNN_conv2 self) (relu3 c1) ;;
  s <- add3 c2 region ;;
  pooled <- max_dim1 s ;;
  Linear_forward (DPCNN_linear self) pooled.

(** ** Calls that may have effects *)

Section Effects.
(** Whatever a call could read or write besides its arguments: the
    attributes of the modules, buffers, the state of a generator. *)
Context {W : Type}.

#[global] Instance Monad_Call : Monad (Call W) := {|
  ret := fun _ a w => (Ok a, w);
  bind := fun _ _ c k w =>
            match c w with
            | (inl e, w') => (Raise e, w')
            | (inr a, w') => k a w'
            end
|}.

#[global] Instance Exception_Call : MonadExc Error (Call W) := {|
  raise := fun _ e w => (Raise e, w);
  catch := fun _ c h w =>
             match c w with
             | (inl e, w') => h e w'
             | (inr a, w') => (Ok a, w')
             end
|}.

(** In the world [w] the call [c] behaves as the function [f]: its
    result is [f]'s, and it leaves the world as it found it. *)
Definition pure_call {A B : Type} (c : A -> Call W B) (f : A -> Result B) (w : W) : Prop :=
  forall a : A, c a w = (f a, w).

(** Two calls in a row from the world [w], the second in the world the
    first has left: both give one result, and the world is untouched. *)
Definition repeatable {A B : Type} (c : A -> Call W B) (w : W) : Prop :=
  forall a : A,
    fst (c a (snd (c a w))) = fst (c a w) /\ snd (c a w) = w /\ snd (c a (snd (c a w))) = w.

End Effects.

(** ** Training mode and dropout *)

(** The numeric side of the library's dropout at rate [p], abstract as
    the scalars are: the test [p == 0], one draw from the generator
    (true, "keep", with probability [1 - p]; the generator moves on),
    and the rescaling [a / (1 - p)] of a kept entry. *)
Class Dropout (G : Type) : Type := {
  rate_is_zero : R -> bool;
  bernoulli : R -> G -> bool * G;
  rescale : R -> R -> R
}.

Section Training.
Context {G : Type} {D : Dropout G}.

(** One entry under dropout: kept and rescaled, or zeroed. *)
Definition dropout_entry (p : R) (a : R) (g : G) : R * G :=
  let (keep, g') := bernoulli p g in
  (if keep then rescale p a else s0, g').

(** The library's dropout on a tensor, [F.dropout(x, p, training)]: in
    training mode and at a rate other than 0 every entry is drawn for;
    otherwise the tensor is returned as it is and nothing is drawn. *)
Definition F_dropout (p : R) (x : T3) : Call (World G) T3 :=
  fun w =>
    if training w && negb (rate_is_zero p)
    then let (y, g) := draw_list (draw_list (draw_list (dropout_entry p))) x (generator w) in
         (Ok y, {| training := training w; generator := g |})
    else (Ok x, w).

(** Modelled from the spec: what [LSTMLayer] of layer.py, absent from
    the sources, does with its [dropout] argument.  The specification
    lists [dropout: float] in the configuration and says no more; the
    layer is taken to hand the rate to the library's LSTM, which applies
    dropout to the states each layer passes to the next one and leaves
    the states of the last layer alone. *)
Fixpoint lstm_stack_dropout (hid : nat) (p : R) (ls : list (LSTMCell * option LSTMCell))
         (x : T3) : Call (World G) T3 :=
  match ls with
  | [] => ret x
  | l :: ls' =>
      let y := map (lstm_layer hid l) x in
      match ls' with
      | [] => ret y
      | _ :: _ => z <- F_dropout p y ;; lstm_stack_dropout hid p ls' z
      end
  end.

(** Modelled from the spec: a call of [LSTMLayer] in a world; the same
    check of the input width as [LSTMLayer_forward], then the stack
    with its dropout. *)
Definition LSTMLayer_call (l : LSTMLayer) (x : T3) : Call (World G) T3 :=
  if forallb (all_length (lstm_in_dim l)) x
  then lstm_stack_dropout (lstm_out_dim l) (lstm_dropout l) (lstm_layers l) x
  else raise RuntimeError.

(** Modelled from the spec: the runtime of the library with its modes,
    for the layers of layer.py, absent from the sources.  The
    convolution, the attention layer and the pyramid block run their
    forward pass in either mode and draw nothing ("each a
    stateless-shape transformer given trained parameters"), as
    [nn.Embedding] and [nn.Linear] do; the encoder is the one layer
    that model.py gives a dropout rate. *)
Definition torch_world : Runtime (Call (World G)) := {|
  call_embedding := fun e x w => (Embedding_forward e x, w);
  call_lstm := LSTMLayer_call;
  call_cnn := fun c x w => (CNNLayer_forward c x, w);
  call_attn := fun a x w => (AttnLayer_forward a x, w);
  call_block := fun blk x w => (CNNBlock_forward blk x, w);
  call_linear := fun l x w => (Linear_forward l x, w);
  call_linear3 := fun l x w => (Linear_forward3 l x, w)
|}.

End Training.

(** model.py, line 25: [dropout=config.dropout]; the rate of the
    configuration is the one the encoder of [LSTMModel] is built
    with. *)
Definition LSTMModel_dropout (config : Config) (m : LSTMModel) : Prop :=
  lstm_dropout (LSTM_lstm m) = dropout config.

End Network.

Arguments call_embedding {R M} _ _ _.
Arguments call_lstm {R M} _ _ _.
Arguments call_cnn {R M} _ _ _.
Arguments call_attn {R M} _ _ _.
Arguments call_block {R M} _ _ _.
Arguments call_linear {R M} _ _ _.
Arguments call_linear3 {R M} _ _ _.
Arguments Dropout : clear implicits.

(** * Concrete models and batches *)

(** Integers with stand-ins for the real functions (sign for tanh, a
    step for the sigmoid, a constant for exp).  The theorems above hold
    for every choice of scalar operations; this one lets the definitions
    run on concrete batches. *)
#[local] Instance Z_scalar : Scalar Z := {|
  s0 := 0%Z;
  sadd := Z.add;
  smul := Z.mul;
  sdiv := Z.div;
  smax := Z.max;
  srelu := Z.max 0;
  stanh := Z.sgn;
  ssigmoid := fun z => if (0 <? z)%Z then 1%Z else 0%Z;
  sexp := fun _ => 1%Z
|}.

(** The configuration of the specification's end-to-end scenario:
    vocab = 100, embed_dim = 8, hidden_dim = 16, tag_dim = 3,
    padding_id = 0. *)
Definition example_config : @Config Z := {|
  vocab := 100;
  embed_dim := 8;
  hidden_dim := 16;
  tag_dim := 3;
  padding_id := 0%Z;
  n_layer := 2;
  dropout := 0%Z;
  cfg_attn_dim := 4;
  n_block := 0
|}.

(** The same with one pyramid block. *)
Definition example_config_block : @Config Z := {|
  vocab := 100;
  embed_dim := 8;
  hidden_dim := 16;
  tag_dim := 3;
  padding_id := 0%Z;
  n_layer := 2;
  dropout := 0%Z;
  cfg_attn_dim := 4;
  n_block := 1
|}.

(** An odd embedding width. *)
Definition example_config_odd : @Config Z := {|
  vocab := 100;
  embed_dim := 7;
  hidden_dim := 16;
  tag_dim := 3;
  padding_id := 0%Z;
  n_layer := 2;
  dropout := 0%Z;
  cfg_attn_dim := 4;
  n_block := 0
|}.

(** The batch of the scenario, and batches of four and of three
    positions. *)
Definition example_batch : Ids := [[5; 6; 7; 0; 0]; [5; 6; 7; 8; 9]]%Z.
Definition example_batch4 : Ids := [[5; 6; 7; 0]; [5; 6; 7; 8]]%Z.
Definition example_batch3 : Ids := [[5; 6; 0]; [5; 6; 7]]%Z.

(** Layers of given sizes with simple weights; token [t] is embedded as
    the vector of [d] entries [t], the padding id 0 as the zero
    vector. *)
Definition example_embedding (n d : nat) : @Embedding Z := {|
  num_embeddings := n;
  embedding_dim := d;
  emb_weight := map (fun t => repeat (Z.of_nat t) d) (seq 0 n)
|}.

Definition example_linear (i o : nat) : @Linear Z := {|
  in_features := i;
  out_features := o;
  lin_weight := repeat (repeat 1%Z i) o;
  lin_bias := repeat 0%Z o
|}.

Definition example_cnn (i o win pad : nat) : @CNNLayer Z := {|
  cnn_in_dim := i;
  cnn_out_dim := o;
  cnn_win := win;
  cnn_pad := pad;
  cnn_weight := repeat (repeat (repeat 1%Z i) win) o;
  cnn_bias := repeat 0%Z o
|}.

Definition example_cell (i hid : nat) : @LSTMCell Z := {|
  w_ih := repeat (repeat 1%Z i) (4 * hid);
  w_hh := repeat (repeat 1%Z hid) (4 * hid);
  b_ih := repeat 0%Z (4 * hid);
  b_hh := repeat 0%Z (4 * hid)
|}.

Definition example_lstm_layer (i hid n : nat) (bi : bool) (p : Z) : @LSTMLayer Z := {|
  lstm_in_dim := i;
  lstm_out_dim := hid;
  lstm_layers :=
    (example_cell i hid, if bi then Some (example_cell i hid) else None)
    :: repeat (example_cell (lstm_width hid bi) hid,
               if bi then Some (example_cell (lstm_width hid bi) hid) else None)
              (n - 1);
  lstm_dropout := p
|}.

Definition example_attn (i a : nat) : @AttnLayer Z := {|
  attn_in_dim := i;
  attn_dim := a;
  attn_w := repeat (repeat 1%Z i) a;
  attn_b := repeat 0%Z a;
  attn_u := repeat 1%Z a
|}.

Definition example_LSTMModel (config : @Config Z) : @LSTMModel Z := {|
  LSTM_embedding := example_embedding (vocab config) (embed_dim config);
  LSTM_lstm := example_lstm_layer (embed_dim config) (hidden_dim config)
                                  (n_layer config) false (dropout config);
  LSTM_linear := example_linear (hidden_dim config) (tag_dim config);
  LSTM_padding_id := padding_id config
|}.

Definition example_RCNNModel (config : @Config Z) : @RCNNModel Z := {|
  RCNN_embedding := example_embedding (vocab config) (embed_dim config);
  RCNN_bilstm := example_lstm_layer (embed_dim config) (embed_dim config / 2) 1 true 0;
  RCNN_encoder := example_linear (2 * embed_dim config) (hidden_dim config);
  RCNN_linear := example_linear (hidden_dim config) (tag_dim config)
|}.

Definition example_BiLSTMAttnModel (config : @Config Z) : @BiLSTMAttnModel Z := {|
  BiLSTMAttn_embedding := example_embedding (vocab config) (embed_dim config);
  BiLSTMAttn_bilstm :=
    example_lstm_layer (embed_dim config) (hidden_dim config / 2) 1 true 0;
  BiLSTMAttn_attn := example_attn (hidden_dim config) (cfg_attn_dim config);
  BiLSTMAttn_linear := example_linear (hidden_dim config) (tag_dim config);
  BiLSTMAttn_padding_id := padding_id config
|}.

Definition example_CNNModel (config : @Config Z) : @CNNModel Z := {|
  CNN_embedding := example_embedding (vocab config) (embed_dim config);
  CNN_conv := example_cnn (embed_dim config) (hidden_dim config) 3 1;
  CNN_linear := example_linear (hidden_dim config) (tag_dim config)
|}.

Definition example_TextCNNModel (config : @Config Z) : @TextCNNModel Z := {|
  TextCNN_embedding := example_embedding (vocab config) (embed_dim config);
  TextCNN_conv1 := example_cnn (embed_dim config) (hidden_dim config) 2 0;
  TextCNN_conv2 := example_cnn (embed_dim config) (hidden_dim config) 3 0;
  TextCNN_conv3 := example_cnn (embed_dim config) (hidden_dim config) 4 0;
  TextCNN_linear := example_linear (hidden_dim config * 3) (tag_dim config)
|}.

Definition example_CNNAttnModel (config : @Config Z) : @CNNAttnModel Z := {|
  CNNAttn_embedding := example_embedding (vocab config) (embed_dim config);
  CNNAttn_cnn := example_cnn (embed_dim config) (hidden_dim config) 3 1;
  CNNAttn_attn := example_attn (hidden_dim config) (cfg_attn_dim config);
  CNNAttn_linear := example_linear (hidden_dim config) (tag_dim config)
|}.

(** A block for the runs: the maximum of each two neighbouring
    positions (a single position is kept), which halves the sequence. *)
Fixpoint pool_pairs (s : list (list Z)) : list (list Z) :=
  match s with
  | u :: v :: s' => vmax u v :: pool_pairs s'
  | _ => s
  end.

Definition example_block : @CNNBlock Z := {|
  block_forward := fun y => Ok (map pool_pairs y)
|}.

Definition example_DPCNNModel (config : @Config Z) : @DPCNNModel Z := {|
  DPCNN_embedding := example_embedding (vocab config) (embed_dim config);
  DPCNN_region_embedding := example_cnn (embed_dim config) 250 3 1;
  DPCNN_conv1 := example_cnn 250 250 3 1;
  DPCNN_conv2 := example_cnn 250 250 3 1;
  DPCNN_blocks := repeat example_block (n_block config);
  DPCNN_linear := example_linear 250 (tag_dim config)
|}.

(** One encoder layer, and an embedding that gives the tokens with an
    even id entries below zero, so that the states of the encoder differ
    from one position to the next. *)
Definition example_config_single : @Config Z := {|
  vocab := 100;
  embed_dim := 8;
  hidden_dim := 16;
  tag_dim := 3;
  padding_id := 0%Z;
  n_layer := 1;
  dropout := 0%Z;
  cfg_attn_dim := 4;
  n_block := 0
|}.

Definition example_signed_embedding (n d : nat) : @Embedding Z := {|
  num_embeddings := n;
  embedding_dim := d;
  emb_weight :=
    map (fun t => repeat (if Nat.even t then (- Z.of_nat t)%Z else Z.of_nat t) d) (seq 0 n)
|}.

Definition example_signed_LSTMModel (config : @Config Z) : @LSTMModel Z := {|
  LSTM_embedding := example_signed_embedding (vocab config) (embed_dim config);
  LSTM_lstm := example_lstm_layer (embed_dim config) (hidden_dim config)
                                  (n_layer config) false (dropout config);
  LSTM_linear := example_linear (hidden_dim config) (tag_dim config);
  LSTM_padding_id := padding_id config
|}.

(** A stand-in for the library's generator and for the numeric side of
    dropout: the generator is a counter, every other draw keeps its
    entry, and the rate is read in percent. *)
#[local] Instance Z_dropout : Dropout Z Z := {|
  rate_is_zero := fun p => (p =? 0)%Z;
  bernoulli := fun _ g => (Z.even g, (g + 1)%Z);
  rescale := fun p a => (a * 100 / (100 - p))%Z
|}.

(** A small configuration with two encoder layers and a dropout rate of
    one half. *)
Definition example_config_dropout : @Config Z := {|
  vocab := 100;
  embed_dim := 8;
  hidden_dim := 1;
  tag_dim := 3;
  padding_id := 0%Z;
  n_layer := 2;
  dropout := 50%Z;
  cfg_attn_dim := 4;
  n_block := 0
|}.

(** A model just constructed is in training mode; [eval()] clears the
    flag. *)
Definition example_world_training : World Z := {| training := true; generator := 0%Z |}.
Definition example_world_eval : World Z := {| training := false; generator := 0%Z |}.

(** * Properties *)

Section Properties.
Context {R : Type} {SR : Scalar R}.

Local Abbreviation Vec := (list R).
Local Abbreviation T2 := (list (list R)).
Local Abbreviation T3 := (list (list (list R))).
Local Abbreviation Embedding := (@Embedding R).
Local Abbreviation Linear := (@Linear R).
Local Abbreviation CNNLayer := (@CNNLayer R).
Local Abbreviation LSTMCell := (@LSTMCell R).
Local Abbreviation LSTMLayer := (@LSTMLayer R).
Local Abbreviation AttnLayer := (@AttnLayer R).
Local Abbreviation CNNBlock := (@CNNBlock R).
Local Abbreviation Runtime := (@Runtime R).
Local Abbreviation Config := (@Config R).
Local Abbreviation LSTMModel := (@LSTMModel R).
Local Abbreviation RCNNModel := (@RCNNModel R).
Local Abbreviation BiLSTMAttnModel := (@BiLSTMAttnModel R).
Local Abbreviation CNNModel := (@CNNModel R).
Local Abbreviation TextCNNModel := (@TextCNNModel R).
Local Abbreviation DPCNNModel := (@DPCNNModel R).
Local Abbreviation CNNAttnModel := (@CNNAttnModel R).

(** ** Traversals *)

Lemma map2_length {A B C : Type} (f : A -> B -> C) (l1 : list A) (l2 : list B) :
  length (map2 f l1 l2) = Nat.min (length l1) (length l2).
Proof.
  revert l2; induction l1 as [|a l1 IH]; intros [|b l2]; simpl; auto.
Qed.

Lemma mapM_Forall {A B : Type} (f : A -> Result B) (P : A -> Prop) (Q : B -> Prop)
      (l : list A) :
  (forall a, P a -> exists b, f a = Ok b /\ Q b) ->
  Forall P l ->
  exists l', mapM f l = Ok l' /\ Forall Q l' /\ length l' = length l.
Proof.
  intros Hf; induction 1 as [|a l Ha _ IH]; simpl.
  - exists []; auto.
  - destruct (Hf a Ha) as (b & -> & Hb), IH as (l' & -> & HQ & Hlen).
    exists (b :: l'); simpl; auto.
Qed.

Lemma mapM_ok_Forall2 {A B : Type} (f : A -> Result B) (l : list A) (l' : list B) :
  mapM f l = Ok l' <-> Forall2 (fun a b => f a = Ok b) l l'.
Proof.
  revert l'; induction l as [|a l IH]; intros l'; simpl.
  - split; [intros [= <-]; constructor | inversion 1; reflexivity].
  - destruct (f a) as [e|b] eqn:Hfa.
    + split; [discriminate | inversion 1; congruence].
    + destruct (mapM f l) as [e|bs] eqn:Hl.
      * split; [discriminate |].
        inversion 1; subst. apply IH in H4. discriminate.
      * split.
        -- intros [= <-]. constructor; [assumption | now apply IH].
        -- inversion 1; subst. apply IH in H4. congruence.
Qed.

Lemma mapM_raise {A B : Type} (f : A -> Result B) (e : Error) (l : list A) :
  l <> [] -> Forall (fun a => f a = Raise e) l -> mapM f l = Raise e.
Proof.
  intros Hne Hall; destruct Hall as [|a l Ha _]; [congruence|].
  simpl; now rewrite Ha.
Qed.

Lemma zipM_Forall {A B C : Type} (f : A -> B -> Result C)
      (P : A -> Prop) (P' : B -> Prop) (Q : C -> Prop) (l1 : list A) (l2 : list B) :
  (forall a b, P a -> P' b -> exists c, f a b = Ok c /\ Q c) ->
  Forall P l1 -> Forall P' l2 -> length l1 = length l2 ->
  exists l', zipM f l1 l2 = Ok l' /\ Forall Q l' /\ length l' = length l1.
Proof.
  intros Hf H1; revert l2; induction H1 as [|a l1 Ha _ IH]; intros l2 H2 Hlen.
  - destruct l2; [|discriminate]. exists []; simpl; auto.
  - destruct H2 as [|b l2 Hb H2]; [discriminate|]. simpl in *.
    destruct (Hf a b Ha Hb) as (c & -> & Hc).
    destruct (IH l2 H2) as (l' & -> & HQ & Hl); [lia|].
    exists (c :: l'); simpl; auto.
Qed.

Lemma zipM_raise {A B C : Type} (f : A -> B -> Result C) (e : Error)
      (a : A) (l1 : list A) (b : B) (l2 : list B) :
  f a b = Raise e -> zipM f (a :: l1) (b :: l2) = Raise e.
Proof. intros H; simpl; now rewrite H. Qed.

Lemma Forall_map_iff {A B : Type} (f : A -> B) (P : B -> Prop) (l : list A) :
  Forall P (map f l) <-> Forall (fun a => P (f a)) l.
Proof. apply Forall_map. Qed.

Lemma all_length_Forall {A : Type} (n : nat) (l : list (list A)) :
  all_length n l = true <-> Forall (fun v => length v = n) l.
Proof.
  unfold all_length; rewrite forallb_forall, Forall_forall.
  split; intros H v Hv; apply Nat.eqb_eq; auto.
Qed.

(** Splitting the boolean conjunctions of the [_built] predicates. *)
Ltac bools :=
  repeat match goal with
         | H : _ && _ = true |- _ => apply andb_prop in H; destruct H
         | H : (_ =? _) = true |- _ => apply Nat.eqb_eq in H
         | H : (_ <=? _) = true |- _ => apply Nat.leb_le in H
         | H : (_ =? _)%Z = true |- _ => apply Z.eqb_eq in H
         | H : all_length _ _ = true |- _ => apply all_length_Forall in H
         end.

(** ** The sequence lengths *)

Lemma sum_bools_count (row : list Z) (v acc : Z) :
  fold_left (fun a (b : bool) => (a + Z.b2z b)%Z) (map (fun t => Z.eqb t v) row) acc
  = (acc + Z.of_nat (count_padding row v))%Z.
Proof.
  unfold count_padding.
  revert acc; induction row as [|t row IH]; intros acc; simpl; [lia|].
  rewrite IH. destruct (Z.eqb_spec t v) as [->|Hne].
  - destruct (Z.eq_dec v v); [simpl; lia | congruence].
  - destruct (Z.eq_dec t v); [congruence | simpl; lia].
Qed.

Lemma cal_seq_len_rows (x : Ids) (max_seq_len pad : Z) :
  cal_seq_len x max_seq_len pad
  = map (fun row => (max_seq_len - Z.of_nat (count_padding row pad))%Z) x.
Proof.
  unfold cal_seq_len, sum_last, eq_scalar. rewrite !map_map.
  apply map_ext; intros row. now rewrite sum_bools_count.
Qed.

Lemma count_padding_le (row : list Z) (v : Z) : count_padding row v <= length row.
Proof. apply count_occ_bound. Qed.

(** C5.  For a batch whose rows have [max_seq_len] positions,
    [cal_seq_len] gives, row by row, [max_seq_len] minus the number of
    positions equal to the padding id, and each of these lengths lies
    between 0 and [max_seq_len]. *)
Theorem cal_seq_len_spec (x : Ids) (max_seq_len : nat) (pad : Z) :
  Forall (fun row => length row = max_seq_len) x ->
  cal_seq_len x (Z.of_nat max_seq_len) pad
  = map (fun row => (Z.of_nat max_seq_len - Z.of_nat (count_padding row pad))%Z) x
  /\ Forall (fun len => (0 <= len <= Z.of_nat max_seq_len)%Z)
            (cal_seq_len x (Z.of_nat max_seq_len) pad).
Proof.
  intros Hrows. split; [apply cal_seq_len_rows|].
  rewrite cal_seq_len_rows, Forall_map.
  eapply Forall_impl; [|exact Hrows].
  intros row Hlen; cbv beta in *. pose proof (count_padding_le row pad). lia.
Qed.

(** ** The [_built] predicates, as propositions *)

Lemma Embedding_built_spec (n d : nat) (e : Embedding) :
  Embedding_built n d e = true ->
  num_embeddings e = n /\ embedding_dim e = d
  /\ length (emb_weight e) = n /\ Forall (fun v => length v = d) (emb_weight e).
Proof. unfold Embedding_built; intros H; bools; auto. Qed.

Lemma Linear_built_spec (i o : nat) (l : Linear) :
  Linear_built i o l = true ->
  in_features l = i /\ out_features l = o
  /\ length (lin_weight l) = o /\ Forall (fun v => length v = i) (lin_weight l)
  /\ length (lin_bias l) = o.
Proof. unfold Linear_built; intros H; bools; auto. Qed.

Lemma CNNLayer_built_spec (i o win pad : nat) (c : CNNLayer) :
  CNNLayer_built i o win pad c = true ->
  cnn_in_dim c = i /\ cnn_out_dim c = o /\ cnn_win c = win /\ cnn_pad c = pad
  /\ length (cnn_weight c) = o /\ length (cnn_bias c) = o.
Proof. unfold CNNLayer_built; intros H; bools; auto 10. Qed.

Lemma LSTMCell_built_spec (i hid : nat) (cell : LSTMCell) :
  LSTMCell_built i hid cell = true ->
  length (w_ih cell) = 4 * hid /\ length (w_hh cell) = 4 * hid
  /\ length (b_ih cell) = 4 * hid /\ length (b_hh cell) = 4 * hid.
Proof. unfold LSTMCell_built; intros H; bools; auto. Qed.

Lemma LSTMLayer_built_spec (i hid n : nat) (bi : bool) (l : LSTMLayer) :
  LSTMLayer_built i hid n bi l = true ->
  lstm_in_dim l = i /\ lstm_out_dim l = hid /\ 1 <= n
  /\ length (lstm_layers l) = n /\ lstm_layers_built i hid bi (lstm_layers l) = true.
Proof. unfold LSTMLayer_built; intros H; bools; auto. Qed.

Lemma AttnLayer_built_spec (i a : nat) (l : AttnLayer) :
  AttnLayer_built i a l = true ->
  attn_in_dim l = i /\ attn_dim l = a.
Proof. unfold AttnLayer_built; intros H; bools; auto. Qed.

(** ** Shapes of the library operations *)

Lemma matvec_length (w : list Vec) (v : Vec) : length (matvec w v) = length w.
Proof. unfold matvec; apply length_map. Qed.

Lemma vadd_length (u v : Vec) : length (vadd u v) = Nat.min (length u) (length v).
Proof. apply map2_length. Qed.

Lemma vmul_length (u v : Vec) : length (vmul u v) = Nat.min (length u) (length v).
Proof. apply map2_length. Qed.

Lemma vmax_length (u v : Vec) : length (vmax u v) = Nat.min (length u) (length v).
Proof. apply map2_length. Qed.

Lemma zeros_length (n : nat) : length (zeros n) = n.
Proof. apply repeat_length. Qed.

Lemma Embedding_lookup_ok (n d : nat) (e : Embedding) (t : Z) :
  Embedding_built n d e = true ->
  ((0 <=? t)%Z && (t <? Z.of_nat n)%Z) = true ->
  exists v, Embedding_lookup e t = Ok v /\ length v = d.
Proof.
  intros Hb Ht. destruct (Embedding_built_spec _ _ _ Hb) as (_ & _ & Hn & Hw).
  apply andb_prop in Ht; destruct Ht as [H0 Hlt].
  apply Z.leb_le in H0. apply Z.ltb_lt in Hlt. unfold Embedding_lookup.
  destruct (Z.ltb_spec t 0); [lia|].
  destruct (nth_error (emb_weight e) (Z.to_nat t)) as [v|] eqn:Hnth.
  - exists v; split; [reflexivity|].
    apply nth_error_In in Hnth. rewrite Forall_forall in Hw. auto.
  - apply nth_error_None in Hnth. lia.
Qed.

Lemma Embedding_forward_shape (n d b len : nat) (e : Embedding) (x : Ids) :
  Embedding_built n d e = true ->
  has_shape2 b len x -> ids_in_vocab n x = true ->
  exists y, Embedding_forward e x = Ok y /\ has_shape3 b len d y.
Proof.
  intros Hb [Hlen Hrows] Hin. unfold Embedding_forward, has_shape3.
  destruct (mapM_Forall (mapM (Embedding_lookup e))
              (fun row => length row = len
                          /\ Forall (fun t => ((0 <=? t)%Z && (t <? Z.of_nat n)%Z) = true) row)
              (seq_shape len d) x)
    as (y & Hy & Hall & Hl).
  - intros row [Hr Hids].
    destruct (mapM_Forall (Embedding_lookup e) _
                (fun v : Vec => length v = d) row
                (fun t Ht => Embedding_lookup_ok n d e t Hb Ht) Hids)
      as (s & Hs & Hsd & Hsl).
    exists s; repeat split; (assumption || congruence).
  - unfold ids_in_vocab in Hin. rewrite forallb_forall in Hin.
    rewrite Forall_forall in *. intros row Hrow. split; [auto|].
    rewrite Forall_forall. apply forallb_forall. auto.
  - exists y; repeat split; (assumption || congruence).
Qed.

Lemma Linear_apply_ok (i o : nat) (l : Linear) (v : Vec) :
  Linear_built i o l = true -> length v = i ->
  exists u, Linear_apply l v = Ok u /\ length u = o.
Proof.
  intros Hb Hv. destruct (Linear_built_spec _ _ _ Hb) as (Hi & _ & Hw & _ & Hbias).
  unfold Linear_apply.
  replace (length v =? in_features l) with true by (symmetry; apply Nat.eqb_eq; lia).
  eexists; split; [reflexivity|].
  rewrite vadd_length, matvec_length. lia.
Qed.

Lemma Linear_apply_raise (i o : nat) (l : Linear) (v : Vec) :
  Linear_built i o l = true -> length v <> i ->
  Linear_apply l v = Raise RuntimeError.
Proof.
  intros Hb Hv. destruct (Linear_built_spec _ _ _ Hb) as (Hi & _).
  unfold Linear_apply.
  destruct (Nat.eqb_spec (length v) (in_features l)); [lia | reflexivity].
Qed.

Lemma Linear_seq_ok (i o len : nat) (l : Linear) (s : list Vec) :
  Linear_built i o l = true -> seq_shape len i s ->
  exists s', mapM (Linear_apply l) s = Ok s' /\ seq_shape len o s'.
Proof.
  intros Hb [Hlen Hrows].
  destruct (mapM_Forall (Linear_apply l) _ (fun u : Vec => length u = o) s
              (fun v Hv => Linear_apply_ok i o l v Hb Hv) Hrows) as (y & Hy & Hall & Hl).
  exists y; repeat split; (assumption || congruence).
Qed.

Lemma Linear_forward_shape (i o b : nat) (l : Linear) (x : T2) :
  Linear_built i o l = true -> has_shape2 b i x ->
  exists y, Linear_forward l x = Ok y /\ has_shape2 b o y.
Proof.
  intros Hb [Hlen Hrows].
  destruct (Linear_seq_ok i o b l x Hb (conj Hlen Hrows)) as (y & Hy & Hs).
  exists y; split; assumption.
Qed.

Lemma Linear_forward3_shape (i o b len : nat) (l : Linear) (x : T3) :
  Linear_built i o l = true -> has_shape3 b len i x ->
  exists y, Linear_forward3 l x = Ok y /\ has_shape3 b len o y.
Proof.
  intros Hb [Hlen Hex]. unfold Linear_forward3, has_shape3.
  destruct (mapM_Forall (mapM (Linear_apply l)) (seq_shape len i) (seq_shape len o) x
              (fun s Hs => Linear_seq_ok i o len l s Hb Hs) Hex) as (y & Hy & Hall & Hl).
  exists y; repeat split; (assumption || congruence).
Qed.

(** A tensor with at least one example and one position, whose vectors
    do not have the width the layer expects, is refused. *)
Lemma Linear_forward3_raise (i o b len d : nat) (l : Linear) (x : T3) :
  Linear_built i o l = true -> has_shape3 b len d x ->
  1 <= b -> 1 <= len -> d <> i ->
  Linear_forward3 l x = Raise RuntimeError.
Proof.
  intros Hb [Hlen Hex] Hb1 Hl1 Hd. unfold Linear_forward3.
  destruct x as [|s x]; [simpl in Hlen; lia|].
  inversion Hex as [|? ? [Hs Hvs] _]; subst.
  destruct s as [|v s]; [simpl in Hl1; lia|].
  inversion Hvs as [|? ? Hv _]; subst.
  simpl. rewrite (Linear_apply_raise i o l v Hb) by lia. reflexivity.
Qed.

Lemma relu2_shape (b d : nat) (x : T2) : has_shape2 b d x -> has_shape2 b d (relu2 x).
Proof.
  intros [Hl Hr]; split; unfold relu2; [now rewrite length_map|].
  rewrite Forall_map. eapply Forall_impl; [|exact Hr].
  intros v Hv; cbv beta. now rewrite length_map.
Qed.

Lemma map3_shape (f : R -> R) (b len d : nat) (x : T3) :
  has_shape3 b len d x -> has_shape3 b len d (map (map (map f)) x).
Proof.
  intros [Hl Hr]; split; [now rewrite length_map|].
  rewrite Forall_map. eapply Forall_impl; [|exact Hr].
  intros s [Hs Hv]; cbv beta. split; [now rewrite length_map|].
  rewrite Forall_map. eapply Forall_impl; [|exact Hv].
  intros v Hvd; cbv beta. now rewrite length_map.
Qed.

Lemma fold_vmax_length (d : nat) (s : list Vec) (v : Vec) :
  length v = d -> Forall (fun u => length u = d) s ->
  length (fold_left vmax s v) = d.
Proof.
  intros Hv Hs; revert v Hv; induction Hs as [|u s Hu _ IH]; intros v Hv; simpl; auto.
  apply IH. rewrite vmax_length. lia.
Qed.

Lemma max_dim1_shape (b len d : nat) (x : T3) :
  has_shape3 b len d x -> 1 <= len ->
  exists y, max_dim1 x = Ok y /\ has_shape2 b d y.
Proof.
  intros [Hlen Hex] Hl1. unfold max_dim1, has_shape2.
  destruct (mapM_Forall max_positions (seq_shape len d) (fun u : Vec => length u = d) x)
    as (y & Hy & Hall & Hl); [|exact Hex|].
  - intros s [Hs Hvs]. destruct s as [|v s]; [simpl in Hs; lia|].
    inversion Hvs; subst. eexists; split; [reflexivity|].
    now apply fold_vmax_length.
  - exists y; repeat split; (assumption || congruence).
Qed.

(** ** Shapes of the layers *)

Lemma windows_length (win : nat) (s : list Vec) :
  length (windows win s) = length s + 1 - win.
Proof. unfold windows. now rewrite length_map, length_seq. Qed.

Lemma conv_at_length (i o win pad : nat) (c : CNNLayer) (w : list Vec) :
  CNNLayer_built i o win pad c = true -> length (conv_at c w) = o.
Proof.
  intros Hb. destruct (CNNLayer_built_spec _ _ _ _ _ Hb) as (_ & _ & _ & _ & Hw & Hbias).
  unfold conv_at. rewrite vadd_length, length_map. lia.
Qed.

Lemma conv1d_ok (i o win pad n : nat) (c : CNNLayer) (s : list Vec) :
  CNNLayer_built i o win pad c = true ->
  seq_shape n i s -> win <= n + 2 * pad ->
  exists s', conv1d c s = Ok s' /\ seq_shape (n + 2 * pad + 1 - win) o s'.
Proof.
  intros Hb [Hn Hv] Hwin.
  destruct (CNNLayer_built_spec _ _ _ _ _ Hb) as (Hi & _ & Hw & Hp & _).
  unfold conv1d. rewrite Hi, Hw, Hp.
  rewrite (proj2 (all_length_Forall i s) Hv).
  rewrite !length_app, !repeat_length, Hn.
  destruct (Nat.leb_spec win (pad + (n + pad))); [|lia].
  eexists; split; [reflexivity|]. split.
  - rewrite length_map, windows_length, !length_app, !repeat_length. lia.
  - rewrite Forall_map, Forall_forall. intros w _. now apply conv_at_length with i win pad.
Qed.

Lemma conv1d_raise (i o win pad n : nat) (c : CNNLayer) (s : list Vec) :
  CNNLayer_built i o win pad c = true ->
  seq_shape n i s -> n + 2 * pad < win ->
  conv1d c s = Raise RuntimeError.
Proof.
  intros Hb [Hn Hv] Hwin.
  destruct (CNNLayer_built_spec _ _ _ _ _ Hb) as (Hi & _ & Hw & Hp & _).
  unfold conv1d. rewrite Hi, Hw, Hp.
  rewrite (proj2 (all_length_Forall i s) Hv).
  rewrite !length_app, !repeat_length, Hn.
  destruct (Nat.leb_spec win (pad + (n + pad))); [lia | reflexivity].
Qed.

(** The convolution keeps the batch axis, maps [n] positions to
    [n + 2 pad - win + 1] and gives [o] features at each. *)
Lemma CNNLayer_forward_shape (i o win pad b n : nat) (c : CNNLayer) (x : T3) :
  CNNLayer_built i o win pad c = true ->
  has_shape3 b n i x -> win <= n + 2 * pad ->
  exists y, CNNLayer_forward c x = Ok y /\ has_shape3 b (n + 2 * pad + 1 - win) o y.
Proof.
  intros Hb [Hlen Hex] Hwin. unfold CNNLayer_forward, has_shape3.
  destruct (mapM_Forall (conv1d c) (seq_shape n i) (seq_shape (n + 2 * pad + 1 - win) o) x
              (fun s Hs => conv1d_ok i o win pad n c s Hb Hs Hwin) Hex)
    as (y & Hy & Hall & Hl).
  exists y; repeat split; (assumption || congruence).
Qed.

(** A window wider than the padded sequence is a size error. *)
Lemma CNNLayer_forward_raise (i o win pad b n : nat) (c : CNNLayer) (x : T3) :
  CNNLayer_built i o win pad c = true ->
  has_shape3 b n i x -> 1 <= b -> n + 2 * pad < win ->
  CNNLayer_forward c x = Raise RuntimeError.
Proof.
  intros Hb [Hlen Hex] Hb1 Hwin. unfold CNNLayer_forward.
  apply mapM_raise.
  - intros ->. simpl in Hlen. lia.
  - eapply Forall_impl; [|exact Hex].
    intros s Hs. now apply conv1d_raise with i o win pad n.
Qed.

Lemma CNNLayer_default_shape (i o b n : nat) (c : CNNLayer) (x : T3) :
  CNNLayer_built_default i o c = true ->
  has_shape3 b n i x -> 1 <= n ->
  exists y, CNNLayer_forward c x = Ok y /\ has_shape3 b n o y.
Proof.
  intros Hb Hx Hn. unfold CNNLayer_built_default in Hb.
  destruct (CNNLayer_forward_shape _ _ _ _ b n c x Hb Hx) as (y & Hy & Hs); [lia|].
  exists y; split; [assumption|].
  replace n with (n + 2 * cnn_pad c + 1 - (2 * cnn_pad c + 1)) at 1 by lia. exact Hs.
Qed.

Lemma firstn_skipn_length (k hid : nat) (g : Vec) :
  length g = 4 * hid -> k <= 3 -> length (firstn hid (skipn (k * hid) g)) = hid.
Proof. intros Hg Hk. rewrite length_firstn, length_skipn. nia. Qed.

Lemma lstm_step_length (i hid : nat) (cell : LSTMCell) (hc : Vec * Vec) (x : Vec) :
  LSTMCell_built i hid cell = true -> length (snd hc) = hid ->
  length (fst (lstm_step hid cell hc x)) = hid
  /\ length (snd (lstm_step hid cell hc x)) = hid.
Proof.
  intros Hb Hc. destruct (LSTMCell_built_spec _ _ _ Hb) as (H1 & H2 & H3 & H4).
  unfold lstm_step.
  set (g := vadd (vadd (matvec (w_ih cell) x) (b_ih cell))
                 (vadd (matvec (w_hh cell) (fst hc)) (b_hh cell))).
  assert (Hg : length g = 4 * hid).
  { unfold g. rewrite !vadd_length, !matvec_length. lia. }
  pose proof (firstn_skipn_length 0 hid g Hg) as F0.
  pose proof (firstn_skipn_length 1 hid g Hg) as F1.
  pose proof (firstn_skipn_length 2 hid g Hg) as F2.
  pose proof (firstn_skipn_length 3 hid g Hg) as F3.
  simpl Nat.mul in F0, F1. rewrite Nat.add_0_r in F1. simpl skipn in F0.
  cbn [fst snd].
  repeat (rewrite ?vmul_length, ?vadd_length, ?length_map).
  rewrite F0, F1, F2, F3 by lia. lia.
Qed.

Lemma lstm_scan_shape (i hid : nat) (cell : LSTMCell) (s : list Vec) (hc : Vec * Vec) :
  LSTMCell_built i hid cell = true -> length (snd hc) = hid ->
  seq_shape (length s) hid (lstm_scan hid cell hc s).
Proof.
  intros Hb. revert hc; induction s as [|x s IH]; intros hc Hc; simpl.
  - split; [reflexivity | constructor].
  - destruct (lstm_step_length i hid cell hc x Hb Hc) as [Hh Hc'].
    destruct (IH _ Hc') as [Hl Hv].
    split; [simpl; now rewrite Hl | constructor; assumption].
Qed.

Lemma lstm_direction_shape (i hid : nat) (cell : LSTMCell) (s : list Vec) :
  LSTMCell_built i hid cell = true ->
  seq_shape (length s) hid (lstm_direction hid cell s).
Proof.
  intros Hb. apply lstm_scan_shape with i; [assumption|]. apply zeros_length.
Qed.

Lemma map2_app_shape (n a b : nat) (l1 l2 : list Vec) :
  seq_shape n a l1 -> seq_shape n b l2 -> seq_shape n (a + b) (map2 (@app R) l1 l2).
Proof.
  intros [H1 F1] [H2 F2]. split; [rewrite map2_length; lia|].
  clear H1 H2. revert l2 F2; induction F1 as [|u l1 Hu _ IH]; intros l2 F2; simpl.
  - constructor.
  - destruct F2 as [|v l2 Hv F2]; constructor.
    + rewrite length_app. lia.
    + now apply IH.
Qed.

Lemma lstm_layer_shape (i hid : nat) (bi : bool) (l : LSTMCell * option LSTMCell)
      (ls : list (LSTMCell * option LSTMCell)) (s : list Vec) :
  lstm_layers_built i hid bi (l :: ls) = true ->
  seq_shape (length s) (lstm_width hid bi) (lstm_layer hid l s)
  /\ lstm_layers_built (lstm_width hid bi) hid bi ls = true.
Proof.
  destruct l as [fw bw]. simpl. intros Hb.
  apply andb_prop in Hb; destruct Hb as [Hb Hrest].
  apply andb_prop in Hb; destruct Hb as [Hfw Hbw].
  split; [|exact Hrest].
  unfold lstm_layer; simpl. destruct bw as [bwc|].
  - apply andb_prop in Hbw; destruct Hbw as [-> Hbwc]. simpl.
    replace (hid + (hid + 0)) with (hid + hid) by lia.
    apply map2_app_shape.
    + now apply lstm_direction_shape with i.
    + destruct (lstm_direction_shape i hid bwc (rev s) Hbwc) as [Hl Hv].
      split; [rewrite length_rev, Hl; apply length_rev|].
      now apply Forall_rev.
  - destruct bi; [discriminate|]. simpl. now apply lstm_direction_shape with i.
Qed.

Lemma lstm_stack_keeps (i hid n : nat) (bi : bool)
      (ls : list (LSTMCell * option LSTMCell)) (s : list Vec) :
  lstm_layers_built i hid bi ls = true ->
  seq_shape n (lstm_width hid bi) s ->
  seq_shape n (lstm_width hid bi) (lstm_stack hid ls s).
Proof.
  revert i s; induction ls as [|l ls IH]; intros i s Hb Hs; [exact Hs|].
  unfold lstm_stack; simpl.
  destruct (lstm_layer_shape i hid bi l ls s Hb) as [Hl Hrest].
  apply (IH _ _ Hrest). destruct Hs as [<- _]. exact Hl.
Qed.

Lemma lstm_stack_shape (i hid : nat) (bi : bool)
      (ls : list (LSTMCell * option LSTMCell)) (s : list Vec) :
  lstm_layers_built i hid bi ls = true -> 1 <= length ls ->
  seq_shape (length s) (lstm_width hid bi) (lstm_stack hid ls s).
Proof.
  intros Hb Hne. destruct ls as [|l ls]; [simpl in Hne; lia|].
  unfold lstm_stack; simpl.
  destruct (lstm_layer_shape i hid bi l ls s Hb) as [Hl Hrest].
  now apply lstm_stack_keeps with (lstm_width hid bi).
Qed.

(** The recurrent encoder keeps batch and sequence axes, whatever the
    padding, and gives [hid] (or [2 * hid]) features at each position. *)
Lemma LSTMLayer_forward_shape (i hid n b len : nat) (bi : bool) (l : LSTMLayer) (x : T3) :
  LSTMLayer_built i hid n bi l = true -> has_shape3 b len i x ->
  LSTMLayer_forward l x = Ok (map (lstm_stack hid (lstm_layers l)) x)
  /\ has_shape3 b len (lstm_width hid bi) (map (lstm_stack hid (lstm_layers l)) x).
Proof.
  intros Hb [Hlen Hex].
  destruct (LSTMLayer_built_spec _ _ _ _ _ Hb) as (Hi & Ho & Hn & Hls & Hlb).
  unfold LSTMLayer_forward. rewrite Hi, Ho.
  replace (forallb (all_length i) x) with true.
  - split; [reflexivity|]. split; [now rewrite length_map|].
    rewrite Forall_map. eapply Forall_impl; [|exact Hex].
    intros s [Hs _]; cbv beta. rewrite <- Hs.
    apply lstm_stack_shape with i; [assumption | lia].
  - symmetry. apply forallb_forall. intros s Hin.
    rewrite Forall_forall in Hex. apply all_length_Forall. now apply Hex.
Qed.

Lemma fold_map2_length (f : R -> R -> R) (d : nat) (s : list Vec) (v : Vec) :
  length v = d -> Forall (fun u => length u = d) s ->
  length (fold_left (map2 f) s v) = d.
Proof.
  intros Hv Hs; revert v Hv; induction Hs as [|u s Hu _ IH]; intros v Hv; simpl; auto.
  apply IH. rewrite map2_length. lia.
Qed.

Lemma map2_vscale_shape (d : nat) (alpha : list R) (s : list Vec) :
  Forall (fun u => length u = d) s ->
  Forall (fun u => length u = d) (map2 vscale alpha s).
Proof.
  intros Hs; revert alpha; induction Hs as [|u s Hu _ IH]; intros [|a alpha]; simpl;
    constructor; [unfold vscale; now rewrite length_map | apply IH].
Qed.

Lemma attn_pool_ok (i a n : nat) (l : AttnLayer) (s : list Vec) :
  AttnLayer_built i a l = true -> seq_shape n i s ->
  exists v, attn_pool l s = Ok v /\ length v = i.
Proof.
  intros Hb [_ Hv]. destruct (AttnLayer_built_spec _ _ _ Hb) as (Hi & _).
  unfold attn_pool. rewrite Hi, (proj2 (all_length_Forall i s) Hv).
  eexists; split; [reflexivity|].
  apply fold_map2_length; [apply zeros_length | now apply map2_vscale_shape].
Qed.

(** Attention pooling removes the sequence axis. *)
Lemma AttnLayer_forward_shape (i a b n : nat) (l : AttnLayer) (x : T3) :
  AttnLayer_built i a l = true -> has_shape3 b n i x ->
  exists y, AttnLayer_forward l x = Ok y /\ has_shape2 b i y.
Proof.
  intros Hb [Hlen Hex]. unfold AttnLayer_forward, has_shape2.
  destruct (mapM_Forall (attn_pool l) (seq_shape n i) (fun v : Vec => length v = i) x
              (fun s Hs => attn_pool_ok i a n l s Hb Hs) Hex) as (y & Hy & Hall & Hl).
  exists y; repeat split; (assumption || congruence).
Qed.

Lemma cat_seq_ok (n d1 d2 : nat) (s1 s2 : list Vec) :
  seq_shape n d1 s1 -> seq_shape n d2 s2 ->
  exists s, zipM (fun u v : Vec => Ok (u ++ v)) s1 s2 = Ok s /\ seq_shape n (d1 + d2) s.
Proof.
  intros [H1 F1] [H2 F2].
  destruct (zipM_Forall (fun u v : Vec => Ok (u ++ v))
              (fun u : Vec => length u = d1) (fun v : Vec => length v = d2)
              (fun w : Vec => length w = d1 + d2) s1 s2)
    as (s & Hs & Hall & Hl); [|exact F1|exact F2|congruence|].
  - intros u v Hu Hv. eexists; split; [reflexivity|]. rewrite length_app. lia.
  - exists s; repeat split; (assumption || congruence).
Qed.

Lemma cat_last3_shape (b n d1 d2 : nat) (x1 x2 : T3) :
  has_shape3 b n d1 x1 -> has_shape3 b n d2 x2 ->
  exists y, cat_last3 x1 x2 = Ok y /\ has_shape3 b n (d1 + d2) y.
Proof.
  intros [H1 F1] [H2 F2]. unfold cat_last3, has_shape3.
  destruct (zipM_Forall (zipM (fun u v : Vec => Ok (u ++ v)))
              (seq_shape n d1) (seq_shape n d2) (seq_shape n (d1 + d2)) x1 x2
              (cat_seq_ok n d1 d2) F1 F2) as (y & Hy & Hall & Hl); [congruence|].
  exists y; repeat split; (assumption || congruence).
Qed.

Lemma cat_last2_shape (b d1 d2 d3 : nat) (x1 x2 x3 : T2) :
  has_shape2 b d1 x1 -> has_shape2 b d2 x2 -> has_shape2 b d3 x3 ->
  exists y, cat_last2 x1 x2 x3 = Ok y /\ has_shape2 b (d1 + d2 + d3) y.
Proof.
  intros H1 H2 [H3 F3]. unfold cat_last2.
  destruct (cat_seq_ok b d1 d2 x1 x2 H1 H2) as (y12 & -> & H12). simpl.
  destruct (cat_seq_ok b (d1 + d2) d3 y12 x3 H12 (conj H3 F3)) as (y & Hy & Hs).
  exists y; split; assumption.
Qed.

Lemma add_seq_ok (n d : nat) (s1 s2 : list Vec) :
  seq_shape n d s1 -> seq_shape n d s2 ->
  exists s, zipM (fun u v : Vec => if length u =? length v then Ok (vadd u v)
                                   else Raise RuntimeError) s1 s2 = Ok s
            /\ seq_shape n d s.
Proof.
  intros [H1 F1] [H2 F2].
  destruct (zipM_Forall (fun u v : Vec => if length u =? length v then Ok (vadd u v)
                                          else Raise RuntimeError)
              (fun u : Vec => length u = d) (fun v : Vec => length v = d)
              (fun w : Vec => length w = d) s1 s2)
    as (s & Hs & Hall & Hl); [|exact F1|exact F2|congruence|].
  - intros u v Hu Hv. cbv beta in *. rewrite Hu, Hv, Nat.eqb_refl.
    eexists; split; [reflexivity|]. rewrite vadd_length. lia.
  - exists s; repeat split; (assumption || congruence).
Qed.

Lemma add3_shape (b n d : nat) (x1 x2 : T3) :
  has_shape3 b n d x1 -> has_shape3 b n d x2 ->
  exists y, add3 x1 x2 = Ok y /\ has_shape3 b n d y.
Proof.
  intros [H1 F1] [H2 F2]. unfold add3, has_shape3.
  destruct (zipM_Forall _ (seq_shape n d) (seq_shape n d) (seq_shape n d) x1 x2
              (add_seq_ok n d) F1 F2) as (y & Hy & Hall & Hl); [congruence|].
  exists y; repeat split; (assumption || congruence).
Qed.

(** ** Indexing *)

Lemma index_axis_nonneg {A : Type} (l : list A) (j : Z) (a : A) :
  (0 <= j)%Z -> nth_error l (Z.to_nat j) = Some a -> index_axis l j = Ok a.
Proof.
  intros Hj Hn. unfold index_axis, wrap_index.
  assert (Z.to_nat j < length l) by (apply nth_error_Some; congruence).
  destruct (Z.leb_spec 0 j); [|lia].
  destruct (Z.ltb_spec j (Z.of_nat (length l))); [|lia].
  simpl. now rewrite Hn.
Qed.

Lemma index_axis_neg {A : Type} (l : list A) (j : Z) (a : A) :
  (j < 0)%Z -> (- Z.of_nat (length l) <= j)%Z ->
  nth_error l (Z.to_nat (j + Z.of_nat (length l))) = Some a -> index_axis l j = Ok a.
Proof.
  intros Hj Hl Hn. unfold index_axis, wrap_index.
  destruct (Z.leb_spec 0 j); [lia|]. simpl.
  destruct (Z.leb_spec (- Z.of_nat (length l)) j); [|lia].
  destruct (Z.ltb_spec j 0); [|lia].
  simpl. now rewrite Hn.
Qed.

Lemma index_axis_raise {A : Type} (l : list A) (j : Z) :
  (j < - Z.of_nat (length l) \/ Z.of_nat (length l) <= j)%Z ->
  index_axis l j = Raise IndexError.
Proof.
  intros Hj. unfold index_axis, wrap_index.
  destruct (Z.leb_spec 0 j), (Z.ltb_spec j (Z.of_nat (length l))); simpl; try lia;
    destruct (Z.leb_spec (- Z.of_nat (length l)) j), (Z.ltb_spec j 0); simpl;
    (lia || reflexivity).
Qed.

(** With [torch.arange] on the batch axis, the indexing pairs example
    [i] with the column index [cols[i]]. *)
Lemma index_rows_from (pre x : T3) (cols : list Z) :
  length cols = length x ->
  mapM (index_pair (pre ++ x))
       (combine (map Z.of_nat (seq (length pre) (length x))) cols)
  = zipM (fun (s : list Vec) (j : Z) => index_axis s j) x cols.
Proof.
  revert pre cols; induction x as [|s x IH]; intros pre [|j cols] Hlen;
    try discriminate; [reflexivity|].
  cbn [length seq map combine mapM zipM].
  unfold index_pair at 1. cbn [fst snd].
  rewrite (index_axis_nonneg (pre ++ s :: x) (Z.of_nat (length pre)) s).
  - destruct (index_axis s j) as [e|v]; [reflexivity|].
    specialize (IH (pre ++ [s]) cols).
    rewrite <- app_assoc, length_app, Nat.add_1_r in IH. simpl app in IH.
    rewrite IH by (simpl in Hlen; lia). reflexivity.
  - lia.
  - rewrite Nat2Z.id, nth_error_app2, Nat.sub_diag by lia. reflexivity.
Qed.

Lemma index_rows_arange (x : T3) (cols : list Z) :
  length cols = length x ->
  index_rows x (arange (length x)) cols
  = zipM (fun (s : list Vec) (j : Z) => index_axis s j) x cols.
Proof.
  intros Hlen. unfold index_rows, arange.
  rewrite length_map, length_seq, Hlen, Nat.eqb_refl.
  exact (index_rows_from [] x cols Hlen).
Qed.

(** ** The models under the library's runtime *)

(** Under the library's runtime a tensor function is its own result. *)
Lemma lift_torch {A : Type} (r : Result A) : lift r = r.
Proof. destruct r; reflexivity. Qed.

(** One call of the forward pass has returned: go on with its value. *)
Ltac ran H :=
  cbn [call_embedding call_lstm call_cnn call_attn call_block call_linear call_linear3
       torch];
  rewrite H;
  cbn [bind ret raise Monad_either Exception_either lift].

Lemma CNNModel_forward_shape (config : Config) (m : CNNModel) (b n : nat) (x : Ids) :
  CNNModel_built config m = true -> batch_of config b n x -> 1 <= n ->
  exists out, CNNModel_forward torch m x = Ok out /\ has_shape2 b (tag_dim config) out.
Proof.
  unfold CNNModel_built. intros Hb [Hx Hv] Hn.
  apply andb_prop in Hb; destruct Hb as [Hb Hlin].
  apply andb_prop in Hb; destruct Hb as [Hemb Hconv].
  destruct (Embedding_forward_shape _ _ b n _ x Hemb Hx Hv) as (e & He & Hes).
  destruct (CNNLayer_default_shape _ _ b n _ e Hconv Hes Hn) as (c & Hc & Hcs).
  destruct (max_dim1_shape b n _ c Hcs Hn) as (p & Hp & Hps).
  destruct (Linear_forward_shape _ _ b _ (relu2 p) Hlin (relu2_shape _ _ _ Hps))
    as (out & Hout & Hos).
  exists out. split; [|exact Hos].
  unfold CNNModel_forward. ran He. ran Hc. ran Hp. exact Hout.
Qed.

Lemma index_axis_position {A : Type} (l : list A) (j : Z) :
  (- Z.of_nat (length l) <= j < Z.of_nat (length l))%Z ->
  exists a, index_axis l j = Ok a /\ nth_error l (position (length l) j) = Some a.
Proof.
  intros Hj. unfold position.
  destruct (Z.ltb_spec j 0).
  - destruct (nth_error l (Z.to_nat (j + Z.of_nat (length l)))) as [a|] eqn:Hn.
    + exists a; split; [apply index_axis_neg; (lia || assumption) | reflexivity].
    + apply nth_error_None in Hn. lia.
  - destruct (nth_error l (Z.to_nat j)) as [a|] eqn:Hn.
    + exists a; split; [apply index_axis_nonneg; (lia || assumption) | reflexivity].
    + apply nth_error_None in Hn. lia.
Qed.

Lemma zipM_nth {A B C : Type} (f : A -> B -> Result C) (l1 : list A) (l2 : list B)
      (l : list C) (i : nat) (a : A) (b : B) :
  zipM f l1 l2 = Ok l -> nth_error l1 i = Some a -> nth_error l2 i = Some b ->
  exists c, f a b = Ok c /\ nth_error l i = Some c.
Proof.
  revert l2 l i; induction l1 as [|a1 l1 IH]; intros [|b1 l2] l i Hz Ha Hb;
    try (destruct i; discriminate).
  simpl in Hz. destruct (f a1 b1) as [e|c1] eqn:Hf; [discriminate|].
  destruct (zipM f l1 l2) as [e|cs] eqn:Hz'; [discriminate|].
  injection Hz as <-. destruct i as [|i]; simpl in *.
  - injection Ha as <-. injection Hb as <-. exists c1; auto.
  - exact (IH l2 cs i Hz' Ha Hb).
Qed.

Lemma shape2_rows {A : Type} (b n : nat) (x : list (list A)) :
  has_shape2 b n x -> 1 <= b -> shape2 x = (b, n).
Proof.
  intros [Hl Hr] Hb. unfold shape2. destruct x as [|r x]; [simpl in Hl; lia|].
  inversion Hr; subst. reflexivity.
Qed.

(** The lengths that [LSTMModel.forward] computes on line 34. *)
Lemma LSTMModel_lens (b n : nat) (x : Ids) (pad : Z) :
  has_shape2 b n x ->
  cal_seq_len x (Z.of_nat (snd (shape2 x))) pad
  = map (fun row => (Z.of_nat n - Z.of_nat (count_padding row pad))%Z) x.
Proof.
  intros [Hl Hr]. rewrite cal_seq_len_rows.
  destruct x as [|r x]; [reflexivity|]. inversion Hr; subst. reflexivity.
Qed.

Lemma gather_ok (b n d : nat) (h : T3) (x : Ids) (pad : Z) :
  has_shape3 b n d h -> has_shape2 b n x -> 1 <= n ->
  exists sel,
    index_rows h (arange b)
               (map (fun l => (l - 1)%Z)
                    (map (fun row => (Z.of_nat n - Z.of_nat (count_padding row pad))%Z) x))
    = Ok sel
    /\ zipM (fun (s : list Vec) (j : Z) => index_axis s j) h
           (map (fun l => (l - 1)%Z)
                (map (fun row => (Z.of_nat n - Z.of_nat (count_padding row pad))%Z) x))
       = Ok sel
    /\ has_shape2 b d sel.
Proof.
  intros [Hb Hh] [Hxb Hx] Hn.
  set (cols := map (fun l => (l - 1)%Z)
                   (map (fun row => (Z.of_nat n - Z.of_nat (count_padding row pad))%Z) x)).
  assert (Hc : length cols = length h).
  { unfold cols. rewrite !length_map. congruence. }
  assert (Hcols : Forall (fun j => (- Z.of_nat n <= j < Z.of_nat n)%Z) cols).
  { unfold cols. rewrite !Forall_map. eapply Forall_impl; [|exact Hx].
    intros row Hrow; cbv beta in *. pose proof (count_padding_le row pad). lia. }
  destruct (zipM_Forall (fun (s : list Vec) (j : Z) => index_axis s j)
              (seq_shape n d) (fun j => (- Z.of_nat n <= j < Z.of_nat n)%Z)
              (fun v : Vec => length v = d) h cols)
    as (sel & Hsel & Hall & Hl); [|exact Hh|exact Hcols|congruence|].
  - intros s j [Hs Hv] Hj.
    destruct (index_axis_position s j) as (a & Ha & Hnth); [rewrite Hs; exact Hj|].
    exists a; split; [exact Ha|].
    apply nth_error_In in Hnth. rewrite Forall_forall in Hv. auto.
  - exists sel. rewrite <- Hb at 1. rewrite index_rows_arange by exact Hc.
    repeat split; (assumption || congruence).
Qed.

(** [LSTMModel.forward], step by step, on a batch with at least one
    position per row. *)
Lemma LSTMModel_trace (config : Config) (m : LSTMModel) (b n : nat) (x : Ids) :
  LSTMModel_built config m = true -> batch_of config b n x -> 1 <= n ->
  exists emb sel out,
    Embedding_forward (LSTM_embedding m) x = Ok emb
    /\ has_shape3 b n (embed_dim config) emb
    /\ LSTMLayer_forward (LSTM_lstm m) emb
       = Ok (map (lstm_stack (hidden_dim config) (lstm_layers (LSTM_lstm m))) emb)
    /\ has_shape3 b n (hidden_dim config)
                  (map (lstm_stack (hidden_dim config) (lstm_layers (LSTM_lstm m))) emb)
    /\ zipM (fun (s : list Vec) (j : Z) => index_axis s j)
            (map (lstm_stack (hidden_dim config) (lstm_layers (LSTM_lstm m))) emb)
            (last_columns n (padding_id config) x) = Ok sel
    /\ has_shape2 b (hidden_dim config) sel
    /\ LSTMModel_selected torch m x = Ok sel
    /\ Linear_forward (LSTM_linear m) sel = Ok out
    /\ has_shape2 b (tag_dim config) out
    /\ LSTMModel_forward torch m x = Ok out.
Proof.
  unfold LSTMModel_built. intros Hb [Hx Hv] Hn.
  apply andb_prop in Hb; destruct Hb as [Hb Hpad]. apply Z.eqb_eq in Hpad.
  apply andb_prop in Hb; destruct Hb as [Hb Hlin].
  apply andb_prop in Hb; destruct Hb as [Hemb Hlstm].
  destruct (Embedding_forward_shape _ _ b n _ x Hemb Hx Hv) as (emb & He & Hes).
  destruct (LSTMLayer_forward_shape _ _ _ b n _ _ emb Hlstm Hes) as (Hh & Hhs).
  unfold lstm_width in Hhs.
  destruct (gather_ok b n _ _ x (padding_id config) Hhs Hx Hn) as (sel & Hsel & Hzip & Hss).
  destruct (Linear_forward_shape _ _ b _ sel Hlin Hss) as (out & Hout & Hos).
  exists emb, sel, out.
  assert (Hidx : index_rows
                   (map (lstm_stack (hidden_dim config) (lstm_layers (LSTM_lstm m))) emb)
                   (arange (fst (shape2 x)))
                   (map (fun l => (l - 1)%Z)
                        (cal_seq_len x (Z.of_nat (snd (shape2 x))) (LSTM_padding_id m)))
                 = Ok sel).
  { rewrite Hpad, (LSTMModel_lens b n x _ Hx).
    replace (fst (shape2 x)) with b by (destruct Hx as [<- _]; reflexivity).
    exact Hsel. }
  repeat (split; [assumption|]). split.
  - unfold LSTMModel_selected. destruct (shape2 x) as [bs ml]. cbv beta iota zeta.
    ran He. ran Hh. simpl fst in Hidx; simpl snd in Hidx. now rewrite Hidx.
  - repeat (split; [assumption|]).
    unfold LSTMModel_forward. destruct (shape2 x) as [bs ml]. cbv beta iota zeta.
    ran He. ran Hh. simpl fst in Hidx; simpl snd in Hidx. rewrite Hidx.
    cbn [bind ret raise Monad_either Exception_either lift]. exact Hout.
Qed.

Lemma TextCNNModel_forward_shape (config : Config) (m : TextCNNModel) (b n : nat) (x : Ids) :
  TextCNNModel_built config m = true -> batch_of config b n x -> 4 <= n ->
  exists out, TextCNNModel_forward torch m x = Ok out /\ has_shape2 b (tag_dim config) out.
Proof.
  unfold TextCNNModel_built. intros Hb [Hx Hv] Hn.
  apply andb_prop in Hb; destruct Hb as [Hb Hlin].
  apply andb_prop in Hb; destruct Hb as [Hb Hc3].
  apply andb_prop in Hb; destruct Hb as [Hb Hc2].
  apply andb_prop in Hb; destruct Hb as [Hemb Hc1].
  destruct (Embedding_forward_shape _ _ b n _ x Hemb Hx Hv) as (e & He & Hes).
  destruct (CNNLayer_forward_shape _ _ _ _ b n _ e Hc1 Hes) as (f1 & Hf1 & Hs1); [lia|].
  destruct (CNNLayer_forward_shape _ _ _ _ b n _ e Hc2 Hes) as (f2 & Hf2 & Hs2); [lia|].
  destruct (CNNLayer_forward_shape _ _ _ _ b n _ e Hc3 Hes) as (f3 & Hf3 & Hs3); [lia|].
  apply (map3_shape srelu) in Hs1, Hs2, Hs3.
  destruct (max_dim1_shape b _ _ _ Hs1) as (p1 & Hp1 & Hq1); [lia|].
  destruct (max_dim1_shape b _ _ _ Hs2) as (p2 & Hp2 & Hq2); [lia|].
  destruct (max_dim1_shape b _ _ _ Hs3) as (p3 & Hp3 & Hq3); [lia|].
  destruct (cat_last2_shape b _ _ _ p1 p2 p3 Hq1 Hq2 Hq3) as (f & Hf & Hfs).
  replace (hidden_dim config + hidden_dim config + hidden_dim config)
    with (hidden_dim config * 3) in Hfs by lia.
  destruct (Linear_forward_shape _ _ b _ f Hlin Hfs) as (out & Hout & Hos).
  exists out. split; [|exact Hos].
  unfold TextCNNModel_forward. ran He. ran Hf1. ran Hf2. ran Hf3.
  fold (relu3 f1) in Hp1. fold (relu3 f2) in Hp2. fold (relu3 f3) in Hp3.
  ran Hp1. ran Hp2. ran Hp3. ran Hf. exact Hout.
Qed.

(** Fewer than four positions: one of the three windows does not fit. *)
Lemma TextCNNModel_forward_raise (config : Config) (m : TextCNNModel) (b n : nat) (x : Ids) :
  TextCNNModel_built config m = true -> batch_of config b n x -> 1 <= b -> n < 4 ->
  TextCNNModel_forward torch m x = Raise RuntimeError.
Proof.
  unfold TextCNNModel_built. intros Hb [Hx Hv] Hb1 Hn.
  apply andb_prop in Hb; destruct Hb as [Hb Hlin].
  apply andb_prop in Hb; destruct Hb as [Hb Hc3].
  apply andb_prop in Hb; destruct Hb as [Hb Hc2].
  apply andb_prop in Hb; destruct Hb as [Hemb Hc1].
  destruct (Embedding_forward_shape _ _ b n _ x Hemb Hx Hv) as (e & He & Hes).
  unfold TextCNNModel_forward. ran He.
  destruct (Nat.lt_ge_cases n 2) as [H2|H2].
  { ran (CNNLayer_forward_raise _ _ _ _ b n _ e Hc1 Hes Hb1 ltac:(lia)). reflexivity. }
  destruct (CNNLayer_forward_shape _ _ _ _ b n _ e Hc1 Hes) as (f1 & Hf1 & _); [lia|].
  ran Hf1.
  destruct (Nat.lt_ge_cases n 3) as [H3|H3].
  { ran (CNNLayer_forward_raise _ _ _ _ b n _ e Hc2 Hes Hb1 ltac:(lia)). reflexivity. }
  destruct (CNNLayer_forward_shape _ _ _ _ b n _ e Hc2 Hes) as (f2 & Hf2 & _); [lia|].
  ran Hf2.
  ran (CNNLayer_forward_raise _ _ _ _ b n _ e Hc3 Hes Hb1 ltac:(lia)). reflexivity.
Qed.

Lemma even_double (e : nat) : Nat.even e = true -> e + 2 * (e / 2) = 2 * e.
Proof.
  intros He. apply Nat.even_spec in He. destruct He as [k ->].
  rewrite (Nat.mul_comm 2 k), Nat.div_mul by lia. lia.
Qed.

Lemma odd_double (e : nat) : Nat.even e = false -> e + 2 * (e / 2) = 2 * e - 1.
Proof.
  intros He. rewrite <- Nat.negb_odd in He. apply negb_false_iff in He.
  apply Nat.odd_spec in He. destruct He as [k ->].
  replace (2 * k + 1) with (1 + k * 2) at 2 by lia.
  rewrite Nat.div_add, Nat.div_small by lia. lia.
Qed.

(** [RCNNModel.forward] up to the concatenation of line 58. *)
Lemma RCNNModel_cat (config : Config) (m : RCNNModel) (b n : nat) (x : Ids) :
  RCNNModel_built config m = true -> batch_of config b n x ->
  exists word context cat,
    Embedding_forward (RCNN_embedding m) x = Ok word
    /\ has_shape3 b n (embed_dim config) word
    /\ LSTMLayer_forward (RCNN_bilstm m) word = Ok context
    /\ has_shape3 b n (2 * (embed_dim config / 2)) context
    /\ cat_last3 word context = Ok cat
    /\ has_shape3 b n (embed_dim config + 2 * (embed_dim config / 2)) cat.
Proof.
  unfold RCNNModel_built. intros Hb [Hx Hv].
  apply andb_prop in Hb; destruct Hb as [Hb Hlin].
  apply andb_prop in Hb; destruct Hb as [Hb Henc].
  apply andb_prop in Hb; destruct Hb as [Hemb Hlstm].
  destruct (Embedding_forward_shape _ _ b n _ x Hemb Hx Hv) as (word & He & Hes).
  destruct (LSTMLayer_forward_shape _ _ _ b n _ _ word Hlstm Hes) as (Hc & Hcs).
  unfold lstm_width in Hcs.
  destruct (cat_last3_shape b n _ _ _ _ Hes Hcs) as (cat & Hcat & Hcats).
  eexists word, _, cat. repeat (split; [eassumption|]). exact Hcats.
Qed.

Lemma RCNNModel_forward_shape (config : Config) (m : RCNNModel) (b n : nat) (x : Ids) :
  RCNNModel_built config m = true -> batch_of config b n x -> 1 <= n ->
  Nat.even (embed_dim config) = true ->
  exists out, RCNNModel_forward torch m x = Ok out /\ has_shape2 b (tag_dim config) out.
Proof.
  intros Hb Hx Hn Heven.
  destruct (RCNNModel_cat config m b n x Hb Hx)
    as (word & context & cat & He & _ & Hc & _ & Hcat & Hcats).
  rewrite (even_double _ Heven) in Hcats.
  unfold RCNNModel_built in Hb.
  apply andb_prop in Hb; destruct Hb as [Hb Hlin].
  apply andb_prop in Hb; destruct Hb as [_ Henc].
  destruct (Linear_forward3_shape _ _ b n _ cat Henc Hcats) as (y & Hy & Hys).
  apply (map3_shape stanh) in Hys.
  destruct (max_dim1_shape b n _ _ Hys Hn) as (p & Hp & Hps).
  destruct (Linear_forward_shape _ _ b _ p Hlin Hps) as (out & Hout & Hos).
  exists out. split; [|exact Hos].
  unfold RCNNModel_forward. ran He. ran Hc. ran Hcat. ran Hy.
  fold (tanh3 y) in Hp. ran Hp. exact Hout.
Qed.

Lemma RCNNModel_forward_raise (config : Config) (m : RCNNModel) (b n : nat) (x : Ids) :
  RCNNModel_built config m = true -> batch_of config b n x -> 1 <= b -> 1 <= n ->
  Nat.even (embed_dim config) = false ->
  RCNNModel_forward torch m x = Raise RuntimeError.
Proof.
  intros Hb Hx Hb1 Hn Hodd.
  destruct (RCNNModel_cat config m b n x Hb Hx)
    as (word & context & cat & He & _ & Hc & _ & Hcat & Hcats).
  pose proof (odd_double _ Hodd) as Hw.
  assert (1 <= embed_dim config) by (destruct (embed_dim config); [discriminate | lia]).
  unfold RCNNModel_built in Hb.
  apply andb_prop in Hb; destruct Hb as [Hb Hlin].
  apply andb_prop in Hb; destruct Hb as [_ Henc].
  unfold RCNNModel_forward. ran He. ran Hc. ran Hcat.
  ran (Linear_forward3_raise _ _ b n _ _ cat Henc Hcats Hb1 Hn ltac:(lia)). reflexivity.
Qed.

Lemma BiLSTMAttnModel_forward_shape (config : Config) (m : BiLSTMAttnModel)
      (b n : nat) (x : Ids) :
  BiLSTMAttnModel_built config m = true -> batch_of config b n x ->
  Nat.even (hidden_dim config) = true ->
  exists out, BiLSTMAttnModel_forward torch m x = Ok out
              /\ has_shape2 b (tag_dim config) out.
Proof.
  unfold BiLSTMAttnModel_built. intros Hb [Hx Hv] Heven.
  apply andb_prop in Hb; destruct Hb as [Hb _].
  apply andb_prop in Hb; destruct Hb as [Hb Hlin].
  apply andb_prop in Hb; destruct Hb as [Hb Hattn].
  apply andb_prop in Hb; destruct Hb as [Hemb Hlstm].
  destruct (Embedding_forward_shape _ _ b n _ x Hemb Hx Hv) as (e & He & Hes).
  destruct (LSTMLayer_forward_shape _ _ _ b n _ _ e Hlstm Hes) as (Hc & Hcs).
  unfold lstm_width in Hcs.
  replace (2 * (hidden_dim config / 2)) with (hidden_dim config) in Hcs
    by (pose proof (even_double _ Heven); lia).
  destruct (AttnLayer_forward_shape _ _ b n _ _ Hattn Hcs) as (p & Hp & Hps).
  destruct (Linear_forward_shape _ _ b _ p Hlin Hps) as (out & Hout & Hos).
  exists out. split; [|exact Hos].
  unfold BiLSTMAttnModel_forward. ran He. ran Hc. ran Hp. exact Hout.
Qed.

Lemma CNNAttnModel_forward_shape (config : Config) (m : CNNAttnModel)
      (b n : nat) (x : Ids) :
  CNNAttnModel_built config m = true -> batch_of config b n x -> 1 <= n ->
  exists out, CNNAttnModel_forward torch m x = Ok out
              /\ has_shape2 b (tag_dim config) out.
Proof.
  unfold CNNAttnModel_built. intros Hb [Hx Hv] Hn.
  apply andb_prop in Hb; destruct Hb as [Hb Hlin].
  apply andb_prop in Hb; destruct Hb as [Hb Hattn].
  apply andb_prop in Hb; destruct Hb as [Hemb Hconv].
  destruct (Embedding_forward_shape _ _ b n _ x Hemb Hx Hv) as (e & He & Hes).
  destruct (CNNLayer_default_shape _ _ b n _ e Hconv Hes Hn) as (c & Hc & Hcs).
  apply (map3_shape srelu) in Hcs.
  destruct (AttnLayer_forward_shape _ _ b n _ _ Hattn Hcs) as (p & Hp & Hps).
  destruct (Linear_forward_shape _ _ b _ p Hlin Hps) as (out & Hout & Hos).
  exists out. split; [|exact Hos].
  unfold CNNAttnModel_forward. ran He. ran Hc. fold (relu3 c) in Hp. ran Hp. exact Hout.
Qed.

(** [DPCNNModel.forward] up to the sum of line 176; the rest of the
    pass works on that sum. *)
Lemma DPCNNModel_residual (config : Config) (m : DPCNNModel) (b n : nat) (x : Ids) :
  DPCNNModel_built config m = true -> batch_of config b n x -> 1 <= n ->
  exists s,
    has_shape3 b n 250 s
    /\ DPCNNModel_forward torch m x
       = (z <- Sequential_forward torch (DPCNN_blocks m) s ;;
          p <- max_dim1 z ;;
          Linear_forward (DPCNN_linear m) p).
Proof.
  unfold DPCNNModel_built. intros Hb [Hx Hv] Hn. cbv zeta in Hb.
  apply andb_prop in Hb; destruct Hb as [Hb Hlin].
  apply andb_prop in Hb; destruct Hb as [Hb Hblocks].
  apply andb_prop in Hb; destruct Hb as [Hb Hc2].
  apply andb_prop in Hb; destruct Hb as [Hb Hc1].
  apply andb_prop in Hb; destruct Hb as [Hemb Hreg].
  destruct (Embedding_forward_shape _ _ b n _ x Hemb Hx Hv) as (e & He & Hes).
  destruct (CNNLayer_forward_shape _ _ _ _ b n _ e Hreg Hes) as (r & Hr & Hrs); [lia|].
  replace (n + 2 * 1 + 1 - 3) with n in Hrs by lia.
  pose proof (map3_shape srelu _ _ _ _ Hrs) as Hrr.
  destruct (CNNLayer_forward_shape _ _ _ _ b n _ _ Hc1 Hrr) as (c1 & Hy1 & Hs1); [lia|].
  replace (n + 2 * 1 + 1 - 3) with n in Hs1 by lia.
  apply (map3_shape srelu) in Hs1.
  destruct (CNNLayer_forward_shape _ _ _ _ b n _ _ Hc2 Hs1) as (c2 & Hy2 & Hs2); [lia|].
  replace (n + 2 * 1 + 1 - 3) with n in Hs2 by lia.
  destruct (add3_shape b n _ c2 r Hs2 Hrs) as (s & Hs & Hss).
  exists s. split; [exact Hss|].
  unfold DPCNNModel_forward. ran He. ran Hr.
  fold (relu3 r) in Hy1. ran Hy1. fold (relu3 c1) in Hy2. ran Hy2. ran Hs.
  destruct (Sequential_forward torch (DPCNN_blocks m) s) as [err|z];
    [reflexivity|].
  cbn [bind ret Monad_either]. now rewrite lift_torch.
Qed.

Lemma mapM_ok_length {A B : Type} (f : A -> Result B) (l : list A) (l' : list B) :
  mapM f l = Ok l' -> length l' = length l.
Proof.
  intros H. apply mapM_ok_Forall2 in H. symmetry. eapply Forall2_length; eassumption.
Qed.

Lemma mapM_ok_all {A B : Type} (f : A -> Result B) (Q : B -> Prop)
      (l : list A) (l' : list B) :
  (forall a b, f a = Ok b -> Q b) -> mapM f l = Ok l' -> Forall Q l'.
Proof.
  intros Hf H. apply mapM_ok_Forall2 in H.
  induction H; constructor; eauto.
Qed.

Lemma Linear_forward_ok_shape (i o : nat) (l : Linear) (x y : T2) :
  Linear_built i o l = true -> Linear_forward l x = Ok y ->
  has_shape2 (length x) o y.
Proof.
  intros Hb Hy. split; [exact (mapM_ok_length _ _ _ Hy)|].
  apply (mapM_ok_all (Linear_apply l) (fun u : Vec => length u = o) x y); [|exact Hy].
  intros v u Hu. destruct (Linear_built_spec _ _ _ Hb) as (Hi & _ & Hw & _ & Hbias).
  unfold Linear_apply in Hu.
  destruct (length v =? in_features l); [|discriminate].
  injection Hu as <-. rewrite vadd_length, matvec_length. lia.
Qed.

(** Blocks that meet the contract can be stacked to any depth. *)
Lemma Sequential_forward_shape (blocks : list CNNBlock) (b len : nat) (y : T3) :
  Forall CNNBlock_contract blocks -> has_shape3 b len 250 y -> 1 <= len ->
  exists (len' : nat) (z : T3),
    1 <= len' /\ Sequential_forward torch blocks y = Ok z
    /\ has_shape3 b len' 250 z.
Proof.
  intros Hc. revert len y; induction Hc as [|blk blocks Hblk _ IH]; intros len y Hy Hlen.
  - exists len, y. split; [exact Hlen|]. split; [reflexivity | exact Hy].
  - destruct (Hblk b len y Hy Hlen) as (len1 & y1 & Hlen1 & Hy1 & Hs1).
    destruct (IH len1 y1 Hs1 Hlen1) as (len' & z & Hlen' & Hz & Hzs).
    exists len', z. split; [exact Hlen'|]. split; [|exact Hzs].
    cbn [Sequential_forward call_block torch bind Monad_either]. rewrite Hy1. exact Hz.
Qed.

Lemma DPCNNModel_forward_shape (config : Config) (m : DPCNNModel) (b n : nat) (x : Ids) :
  DPCNNModel_built config m = true -> batch_of config b n x -> 1 <= n ->
  Forall CNNBlock_contract (DPCNN_blocks m) ->
  exists out, DPCNNModel_forward torch m x = Ok out
              /\ has_shape2 b (tag_dim config) out.
Proof.
  intros Hb Hx Hn Hblk.
  destruct (DPCNNModel_residual config m b n x Hb Hx Hn) as (s & Hss & Hfwd).
  unfold DPCNNModel_built in Hb. cbv zeta in Hb.
  apply andb_prop in Hb; destruct Hb as [Hb Hlin].
  apply andb_prop in Hb; destruct Hb as [_ Hblocks].
  destruct (Sequential_forward_shape (DPCNN_blocks m) b n s Hblk Hss Hn)
    as (len' & z & Hlen' & Hz & Hzs).
  destruct (max_dim1_shape b len' _ z Hzs Hlen') as (p & Hp & Hps).
  destruct (Linear_forward_shape _ _ b _ p Hlin Hps) as (out & Hout & Hos).
  exists out. split; [|exact Hos].
  rewrite Hfwd, Hz. cbn [bind ret Monad_either]. rewrite Hp. exact Hout.
Qed.

(** ** The claims *)

(** C1.  For each of the seven models, built from a configuration, and
    every batch of [b] rows of [n >= 1] token ids of the vocabulary, the
    forward pass returns a matrix of shape exactly (b, tag_dim): the
    sequence length [n] has no part in it.  The batches a model accepts
    are those its layers accept: [TextCNNModel] needs [n >= 4], the two
    models with a bidirectional encoder need the dimension they halve
    to be even, and the blocks of [DPCNNModel], if it has any, must
    meet [CNNBlock_contract]. *)
Theorem forward_output_shape (config : Config) (b n : nat) (x : Ids) :
  batch_of config b n x -> 1 <= n ->
  (forall m, LSTMModel_built config m = true ->
     exists out, LSTMModel_forward torch m x = Ok out
                 /\ has_shape2 b (tag_dim config) out)
  /\ (forall m, RCNNModel_built config m = true ->
       Nat.even (embed_dim config) = true ->
       exists out, RCNNModel_forward torch m x = Ok out
                   /\ has_shape2 b (tag_dim config) out)
  /\ (forall m, BiLSTMAttnModel_built config m = true ->
       Nat.even (hidden_dim config) = true ->
       exists out, BiLSTMAttnModel_forward torch m x = Ok out
                   /\ has_shape2 b (tag_dim config) out)
  /\ (forall m, CNNModel_built config m = true ->
       exists out, CNNModel_forward torch m x = Ok out
                   /\ has_shape2 b (tag_dim config) out)
  /\ (forall m, TextCNNModel_built config m = true -> 4 <= n ->
       exists out, TextCNNModel_forward torch m x = Ok out
                   /\ has_shape2 b (tag_dim config) out)
  /\ (forall m, DPCNNModel_built config m = true ->
       Forall CNNBlock_contract (DPCNN_blocks m) ->
       exists out, DPCNNModel_forward torch m x = Ok out
                   /\ has_shape2 b (tag_dim config) out)
  /\ (forall m, CNNAttnModel_built config m = true ->
       exists out, CNNAttnModel_forward torch m x = Ok out
                   /\ has_shape2 b (tag_dim config) out).
Proof.
  intros Hx Hn. repeat split.
  - intros m Hm.
    destruct (LSTMModel_trace config m b n x Hm Hx Hn)
      as (emb & sel & out & _ & _ & _ & _ & _ & _ & _ & _ & Hos & Hout).
    exists out. split; assumption.
  - intros m Hm He. now apply RCNNModel_forward_shape with n.
  - intros m Hm He. now apply BiLSTMAttnModel_forward_shape with n.
  - intros m Hm. now apply CNNModel_forward_shape with n.
  - intros m Hm H4. now apply TextCNNModel_forward_shape with n.
  - intros m Hm Hblk. now apply DPCNNModel_forward_shape with n.
  - intros m Hm. now apply CNNAttnModel_forward_shape with n.
Qed.

(** ** The gather of [LSTMModel] *)

Lemma count_padding_app (l1 l2 : list Z) (v : Z) :
  count_padding (l1 ++ l2) v = count_padding l1 v + count_padding l2 v.
Proof. apply count_occ_app. Qed.

Lemma count_padding_repeat (v : Z) (k : nat) : count_padding (repeat v k) v = k.
Proof. apply count_occ_repeat_eq. reflexivity. Qed.

Lemma count_padding_absent (l : list Z) (v : Z) : ~ In v l -> count_padding l v = 0.
Proof. apply count_occ_not_In. Qed.

(** Row [i] of the gathered tensor is the state of example [i] at the
    position its column index stands for. *)
Lemma gather_row (b n d : nat) (h : T3) (x : Ids) (pad : Z) (sel : T2)
      (i : nat) (row : list Z) (s : list Vec) :
  has_shape3 b n d h -> has_shape2 b n x -> 1 <= n ->
  zipM (fun (s : list Vec) (j : Z) => index_axis s j) h (last_columns n pad x) = Ok sel ->
  nth_error x i = Some row -> nth_error h i = Some s ->
  exists v, nth_error sel i = Some v
            /\ nth_error s (position n (Z.of_nat n - Z.of_nat (count_padding row pad) - 1))
               = Some v.
Proof.
  intros [_ Hh] [_ Hx] Hn Hzip Hrow Hs.
  assert (Hcol : nth_error (last_columns n pad x) i
                 = Some (Z.of_nat n - Z.of_nat (count_padding row pad) - 1)%Z).
  { unfold last_columns. rewrite map_map. now rewrite (map_nth_error _ _ _ Hrow). }
  destruct (zipM_nth _ _ _ _ _ _ _ Hzip Hs Hcol) as (v & Hv & Hsel).
  exists v. split; [exact Hsel|].
  assert (Hlen : length s = n).
  { rewrite Forall_forall in Hh. apply nth_error_In in Hs. now destruct (Hh s Hs). }
  assert (Hrowlen : length row = n).
  { rewrite Forall_forall in Hx. apply nth_error_In in Hrow. now apply Hx. }
  pose proof (count_padding_le row pad) as Hle.
  destruct (index_axis_position s (Z.of_nat n - Z.of_nat (count_padding row pad) - 1))
    as (a & Ha & Hnth); [rewrite Hlen; lia|].
  rewrite Hlen in Hnth. congruence.
Qed.

(** The last non-padding position of a row, and rows padded on the
    right. *)
Lemma spec_last_non_padding_repeat (pad : Z) (k : nat) :
  spec_last_non_padding (repeat pad k) pad = None.
Proof.
  induction k as [|k IH]; [reflexivity|].
  cbn [repeat spec_last_non_padding]. rewrite IH. now rewrite Z.eqb_refl.
Qed.

Lemma spec_last_non_padding_app (toks : list Z) (pad : Z) (k : nat) :
  spec_last_non_padding (toks ++ repeat pad k) pad = spec_last_non_padding toks pad.
Proof.
  induction toks as [|t toks IH]; cbn [app spec_last_non_padding].
  - apply spec_last_non_padding_repeat.
  - now rewrite IH.
Qed.

Lemma spec_last_non_padding_real (toks : list Z) (pad : Z) :
  ~ In pad toks -> toks <> [] -> spec_last_non_padding toks pad = Some (length toks - 1).
Proof.
  induction toks as [|t toks IH]; intros Hin Hne; [congruence|].
  cbn [spec_last_non_padding]. destruct toks as [|t' toks'].
  - cbn [spec_last_non_padding]. destruct (Z.eqb_spec t pad) as [->|_]; [|reflexivity].
    exfalso. apply Hin. now left.
  - rewrite IH; [|intros H; apply Hin; now right|discriminate].
    cbn [length]. f_equal. lia.
Qed.

Lemma spec_last_non_padding_none (row : list Z) (pad : Z) :
  spec_last_non_padding row pad = None -> row = repeat pad (length row).
Proof.
  induction row as [|t row IH]; [reflexivity|]. cbn [spec_last_non_padding length repeat].
  destruct (spec_last_non_padding row pad); [discriminate|].
  destruct (Z.eqb_spec t pad) as [->|_]; [|discriminate].
  intros _. now rewrite <- IH.
Qed.

Lemma spec_last_non_padding_some (row : list Z) (pad : Z) (p : nat) :
  spec_last_non_padding row pad = Some p ->
  exists (pre : list Z) (t : Z) (k : nat),
    row = pre ++ t :: repeat pad k /\ length pre = p /\ t <> pad.
Proof.
  revert p; induction row as [|t row IH]; intros p; [discriminate|].
  cbn [spec_last_non_padding].
  destruct (spec_last_non_padding row pad) as [q|] eqn:Hrow.
  - intros [= <-]. destruct (IH q eq_refl) as (pre & t' & k & -> & Hlen & Ht).
    exists (t :: pre), t', k. cbn [app length]. auto.
  - destruct (Z.eqb_spec t pad) as [_|Ht]; [discriminate|]. intros [= <-].
    exists [], t, (length row). cbn [app length].
    rewrite <- (spec_last_non_padding_none row pad Hrow). auto.
Qed.

(** The position [length - 1] of line 40 is the last non-padding
    position of a row exactly when the row is real tokens followed by
    padding. *)
Lemma gathered_position_last_real (row : list Z) (pad : Z) :
  spec_last_non_padding row pad
  = Some (position (length row)
                   (Z.of_nat (length row) - Z.of_nat (count_padding row pad) - 1))
  <-> exists (toks : list Z) (k : nat),
        row = toks ++ repeat pad k /\ ~ In pad toks /\ toks <> [].
Proof.
  split.
  - intros H. destruct (spec_last_non_padding_some _ _ _ H) as (pre & t & k & Hrow & Hlen & Ht).
    assert (Hcount : count_padding row pad = count_padding pre pad + k).
    { rewrite Hrow, count_padding_app. f_equal.
      change (t :: repeat pad k) with ([t] ++ repeat pad k).
      rewrite count_padding_app, count_padding_repeat.
      rewrite (count_padding_absent [t] pad); [reflexivity|].
      intros [Hin|[]]. now apply Ht. }
    assert (Hn : length row = length pre + 1 + k).
    { rewrite Hrow, length_app. cbn [length]. rewrite repeat_length. lia. }
    pose proof (count_padding_le pre pad) as Hle.
    unfold position in Hlen.
    destruct (Z.ltb_spec (Z.of_nat (length row) - Z.of_nat (count_padding row pad) - 1) 0);
      [lia|].
    assert (Hzero : count_padding pre pad = 0) by lia.
    exists (pre ++ [t]), k. split; [|split].
    + rewrite Hrow, <- app_assoc. reflexivity.
    + intros Hin. apply in_app_or in Hin. destruct Hin as [Hin|[Hin|[]]].
      * unfold count_padding in Hzero. apply (count_occ_not_In Z.eq_dec) in Hzero.
        exact (Hzero Hin).
      * now apply Ht.
    + destruct pre; discriminate.
  - intros (toks & k & -> & Hin & Hne).
    rewrite spec_last_non_padding_app, (spec_last_non_padding_real _ _ Hin Hne).
    rewrite count_padding_app, count_padding_repeat, (count_padding_absent _ _ Hin).
    rewrite length_app, repeat_length.
    assert (1 <= length toks) by (destruct toks; [congruence | simpl; lia]).
    f_equal. unfold position.
    destruct (Z.ltb_spec (Z.of_nat (length toks + k) - Z.of_nat (0 + k) - 1) 0); lia.
Qed.

(** C2, as the code has it.  On every batch of rows with at least one
    position, [LSTMModel.forward] computes the lengths [cal_seq_len],
    runs the encoder over all [n] positions of the padded rows, gathers
    for each example [i] the encoder's state at index [lens[i] - 1] by
    [h[arange(b), lens - 1, :]], and applies the linear head to the
    gathered vectors.  For every row the gathered state is the one at
    the position the index [lens[i] - 1] stands for, and that position
    is the last non-padding position of the row exactly when the row is
    real tokens (at least one) followed by padding; for a row that is
    padding throughout it is the last padded position [n - 1]. *)
Theorem LSTMModel_forward_gathers (config : Config) (m : LSTMModel) (b n : nat) (x : Ids) :
  LSTMModel_built config m = true -> batch_of config b n x -> 1 <= n ->
  exists (emb h : T3) (sel out : T2),
    Embedding_forward (LSTM_embedding m) x = Ok emb
    /\ LSTMLayer_forward (LSTM_lstm m) emb = Ok h
    /\ has_shape3 b n (hidden_dim config) h
    /\ index_rows h (arange b)
                  (map (fun l => (l - 1)%Z)
                       (cal_seq_len x (Z.of_nat n) (padding_id config))) = Ok sel
    /\ Linear_forward (LSTM_linear m) sel = Ok out
    /\ LSTMModel_forward torch m x = Ok out
    /\ (forall (i : nat) (len : Z) (s : list Vec),
          nth_error (cal_seq_len x (Z.of_nat n) (padding_id config)) i = Some len ->
          nth_error h i = Some s -> (1 <= len)%Z ->
          exists v, nth_error sel i = Some v
                    /\ nth_error s (Z.to_nat (len - 1)) = Some v)
    /\ (forall (i k : nat) (toks : list Z) (s : list Vec),
          nth_error x i = Some (toks ++ repeat (padding_id config) k) ->
          ~ In (padding_id config) toks -> toks <> [] ->
          nth_error h i = Some s ->
          exists v, nth_error sel i = Some v
                    /\ nth_error s (length toks - 1) = Some v)
    /\ (forall (i : nat) (row : list Z) (len : Z) (s : list Vec),
          nth_error x i = Some row ->
          nth_error (cal_seq_len x (Z.of_nat n) (padding_id config)) i = Some len ->
          nth_error h i = Some s ->
          (exists v, nth_error sel i = Some v
                     /\ nth_error s (position n (len - 1)) = Some v)
          /\ (spec_last_non_padding row (padding_id config) = Some (position n (len - 1))
              <-> exists (toks : list Z) (k : nat),
                    row = toks ++ repeat (padding_id config) k
                    /\ ~ In (padding_id config) toks /\ toks <> [])
          /\ (row = repeat (padding_id config) n ->
              spec_last_non_padding row (padding_id config) = None
              /\ position n (len - 1) = n - 1)).
Proof.
  intros Hm Hx Hn.
  destruct (LSTMModel_trace config m b n x Hm Hx Hn)
    as (emb & sel & out & He & _ & Hh & Hhs & Hzip & _ & _ & Hout & _ & Hfwd).
  destruct Hx as [Hx Hv].
  exists emb, (map (lstm_stack (hidden_dim config) (lstm_layers (LSTM_lstm m))) emb), sel, out.
  split; [exact He|]. split; [exact Hh|]. split; [exact Hhs|]. split.
  { rewrite cal_seq_len_rows. fold (last_columns n (padding_id config) x).
    destruct Hhs as [Hb Hhs]. rewrite <- Hb at 1. rewrite index_rows_arange; [exact Hzip|].
    unfold last_columns. rewrite !length_map. rewrite length_map in Hb.
    destruct Hx as [Hxb _]. congruence. }
  split; [exact Hout|]. split; [exact Hfwd|]. split; [|split].
  - intros i len s Hlen Hs H1.
    rewrite cal_seq_len_rows in Hlen.
    destruct (nth_error x i) as [row|] eqn:Hrow.
    + rewrite (map_nth_error _ _ _ Hrow) in Hlen. injection Hlen as <-.
      destruct (gather_row b n _ _ x (padding_id config) sel i row s Hhs Hx Hn Hzip Hrow Hs)
        as (v & Hsel & Hnth).
      exists v. split; [exact Hsel|].
      unfold position in Hnth.
      destruct (Z.ltb_spec (Z.of_nat n - Z.of_nat (count_padding row (padding_id config)) - 1)
                           0); [lia | exact Hnth].
    + apply nth_error_None in Hrow.
      assert (nth_error (map (fun row => (Z.of_nat n
                - Z.of_nat (count_padding row (padding_id config)))%Z) x) i = None)
        by (apply nth_error_None; now rewrite length_map).
      congruence.
  - intros i k toks s Hrow Hpad Hne Hs.
    destruct (gather_row b n _ _ x (padding_id config) sel i _ s Hhs Hx Hn Hzip Hrow Hs)
      as (v & Hsel & Hnth).
    exists v. split; [exact Hsel|].
    assert (Hrowlen : length (toks ++ repeat (padding_id config) k) = n).
    { destruct Hx as [_ Hx]. rewrite Forall_forall in Hx.
      apply nth_error_In in Hrow. now apply Hx. }
    rewrite length_app, repeat_length in Hrowlen.
    rewrite count_padding_app, count_padding_repeat, (count_padding_absent _ _ Hpad) in Hnth.
    assert (1 <= length toks) by (destruct toks; [congruence | simpl; lia]).
    unfold position in Hnth.
    destruct (Z.ltb_spec (Z.of_nat n - Z.of_nat (0 + k) - 1) 0); [lia|].
    replace (length toks - 1) with (Z.to_nat (Z.of_nat n - Z.of_nat (0 + k) - 1)) by lia.
    exact Hnth.
  - intros i row len s Hrow Hlen Hs.
    rewrite cal_seq_len_rows, (map_nth_error _ _ _ Hrow) in Hlen. injection Hlen as <-.
    assert (Hrowlen : length row = n).
    { destruct Hx as [_ Hx]. rewrite Forall_forall in Hx.
      apply nth_error_In in Hrow. now apply Hx. }
    split; [|split].
    + exact (gather_row b n _ _ x (padding_id config) sel i row s Hhs Hx Hn Hzip Hrow Hs).
    + rewrite <- Hrowlen. apply gathered_position_last_real.
    + intros ->. split; [apply spec_last_non_padding_repeat|].
      rewrite count_padding_repeat. unfold position.
      destruct (Z.ltb_spec (Z.of_nat n - Z.of_nat n - 1) 0); lia.
Qed.

(** ** The encoder reads left to right *)

Lemma lstm_scan_firstn (hid : nat) (cell : LSTMCell) (k : nat) (s : list Vec)
      (hc : Vec * Vec) :
  firstn k (lstm_scan hid cell hc s) = lstm_scan hid cell hc (firstn k s).
Proof.
  revert k hc; induction s as [|x s IH]; intros [|k] hc; simpl; try reflexivity.
  now rewrite IH.
Qed.

Lemma lstm_layer_firstn (hid : nat) (l : LSTMCell * option LSTMCell) (k : nat)
      (s : list Vec) :
  snd l = None -> firstn k (lstm_layer hid l s) = lstm_layer hid l (firstn k s).
Proof.
  intros Hl. unfold lstm_layer. rewrite Hl. apply lstm_scan_firstn.
Qed.

(** The states of a unidirectional stack at the first [k] positions are
    those it computes on the first [k] inputs alone. *)
Lemma lstm_stack_firstn (hid : nat) (ls : list (LSTMCell * option LSTMCell)) (k : nat)
      (s : list Vec) :
  Forall (fun l => snd l = None) ls ->
  firstn k (lstm_stack hid ls s) = lstm_stack hid ls (firstn k s).
Proof.
  intros Hls. revert s; induction Hls as [|l ls Hl _ IH]; intros s; [reflexivity|].
  unfold lstm_stack in *. simpl. now rewrite IH, lstm_layer_firstn.
Qed.

Lemma lstm_layers_unidirectional (i hid : nat) (ls : list (LSTMCell * option LSTMCell)) :
  lstm_layers_built i hid false ls = true -> Forall (fun l => snd l = None) ls.
Proof.
  revert i; induction ls as [|[fw bw] ls IH]; intros i Hb; constructor; simpl in *.
  - destruct bw; [|reflexivity].
    apply andb_prop in Hb; destruct Hb as [Hb _].
    apply andb_prop in Hb; destruct Hb as [_ Hb]. discriminate.
  - apply andb_prop in Hb; destruct Hb as [_ Hb]. exact (IH _ Hb).
Qed.

Lemma mapM_firstn {A B : Type} (f : A -> Result B) (k : nat) (l : list A) (y : list B) :
  mapM f l = Ok y -> mapM f (firstn k l) = Ok (firstn k y).
Proof.
  revert k y; induction l as [|a l IH]; intros k y Hy; simpl in Hy.
  - injection Hy as <-. now destruct k.
  - destruct (f a) as [e|b] eqn:Hfa; [discriminate|].
    destruct (mapM f l) as [e|bs] eqn:Hl; [discriminate|].
    injection Hy as <-. destruct k as [|k]; [reflexivity|].
    simpl. now rewrite Hfa, (IH k bs eq_refl).
Qed.

Lemma index_axis_head {A : Type} (a : A) : index_axis [a] 0 = Ok a.
Proof. reflexivity. Qed.

Lemma Forall_firstn {A : Type} (P : A -> Prop) (k : nat) (l : list A) :
  Forall P l -> Forall P (firstn k l).
Proof.
  intros H; revert k; induction H as [|a l Ha _ IH]; intros [|k]; simpl; auto.
Qed.

(** The vector that [LSTMModel.forward] gathers for a single row with at
    least one position that is not padding: the state the encoder
    reaches on the first [len] tokens of the row alone. *)
Lemma LSTMModel_selected_single (config : Config) (m : LSTMModel) (row : list Z) :
  LSTMModel_built config m = true ->
  ids_in_vocab (vocab config) [row] = true ->
  1 <= length row - count_padding row (padding_id config) ->
  exists v,
    LSTMModel_selected torch m [row] = Ok [v]
    /\ LSTMModel_final_state m
         (firstn (length row - count_padding row (padding_id config)) row) = Ok v.
Proof.
  intros Hm Hv Hlen.
  set (n := length row) in *. set (c := count_padding row (padding_id config)) in *.
  assert (Hx : has_shape2 1 n [row]) by (split; [reflexivity | now constructor]).
  destruct (LSTMModel_trace config m 1 n [row] Hm (conj Hx Hv) ltac:(lia))
    as (emb & sel & out & He & Hes & Hh & Hhs & Hzip & Hss & Hsel & _).
  destruct emb as [|e [|? ?]]; try (destruct Hes as [Hes _]; discriminate).
  destruct (gather_row 1 n _ _ [row] (padding_id config) sel 0 row _
              Hhs Hx ltac:(lia) Hzip eq_refl eq_refl) as (v & Hv0 & Hnth).
  destruct sel as [|v' [|? ?]]; try (destruct Hss as [Hss _]; discriminate).
  injection Hv0 as ->.
  exists v. split; [exact Hsel|].
  fold c in Hnth. pose proof (count_padding_le row (padding_id config)) as Hle.
  fold n c in Hle.
  replace (position n (Z.of_nat n - Z.of_nat c - 1)) with (n - c - 1) in Hnth
    by (unfold position;
        destruct (Z.ltb_spec (Z.of_nat n - Z.of_nat c - 1) 0); lia).
  (* the unpadded run *)
  unfold LSTMModel_final_state.
  unfold Embedding_forward in He |- *. simpl in He.
  destruct (mapM (Embedding_lookup (LSTM_embedding m)) row) as [err|e'] eqn:Hrow;
    [discriminate|].
  injection He as ->.
  cbn [mapM]. rewrite (mapM_firstn _ (n - c) row e Hrow).
  cbn [bind ret Monad_either].
  unfold LSTMModel_built in Hm.
  apply andb_prop in Hm; destruct Hm as [Hm _].
  apply andb_prop in Hm; destruct Hm as [Hm _].
  apply andb_prop in Hm; destruct Hm as [_ Hlstm].
  assert (Hfs : has_shape3 1 (n - c) (embed_dim config) [firstn (n - c) e]).
  { destruct Hes as [_ Hes]. inversion Hes as [|? ? [Hel Hev] _]; subst.
    split; [reflexivity|]. constructor; [|constructor]. split.
    - rewrite length_firstn. lia.
    - now apply Forall_firstn. }
  destruct (LSTMLayer_forward_shape _ _ _ 1 (n - c) _ _ _ Hlstm Hfs) as (-> & _).
  cbn [bind ret Monad_either map].
  destruct (LSTMLayer_built_spec _ _ _ _ _ Hlstm) as (_ & _ & _ & _ & Hlb).
  rewrite <- (lstm_stack_firstn _ _ _ _ (lstm_layers_unidirectional _ _ _ Hlb)).
  rewrite index_axis_head.
  cbn [bind ret Monad_either].
  simpl map in Hnth, Hhs. simpl nth_error in Hnth.
  assert (Hsl : length (lstm_stack (hidden_dim config) (lstm_layers (LSTM_lstm m)) e) = n).
  { destruct Hhs as [_ Hhs]. inversion Hhs as [|? ? [Hl _] _]. exact Hl. }
  apply index_axis_neg; rewrite ?length_firstn, ?Hsl; try lia.
  rewrite nth_error_firstn.
  replace (Z.to_nat (-1 + Z.of_nat (Nat.min (n - c) n))) with (n - c - 1) by lia.
  destruct (Nat.ltb_spec (n - c - 1) (n - c)); [exact Hnth | lia].
Qed.

Lemma ids_in_vocab_padded (v : nat) (toks : list Z) (pad : Z) (k : nat) :
  ids_in_vocab v [toks] = true -> (0 <= pad < Z.of_nat v)%Z ->
  ids_in_vocab v [toks ++ repeat pad k] = true.
Proof.
  unfold ids_in_vocab. simpl. rewrite !andb_true_r. intros Ht Hp.
  rewrite forallb_app, Ht. simpl.
  apply forallb_forall. intros t Hin. apply repeat_spec in Hin. subst t.
  apply andb_true_intro. split; [apply Z.leb_le | apply Z.ltb_lt]; lia.
Qed.

(** C3.  Take any sequence of tokens with at least one that is not the
    padding id, and extend it by any two numbers [k1], [k2] of trailing
    padding ids.  The vector [LSTMModel] gathers before the linear head
    is the same in both runs, and it is the state the encoder reaches
    when fed the first [length] tokens alone, without padding. *)
Theorem LSTMModel_padding_invariance (config : Config) (m : LSTMModel)
        (toks : list Z) (k1 k2 : nat) :
  LSTMModel_built config m = true ->
  ids_in_vocab (vocab config) [toks] = true ->
  (0 <= padding_id config < Z.of_nat (vocab config))%Z ->
  1 <= length toks - count_padding toks (padding_id config) ->
  exists v,
    LSTMModel_selected torch m [toks ++ repeat (padding_id config) k1] = Ok [v]
    /\ LSTMModel_selected torch m [toks ++ repeat (padding_id config) k2] = Ok [v]
    /\ LSTMModel_final_state m
         (firstn (length toks - count_padding toks (padding_id config)) toks) = Ok v.
Proof.
  intros Hm Hv Hpad Hlen.
  assert (Hrun : forall k, exists v,
             LSTMModel_selected torch m [toks ++ repeat (padding_id config) k] = Ok [v]
             /\ LSTMModel_final_state m
                  (firstn (length toks - count_padding toks (padding_id config)) toks)
                = Ok v).
  { intros k.
    destruct (LSTMModel_selected_single config m (toks ++ repeat (padding_id config) k) Hm)
      as (v & Hsel & Hfin).
    - now apply ids_in_vocab_padded.
    - rewrite length_app, repeat_length, count_padding_app, count_padding_repeat. lia.
    - exists v. split; [exact Hsel|].
      rewrite length_app, repeat_length, count_padding_app, count_padding_repeat in Hfin.
      pose proof (count_padding_le toks (padding_id config)).
      replace (length toks + k - (count_padding toks (padding_id config) + k))
        with (length toks - count_padding toks (padding_id config)) in Hfin by lia.
      rewrite firstn_app in Hfin.
      replace (length toks - count_padding toks (padding_id config) - length toks)
        with 0 in Hfin by lia.
      simpl firstn in Hfin. rewrite app_nil_r in Hfin. exact Hfin. }
  destruct (Hrun k1) as (v1 & Hs1 & Hf1). destruct (Hrun k2) as (v2 & Hs2 & Hf2).
  exists v1. split; [exact Hs1|]. split; [|exact Hf1].
  rewrite Hf1 in Hf2. injection Hf2 as <-. exact Hs2.
Qed.

(** C4.  [TextCNNModel.forward] returns on every batch of rows of four
    positions and stops with the library's size error on every batch
    (of at least one row) of rows of three positions: on [n >= 4]
    positions the three unpadded branches, of windows 2, 3 and 4, give
    [n - 1], [n - 2] and [n - 3] positions, and the window of 4 does
    not fit into 3. *)
Theorem TextCNNModel_length_boundary (config : Config) (m : TextCNNModel)
        (b : nat) (x : Ids) :
  TextCNNModel_built config m = true ->
  (batch_of config b 4 x ->
   exists out, TextCNNModel_forward torch m x = Ok out
               /\ has_shape2 b (tag_dim config) out)
  /\ (batch_of config b 3 x -> 1 <= b ->
      TextCNNModel_forward torch m x = Raise RuntimeError)
  /\ (forall (n : nat) (emb : T3),
        has_shape3 b n (embed_dim config) emb -> 4 <= n ->
        exists feat1 feat2 feat3,
          CNNLayer_forward (TextCNN_conv1 m) emb = Ok feat1
          /\ has_shape3 b (n - 1) (hidden_dim config) feat1
          /\ CNNLayer_forward (TextCNN_conv2 m) emb = Ok feat2
          /\ has_shape3 b (n - 2) (hidden_dim config) feat2
          /\ CNNLayer_forward (TextCNN_conv3 m) emb = Ok feat3
          /\ has_shape3 b (n - 3) (hidden_dim config) feat3)
  /\ (forall (n : nat) (emb : T3),
        has_shape3 b n (embed_dim config) emb -> 1 <= b -> n < 4 ->
        CNNLayer_forward (TextCNN_conv3 m) emb = Raise RuntimeError).
Proof.
  intros Hm. split; [|split; [|split]].
  - intros Hx. now apply TextCNNModel_forward_shape with 4.
  - intros Hx Hb. apply TextCNNModel_forward_raise with config b 3; (assumption || lia).
  - intros n emb He Hn. unfold TextCNNModel_built in Hm.
    apply andb_prop in Hm; destruct Hm as [Hm _].
    apply andb_prop in Hm; destruct Hm as [Hm Hc3].
    apply andb_prop in Hm; destruct Hm as [Hm Hc2].
    apply andb_prop in Hm; destruct Hm as [_ Hc1].
    destruct (CNNLayer_forward_shape _ _ _ _ b n _ emb Hc1 He) as (f1 & Hf1 & Hs1); [lia|].
    destruct (CNNLayer_forward_shape _ _ _ _ b n _ emb Hc2 He) as (f2 & Hf2 & Hs2); [lia|].
    destruct (CNNLayer_forward_shape _ _ _ _ b n _ emb Hc3 He) as (f3 & Hf3 & Hs3); [lia|].
    replace (n + 2 * 0 + 1 - 2) with (n - 1) in Hs1 by lia.
    replace (n + 2 * 0 + 1 - 3) with (n - 2) in Hs2 by lia.
    replace (n + 2 * 0 + 1 - 4) with (n - 3) in Hs3 by lia.
    exists f1, f2, f3. repeat (split; [assumption|]). exact Hs3.
  - intros n emb He Hb Hn. unfold TextCNNModel_built in Hm.
    apply andb_prop in Hm; destruct Hm as [Hm _].
    apply andb_prop in Hm; destruct Hm as [_ Hc3].
    apply CNNLayer_forward_raise with (embed_dim config) (hidden_dim config) 4 0 b n;
      (assumption || lia).
Qed.

(** C10.  [RCNNModel.__init__] builds the bidirectional layer with
    [embed_dim // 2] states per direction, so the context has
    [2 * (embed_dim // 2)] features at each position while the encoder
    expects [2 * embed_dim] after the concatenation with the embeddings:
    on a batch with at least one row and one position the forward pass
    returns exactly when [embed_dim] is even, and stops with a shape
    mismatch for every odd [embed_dim]. *)
Theorem RCNNModel_even_embed_dim (config : Config) (m : RCNNModel) (b n : nat) (x : Ids) :
  RCNNModel_built config m = true -> batch_of config b n x -> 1 <= b -> 1 <= n ->
  lstm_out_dim (RCNN_bilstm m) = embed_dim config / 2
  /\ in_features (RCNN_encoder m) = 2 * embed_dim config
  /\ (exists word context,
        Embedding_forward (RCNN_embedding m) x = Ok word
        /\ LSTMLayer_forward (RCNN_bilstm m) word = Ok context
        /\ has_shape3 b n (2 * (embed_dim config / 2)) context)
  /\ ((exists out, RCNNModel_forward torch m x = Ok out)
      <-> Nat.even (embed_dim config) = true)
  /\ (Nat.even (embed_dim config) = false ->
      RCNNModel_forward torch m x = Raise RuntimeError).
Proof.
  intros Hm Hx Hb Hn.
  destruct (RCNNModel_cat config m b n x Hm Hx)
    as (word & context & cat & He & _ & Hc & Hcs & _).
  assert (Hdims : lstm_out_dim (RCNN_bilstm m) = embed_dim config / 2
                  /\ in_features (RCNN_encoder m) = 2 * embed_dim config).
  { unfold RCNNModel_built in Hm.
    apply andb_prop in Hm; destruct Hm as [Hm _].
    apply andb_prop in Hm; destruct Hm as [Hm Henc].
    apply andb_prop in Hm; destruct Hm as [_ Hlstm].
    destruct (LSTMLayer_built_spec _ _ _ _ _ Hlstm) as (_ & Ho & _).
    destruct (Linear_built_spec _ _ _ Henc) as (Hi & _). auto. }
  destruct Hdims as [Ho Hi].
  split; [exact Ho|]. split; [exact Hi|]. split.
  { exists word, context. auto. }
  split.
  - split.
    + intros (out & Hout). destruct (Nat.even (embed_dim config)) eqn:Heven; [reflexivity|].
      rewrite (RCNNModel_forward_raise config m b n x Hm Hx Hb Hn Heven) in Hout.
      discriminate.
    + intros Heven.
      destruct (RCNNModel_forward_shape config m b n x Hm Hx Hn Heven) as (out & Hout & _).
      now exists out.
  - intros Hodd. now apply RCNNModel_forward_raise with config b n.
Qed.

Lemma mapM_nth {A B : Type} (f : A -> Result B) (l : list A) (l' : list B)
      (i : nat) (a : A) :
  mapM f l = Ok l' -> nth_error l i = Some a ->
  exists b, f a = Ok b /\ nth_error l' i = Some b.
Proof.
  revert l' i; induction l as [|a1 l IH]; intros l' i Hm Ha;
    [destruct i; discriminate|].
  simpl in Hm. destruct (f a1) as [e|b1] eqn:Hf; [discriminate|].
  destruct (mapM f l) as [e|bs] eqn:Hl; [discriminate|].
  injection Hm as <-. destruct i as [|i]; simpl in *.
  - injection Ha as <-. exists b1; auto.
  - exact (IH bs i eq_refl Ha).
Qed.

(** C6, as the code has it.  A row that is padding throughout has
    computed length 0 and column index -1.  The library reads a negative
    index from the end of the axis, so on a batch with at least one
    position per row no exception is raised: the forward pass returns,
    and for that row it has gathered the encoder's state at the last
    (padded) position [n - 1]. *)
Theorem LSTMModel_all_padding_row (config : Config) (m : LSTMModel) (b n : nat)
        (x : Ids) (i : nat) :
  LSTMModel_built config m = true -> batch_of config b n x -> 1 <= n ->
  nth_error x i = Some (repeat (padding_id config) n) ->
  nth_error (cal_seq_len x (Z.of_nat n) (padding_id config)) i = Some 0%Z
  /\ wrap_index n (0 - 1) = Ok (n - 1)
  /\ exists (emb h : T3) (sel out : T2),
       Embedding_forward (LSTM_embedding m) x = Ok emb
       /\ LSTMLayer_forward (LSTM_lstm m) emb = Ok h
       /\ LSTMModel_selected torch m x = Ok sel
       /\ LSTMModel_forward torch m x = Ok out
       /\ has_shape2 b (tag_dim config) out
       /\ forall s, nth_error h i = Some s ->
                    exists v, nth_error sel i = Some v /\ nth_error s (n - 1) = Some v.
Proof.
  intros Hm Hx Hn Hrow. split; [|split].
  - rewrite cal_seq_len_rows, (map_nth_error _ _ _ Hrow), count_padding_repeat.
    f_equal. lia.
  - unfold wrap_index.
    destruct (Z.leb_spec 0 (0 - 1)); [lia|]. cbn [andb].
    destruct (Z.leb_spec (- Z.of_nat n) (0 - 1)); [|lia].
    destruct (Z.ltb_spec (0 - 1) 0); [|lia]. cbn [andb]. f_equal. lia.
  - destruct (LSTMModel_trace config m b n x Hm Hx Hn)
      as (emb & sel & out & He & _ & Hh & Hhs & Hzip & _ & Hsel & _ & Hos & Hfwd).
    exists emb, (map (lstm_stack (hidden_dim config) (lstm_layers (LSTM_lstm m))) emb),
           sel, out.
    repeat (split; [assumption|]).
    intros s Hs. destruct Hx as [Hx _].
    destruct (gather_row b n _ _ x (padding_id config) sel i _ s Hhs Hx Hn Hzip Hrow Hs)
      as (v & Hv & Hnth).
    exists v. split; [exact Hv|].
    rewrite count_padding_repeat in Hnth. unfold position in Hnth.
    destruct (Z.ltb_spec (Z.of_nat n - Z.of_nat n - 1) 0); [|lia].
    replace (n - 1) with (Z.to_nat (Z.of_nat n - Z.of_nat n - 1 + Z.of_nat n)) by lia.
    exact Hnth.
Qed.

(** C7.  On every batch with at least one position per row, for an even
    [embed_dim], [RCNNModel.forward] puts the embedding and the
    bidirectional context of each position side by side ([2 * embed_dim]
    features), applies the encoder and tanh ([hidden_dim] features),
    takes for each example the maximum over all [n] positions of the
    row, padded or not, and applies the linear head.  No length is
    computed on the way. *)
Theorem RCNNModel_forward_structure (config : Config) (m : RCNNModel) (b n : nat) (x : Ids) :
  RCNNModel_built config m = true -> batch_of config b n x -> 1 <= n ->
  Nat.even (embed_dim config) = true ->
  exists (word context cat enc : T3) (pooled out : T2),
    Embedding_forward (RCNN_embedding m) x = Ok word
    /\ has_shape3 b n (embed_dim config) word
    /\ LSTMLayer_forward (RCNN_bilstm m) word = Ok context
    /\ cat_last3 word context = Ok cat
    /\ has_shape3 b n (2 * embed_dim config) cat
    /\ (forall i t w c u v,
          nth_error word i = Some w -> nth_error context i = Some c ->
          nth_error w t = Some u -> nth_error c t = Some v ->
          exists s, nth_error cat i = Some s /\ nth_error s t = Some (u ++ v))
    /\ Linear_forward3 (RCNN_encoder m) cat = Ok enc
    /\ has_shape3 b n (hidden_dim config) (tanh3 enc)
    /\ max_dim1 (tanh3 enc) = Ok pooled
    /\ has_shape2 b (hidden_dim config) pooled
    /\ (forall i s, nth_error (tanh3 enc) i = Some s ->
          length s = n
          /\ exists v0 rest, s = v0 :: rest
                             /\ nth_error pooled i = Some (fold_left vmax rest v0))
    /\ Linear_forward (RCNN_linear m) pooled = Ok out
    /\ has_shape2 b (tag_dim config) out
    /\ RCNNModel_forward torch m x = Ok out.
Proof.
  intros Hm Hx Hn Heven.
  destruct (RCNNModel_cat config m b n x Hm Hx)
    as (word & context & cat & He & Hes & Hc & _ & Hcat & Hcats).
  rewrite (even_double _ Heven) in Hcats.
  unfold RCNNModel_built in Hm.
  apply andb_prop in Hm; destruct Hm as [Hm Hlin].
  apply andb_prop in Hm; destruct Hm as [_ Henc].
  destruct (Linear_forward3_shape _ _ b n _ cat Henc Hcats) as (enc & Hy & Hys).
  apply (map3_shape stanh) in Hys. fold (tanh3 enc) in Hys.
  destruct (max_dim1_shape b n _ _ Hys Hn) as (pooled & Hp & Hps).
  destruct (Linear_forward_shape _ _ b _ pooled Hlin Hps) as (out & Hout & Hos).
  exists word, context, cat, enc, pooled, out.
  repeat (split; [assumption|]). split.
  { intros i t w c u v Hw Hcx Hu Hv. unfold cat_last3 in Hcat.
    destruct (zipM_nth _ _ _ _ _ _ _ Hcat Hw Hcx) as (s & Hs & Hsi).
    destruct (zipM_nth _ _ _ _ _ _ _ Hs Hu Hv) as (uv & Huv & Hst).
    injection Huv as <-. exists s. auto. }
  repeat (split; [assumption|]). split.
  { intros i s Hs. destruct Hys as [_ Hys]. rewrite Forall_forall in Hys.
    destruct (Hys s (nth_error_In _ _ Hs)) as [Hl _]. split; [exact Hl|].
    destruct (mapM_nth _ _ _ _ _ Hp Hs) as (p & Hmax & Hpi).
    destruct s as [|v0 rest]; [discriminate|].
    injection Hmax as <-. exists v0, rest. auto. }
  repeat (split; [assumption|]).
  unfold RCNNModel_forward. ran He. ran Hc. ran Hcat. ran Hy. ran Hp. exact Hout.
Qed.

(** C8.  With [n_block = 0] the block stack of [DPCNNModel] is empty and
    changes nothing: on every input batch (also one on which a layer
    raises) the forward pass is the maximum over the positions of the
    residual sum, followed by the linear head. *)
Theorem DPCNNModel_no_block (config : Config) (m : DPCNNModel) (x : Ids) :
  DPCNNModel_built config m = true -> n_block config = 0 ->
  DPCNN_blocks m = []
  /\ (forall s : T3, Sequential_forward torch (DPCNN_blocks m) s = Ok s)
  /\ DPCNNModel_forward torch m x = DPCNNModel_without_blocks m x.
Proof.
  intros Hm H0. unfold DPCNNModel_built in Hm. cbv zeta in Hm.
  apply andb_prop in Hm; destruct Hm as [Hm _].
  apply andb_prop in Hm; destruct Hm as [_ Hblocks]. apply Nat.eqb_eq in Hblocks.
  rewrite H0 in Hblocks. apply length_zero_iff_nil in Hblocks.
  split; [exact Hblocks|]. split; [now rewrite Hblocks|].
  unfold DPCNNModel_forward, DPCNNModel_without_blocks. rewrite Hblocks.
  cbn [call_embedding call_cnn call_linear torch Sequential_forward].
  destruct (Embedding_forward (DPCNN_embedding m) x) as [e|emb]; [reflexivity|].
  cbn [bind ret Monad_either].
  destruct (CNNLayer_forward (DPCNN_region_embedding m) emb) as [e|region]; [reflexivity|].
  cbn [bind ret Monad_either].
  destruct (CNNLayer_forward (DPCNN_conv1 m) (relu3 region)) as [e|c1]; [reflexivity|].
  cbn [bind ret Monad_either].
  destruct (CNNLayer_forward (DPCNN_conv2 m) (relu3 c1)) as [e|c2]; [reflexivity|].
  cbn [bind ret Monad_either].
  destruct (add3 c2 region) as [e|s]; [reflexivity|].
  cbn [bind ret raise lift Monad_either Exception_either].
  destruct (max_dim1 s) as [e|p]; reflexivity.
Qed.

(** ** Calls in a world *)

Section Purity.
Context {G : Type} {D : Dropout R G}.

Lemma lift_pure {A : Type} (r : Result A) (w : World G) :
  lift (M := Call (World G)) r w = (lift (M := sum Error) r, w).
Proof. destruct r; reflexivity. Qed.

(** Dropout draws nothing in evaluation mode, and nothing at rate 0. *)
Lemma F_dropout_idle (p : R) (x : T3) (w : World G) :
  training w = false \/ rate_is_zero p = true -> F_dropout p x w = (Ok x, w).
Proof.
  intros [H|H]; unfold F_dropout; rewrite H; [reflexivity|].
  now rewrite andb_false_r.
Qed.

Lemma lstm_stack_dropout_idle (hid : nat) (p : R) (ls : list (LSTMCell * option LSTMCell))
      (x : T3) (w : World G) :
  training w = false \/ rate_is_zero p = true ->
  lstm_stack_dropout hid p ls x w = (Ok (map (lstm_stack hid ls) x), w).
Proof.
  intros Hw. revert x; induction ls as [|l ls IH]; intros x.
  - cbn [lstm_stack_dropout ret Monad_Call]. unfold lstm_stack. cbn [fold_left].
    now rewrite map_id.
  - cbn [lstm_stack_dropout]. destruct ls as [|l' ls'].
    + reflexivity.
    + cbn [bind Monad_Call]. rewrite (F_dropout_idle p _ w Hw), IH, map_map.
      reflexivity.
Qed.

(** Then a call of the encoder is its forward pass and nothing else. *)
Lemma LSTMLayer_call_idle (l : LSTMLayer) (w : World G) :
  training w = false \/ rate_is_zero (lstm_dropout l) = true ->
  pure_call (LSTMLayer_call l) (LSTMLayer_forward l) w.
Proof.
  intros Hw x. unfold LSTMLayer_call, LSTMLayer_forward.
  destruct (forallb (all_length (lstm_in_dim l)) x); [|reflexivity].
  now apply lstm_stack_dropout_idle.
Qed.

(** Split on the result of the next module call or tensor function. *)
Ltac pure_step :=
  cbn [bind ret Monad_Call Monad_either call_embedding call_lstm call_cnn call_attn
       call_block call_linear call_linear3 torch_world torch];
  repeat (rewrite ?lift_pure;
          try reflexivity;
          match goal with
          | |- context [match ?r with inl _ => _ | inr _ => _ end] =>
              is_var r; destruct r
          | |- context [match ?r with inl _ => _ | inr _ => _ end] =>
              lazymatch r with
              | context [match _ with inl _ => _ | inr _ => _ end] => fail
              | _ => destruct r
              end
          end;
          cbn [bind ret raise lift Monad_Call Monad_either Exception_either Exception_Call];
          try reflexivity).

Lemma Sequential_forward_pure (blocks : list CNNBlock) (w : World G) :
  pure_call (Sequential_forward torch_world blocks) (Sequential_forward torch blocks) w.
Proof.
  induction blocks as [|blk blocks IH]; intros y; [reflexivity|].
  cbn [Sequential_forward bind Monad_Call Monad_either call_block torch_world torch].
  destruct (CNNBlock_forward blk y) as [e|z]; [reflexivity|].
  apply IH.
Qed.

(** The three models with a recurrent encoder are as pure as the call
    of their encoder. *)
Lemma LSTMModel_forward_pure (m : LSTMModel) (w : World G) :
  pure_call (LSTMLayer_call (LSTM_lstm m)) (LSTMLayer_forward (LSTM_lstm m)) w ->
  pure_call (LSTMModel_forward torch_world m) (LSTMModel_forward torch m) w.
Proof.
  intros Hl x. unfold LSTMModel_forward. destruct (shape2 x) as [bs ml].
  cbv beta iota zeta.
  cbn [bind ret Monad_Call Monad_either call_embedding call_lstm call_linear
       torch_world torch].
  destruct (Embedding_forward (LSTM_embedding m) x) as [e|emb]; [reflexivity|].
  rewrite Hl. pure_step.
Qed.

Lemma RCNNModel_forward_pure (m : RCNNModel) (w : World G) :
  pure_call (LSTMLayer_call (RCNN_bilstm m)) (LSTMLayer_forward (RCNN_bilstm m)) w ->
  pure_call (RCNNModel_forward torch_world m) (RCNNModel_forward torch m) w.
Proof.
  intros Hl x. unfold RCNNModel_forward.
  cbn [bind ret Monad_Call Monad_either call_embedding call_lstm call_linear
       call_linear3 torch_world torch].
  destruct (Embedding_forward (RCNN_embedding m) x) as [e|emb]; [reflexivity|].
  rewrite Hl. pure_step.
Qed.

Lemma BiLSTMAttnModel_forward_pure (m : BiLSTMAttnModel) (w : World G) :
  pure_call (LSTMLayer_call (BiLSTMAttn_bilstm m)) (LSTMLayer_forward (BiLSTMAttn_bilstm m)) w ->
  pure_call (BiLSTMAttnModel_forward torch_world m) (BiLSTMAttnModel_forward torch m) w.
Proof.
  intros Hl x. unfold BiLSTMAttnModel_forward.
  cbn [bind ret Monad_Call Monad_either call_embedding call_lstm call_attn call_linear
       torch_world torch].
  destruct (Embedding_forward (BiLSTMAttn_embedding m) x) as [e|emb]; [reflexivity|].
  rewrite Hl. pure_step.
Qed.

(** The four models without one call nothing that draws. *)
Lemma CNNModel_forward_pure (m : CNNModel) (w : World G) :
  pure_call (CNNModel_forward torch_world m) (CNNModel_forward torch m) w.
Proof. intros x. unfold CNNModel_forward. pure_step. Qed.

Lemma TextCNNModel_forward_pure (m : TextCNNModel) (w : World G) :
  pure_call (TextCNNModel_forward torch_world m) (TextCNNModel_forward torch m) w.
Proof. intros x. unfold TextCNNModel_forward. pure_step. Qed.

Lemma CNNAttnModel_forward_pure (m : CNNAttnModel) (w : World G) :
  pure_call (CNNAttnModel_forward torch_world m) (CNNAttnModel_forward torch m) w.
Proof. intros x. unfold CNNAttnModel_forward. pure_step. Qed.

Lemma DPCNNModel_forward_pure (m : DPCNNModel) (w : World G) :
  pure_call (DPCNNModel_forward torch_world m) (DPCNNModel_forward torch m) w.
Proof.
  intros x. unfold DPCNNModel_forward.
  pose proof (Sequential_forward_pure (DPCNN_blocks m) w) as Hseq.
  cbn [bind ret Monad_Call Monad_either call_embedding call_cnn call_linear
       torch_world torch].
  destruct (Embedding_forward (DPCNN_embedding m) x); [reflexivity|].
  destruct (CNNLayer_forward (DPCNN_region_embedding m) _); [reflexivity|].
  destruct (CNNLayer_forward (DPCNN_conv1 m) _); [reflexivity|].
  destruct (CNNLayer_forward (DPCNN_conv2 m) _); [reflexivity|].
  rewrite lift_pure. destruct (add3 _ _); [reflexivity|].
  cbn [lift ret Monad_either]. rewrite Hseq.
  destruct (Sequential_forward torch (DPCNN_blocks m) _); [reflexivity|].
  rewrite lift_pure. destruct (max_dim1 _); reflexivity.
Qed.

Lemma pure_call_repeatable {A B : Type} (c : A -> Call (World G) B) (f : A -> Result B)
      (w : World G) :
  pure_call c f w -> repeatable c w.
Proof. intros Hc a. rewrite !Hc. simpl. auto. Qed.


End Purity.

(** ** Further properties of model.py *)

(** *** Tokens outside the vocabulary *)

Lemma mapM_raise_exists {A B : Type} (f : A -> Result B) (e : Error) (l : list A) :
  (forall a e', f a = Raise e' -> e' = e) ->
  Exists (fun a => f a = Raise e) l -> mapM f l = Raise e.
Proof.
  intros Hf Hex. induction Hex as [a l Ha|a l _ IH]; simpl.
  - now rewrite Ha.
  - destruct (f a) as [e'|b] eqn:Hfa.
    + now rewrite (Hf a e' Hfa).
    + now rewrite IH.
Qed.

Lemma Embedding_lookup_raises (e : Embedding) (t : Z) (err : Error) :
  Embedding_lookup e t = Raise err -> err = IndexError.
Proof.
  unfold Embedding_lookup. destruct (t <? 0)%Z; [congruence|].
  destruct (nth_error (emb_weight e) (Z.to_nat t)); congruence.
Qed.

Lemma Embedding_lookup_outside (n d : nat) (e : Embedding) (t : Z) :
  Embedding_built n d e = true ->
  ((0 <=? t)%Z && (t <? Z.of_nat n)%Z) = false ->
  Embedding_lookup e t = Raise IndexError.
Proof.
  intros Hb Ht. destruct (Embedding_built_spec _ _ _ Hb) as (_ & _ & Hn & _).
  unfold Embedding_lookup. destruct (Z.ltb_spec t 0); [reflexivity|].
  destruct (Z.leb_spec 0 t); [|lia]. simpl in Ht. apply Z.ltb_ge in Ht.
  replace (nth_error (emb_weight e) (Z.to_nat t)) with (@None (list R));
    [reflexivity|].
  symmetry. apply nth_error_None. lia.
Qed.

Lemma Embedding_row_outside (n d : nat) (e : Embedding) (row : list Z) :
  Embedding_built n d e = true ->
  forallb (fun t => (0 <=? t)%Z && (t <? Z.of_nat n)%Z) row = false ->
  mapM (Embedding_lookup e) row = Raise IndexError.
Proof.
  intros Hb Hrow. apply mapM_raise_exists.
  - intros t e' H. exact (Embedding_lookup_raises e t e' H).
  - induction row as [|t row IH]; [discriminate|]. simpl in Hrow.
    apply andb_false_iff in Hrow. destruct Hrow as [Ht|Hrow].
    + left. now apply Embedding_lookup_outside with n d.
    + right. exact (IH Hrow).
Qed.

(** The first of the conjuncts of a [_built] predicate: the embedding. *)
Ltac first_conjunct H :=
  repeat match type of H with
         | (_ && _) = true => apply andb_prop in H; destruct H as [H _]
         end.

(** An id outside [0, vocab) anywhere in the batch stops the embedding
    with [IndexError]. *)
Lemma Embedding_forward_outside (n d : nat) (e : Embedding) (x : Ids) :
  Embedding_built n d e = true -> ids_in_vocab n x = false ->
  Embedding_forward e x = Raise IndexError.
Proof.
  intros Hb Hx. unfold Embedding_forward. apply mapM_raise_exists.
  - intros row. induction row as [|t row IH]; intros e' H; simpl in H;
      [discriminate|].
    destruct (Embedding_lookup e t) as [e1|v] eqn:Ht.
    + injection H as <-. exact (Embedding_lookup_raises e t e1 Ht).
    + destruct (mapM (Embedding_lookup e) row) as [e2|vs] eqn:Hr; [|discriminate].
      injection H as <-. exact (IH e2 eq_refl).
  - unfold ids_in_vocab in Hx. induction x as [|row x IH]; [discriminate|].
    simpl in Hx. apply andb_false_iff in Hx. destruct Hx as [Hrow|Hx].
    + left. now apply Embedding_row_outside with n d.
    + right. exact (IH Hx).
Qed.

(** X1.  Every forward pass starts with the embedding of [BaseModel]: a
    batch that holds an id outside [0, vocab) makes each of the seven
    models stop with [IndexError], before any layer has run and
    whatever the shape of the batch. *)
Theorem forward_unknown_token (config : Config) (x : Ids) :
  ids_in_vocab (vocab config) x = false ->
  (forall m, LSTMModel_built config m = true ->
             LSTMModel_forward torch m x = Raise IndexError)
  /\ (forall m, RCNNModel_built config m = true ->
                RCNNModel_forward torch m x = Raise IndexError)
  /\ (forall m, BiLSTMAttnModel_built config m = true ->
                BiLSTMAttnModel_forward torch m x = Raise IndexError)
  /\ (forall m, CNNModel_built config m = true ->
                CNNModel_forward torch m x = Raise IndexError)
  /\ (forall m, TextCNNModel_built config m = true ->
                TextCNNModel_forward torch m x = Raise IndexError)
  /\ (forall m, DPCNNModel_built config m = true ->
                DPCNNModel_forward torch m x = Raise IndexError)
  /\ (forall m, CNNAttnModel_built config m = true ->
                CNNAttnModel_forward torch m x = Raise IndexError).
Proof.
  intros Hx.
  assert (Hemb : forall e, Embedding_built (vocab config) (embed_dim config) e = true ->
                           Embedding_forward e x = Raise IndexError)
    by (intros e He; now apply Embedding_forward_outside with (vocab config) (embed_dim config)).
  repeat split; intros m Hm.
  - unfold LSTMModel_built in Hm. first_conjunct Hm.
    unfold LSTMModel_forward. destruct (shape2 x) as [bs ml]. cbv beta iota zeta.
    ran (Hemb _ Hm). reflexivity.
  - unfold RCNNModel_built in Hm. first_conjunct Hm.
    unfold RCNNModel_forward. ran (Hemb _ Hm). reflexivity.
  - unfold BiLSTMAttnModel_built in Hm.
    first_conjunct Hm.
    unfold BiLSTMAttnModel_forward. ran (Hemb _ Hm). reflexivity.
  - unfold CNNModel_built in Hm. first_conjunct Hm.
    unfold CNNModel_forward. ran (Hemb _ Hm). reflexivity.
  - unfold TextCNNModel_built in Hm. first_conjunct Hm.
    unfold TextCNNModel_forward. ran (Hemb _ Hm). reflexivity.
  - unfold DPCNNModel_built in Hm. cbv zeta in Hm.
    first_conjunct Hm.
    unfold DPCNNModel_forward. ran (Hemb _ Hm). reflexivity.
  - unfold CNNAttnModel_built in Hm. first_conjunct Hm.
    unfold CNNAttnModel_forward. ran (Hemb _ Hm). reflexivity.
Qed.

(** *** What the computed length says about a row *)

Lemma cal_seq_len_single (row : list Z) (pad : Z) :
  cal_seq_len [row] (Z.of_nat (length row)) pad
  = [(Z.of_nat (length row) - Z.of_nat (count_padding row pad))%Z].
Proof. now rewrite cal_seq_len_rows. Qed.

(** X2.  The length [cal_seq_len] computes for a row is 0 exactly when
    the row is padding throughout, and the full width of the row exactly
    when the padding id does not occur in it. *)
Theorem cal_seq_len_extremes (row : list Z) (pad : Z) :
  (cal_seq_len [row] (Z.of_nat (length row)) pad = [0%Z]
   <-> row = repeat pad (length row))
  /\ (cal_seq_len [row] (Z.of_nat (length row)) pad = [Z.of_nat (length row)]
      <-> ~ In pad row).
Proof.
  rewrite cal_seq_len_single. pose proof (count_padding_le row pad) as Hle.
  split; split.
  - intros [= H]. apply (count_occ_unique Z.eq_dec). unfold count_padding in *. lia.
  - intros H. rewrite H at 2. rewrite count_padding_repeat. f_equal. lia.
  - intros [= H]. apply (count_occ_not_In Z.eq_dec). unfold count_padding in *. lia.
  - intros H. apply (count_occ_not_In Z.eq_dec) in H. unfold count_padding.
    rewrite H. f_equal. lia.
Qed.


(** *** Which batches and configurations a model accepts *)

(** X4.  On a batch of at least one row, [TextCNNModel.forward] returns
    exactly when the rows have four positions or more; on every shorter
    batch it stops with the library's size error, raised by the first
    of the three convolutions whose window does not fit. *)
Theorem TextCNNModel_returns_iff (config : Config) (m : TextCNNModel) (b n : nat) (x : Ids) :
  TextCNNModel_built config m = true -> batch_of config b n x -> 1 <= b ->
  ((exists out, TextCNNModel_forward torch m x = Ok out) <-> 4 <= n)
  /\ (n < 4 -> TextCNNModel_forward torch m x = Raise RuntimeError).
Proof.
  intros Hm Hx Hb. split; [split|].
  - intros (out & Hout). destruct (Nat.lt_ge_cases n 4) as [Hlt|Hge]; [|exact Hge].
    rewrite (TextCNNModel_forward_raise config m b n x Hm Hx Hb Hlt) in Hout. discriminate.
  - intros Hn. destruct (TextCNNModel_forward_shape config m b n x Hm Hx Hn) as (out & Hout & _).
    now exists out.
  - intros Hn. now apply TextCNNModel_forward_raise with config b n.
Qed.

Lemma AttnLayer_forward_raise (i a b n d : nat) (l : AttnLayer) (x : T3) :
  AttnLayer_built i a l = true -> has_shape3 b n d x ->
  1 <= b -> 1 <= n -> d <> i ->
  AttnLayer_forward l x = Raise RuntimeError.
Proof.
  intros Hl [Hb Hx] Hb1 Hn1 Hd. destruct (AttnLayer_built_spec _ _ _ Hl) as (Hi & _).
  unfold AttnLayer_forward. apply mapM_raise.
  - intros ->. simpl in Hb. lia.
  - eapply Forall_impl; [|exact Hx]. intros s [Hs Hv]. unfold attn_pool.
    destruct s as [|v s]; [simpl in Hs; lia|]. inversion Hv; subst.
    unfold all_length. simpl forallb.
    destruct (Nat.eqb_spec (length v) (attn_in_dim l)); [lia | reflexivity].
Qed.

(** X5.  [BiLSTMAttnModel.__init__] gives each direction of the encoder
    [hidden_dim // 2] states and the attention layer [hidden_dim]
    inputs: on a batch with at least one row and one position the
    forward pass returns exactly when [hidden_dim] is even, and stops
    with a shape mismatch for every odd [hidden_dim]. *)
Theorem BiLSTMAttnModel_even_hidden_dim (config : Config) (m : BiLSTMAttnModel)
        (b n : nat) (x : Ids) :
  BiLSTMAttnModel_built config m = true -> batch_of config b n x -> 1 <= b -> 1 <= n ->
  ((exists out, BiLSTMAttnModel_forward torch m x = Ok out)
   <-> Nat.even (hidden_dim config) = true)
  /\ (Nat.even (hidden_dim config) = false ->
      BiLSTMAttnModel_forward torch m x = Raise RuntimeError).
Proof.
  intros Hm Hx Hb Hn.
  assert (Hodd : Nat.even (hidden_dim config) = false ->
                 BiLSTMAttnModel_forward torch m x = Raise RuntimeError).
  { intros Hodd. destruct Hx as [Hx Hv]. unfold BiLSTMAttnModel_built in Hm.
    apply andb_prop in Hm; destruct Hm as [Hm _].
    apply andb_prop in Hm; destruct Hm as [Hm _].
    apply andb_prop in Hm; destruct Hm as [Hm Hattn].
    apply andb_prop in Hm; destruct Hm as [Hemb Hlstm].
    destruct (Embedding_forward_shape _ _ b n _ x Hemb Hx Hv) as (e & He & Hes).
    destruct (LSTMLayer_forward_shape _ _ _ b n _ _ e Hlstm Hes) as (Hc & Hcs).
    unfold lstm_width in Hcs.
    pose proof (odd_double _ Hodd) as Hw.
    assert (1 <= hidden_dim config) by (destruct (hidden_dim config); [discriminate | lia]).
    unfold BiLSTMAttnModel_forward. ran He. ran Hc.
    ran (AttnLayer_forward_raise _ _ b n _ _ _ Hattn Hcs Hb Hn ltac:(lia)). reflexivity. }
  split; [split|exact Hodd].
  - intros (out & Hout). destruct (Nat.even (hidden_dim config)) eqn:Heven; [reflexivity|].
    rewrite (Hodd eq_refl) in Hout. discriminate.
  - intros Heven.
    destruct (BiLSTMAttnModel_forward_shape config m b n x Hm Hx Heven) as (out & Hout & _).
    now exists out.
Qed.

(** [DPCNNModel.forward], value by value, up to the sum of line 176. *)
Lemma DPCNNModel_trace (config : Config) (m : DPCNNModel) (b n : nat) (x : Ids) :
  DPCNNModel_built config m = true -> batch_of config b n x -> 1 <= n ->
  exists (emb region c1 c2 s : T3),
    Embedding_forward (DPCNN_embedding m) x = Ok emb
    /\ has_shape3 b n (embed_dim config) emb
    /\ CNNLayer_forward (DPCNN_region_embedding m) emb = Ok region
    /\ has_shape3 b n 250 region
    /\ CNNLayer_forward (DPCNN_conv1 m) (relu3 region) = Ok c1
    /\ has_shape3 b n 250 c1
    /\ CNNLayer_forward (DPCNN_conv2 m) (relu3 c1) = Ok c2
    /\ has_shape3 b n 250 c2
    /\ add3 c2 region = Ok s
    /\ has_shape3 b n 250 s
    /\ DPCNNModel_forward torch m x
       = (z <- Sequential_forward torch (DPCNN_blocks m) s ;;
          p <- max_dim1 z ;;
          Linear_forward (DPCNN_linear m) p).
Proof.
  unfold DPCNNModel_built. intros Hb [Hx Hv] Hn. cbv zeta in Hb.
  apply andb_prop in Hb; destruct Hb as [Hb Hlin].
  apply andb_prop in Hb; destruct Hb as [Hb Hblocks].
  apply andb_prop in Hb; destruct Hb as [Hb Hc2].
  apply andb_prop in Hb; destruct Hb as [Hb Hc1].
  apply andb_prop in Hb; destruct Hb as [Hemb Hreg].
  destruct (Embedding_forward_shape _ _ b n _ x Hemb Hx Hv) as (e & He & Hes).
  destruct (CNNLayer_forward_shape _ _ _ _ b n _ e Hreg Hes) as (r & Hr & Hrs); [lia|].
  replace (n + 2 * 1 + 1 - 3) with n in Hrs by lia.
  pose proof (map3_shape srelu _ _ _ _ Hrs) as Hrr.
  destruct (CNNLayer_forward_shape _ _ _ _ b n _ _ Hc1 Hrr) as (c1 & Hy1 & Hs1); [lia|].
  replace (n + 2 * 1 + 1 - 3) with n in Hs1 by lia.
  pose proof (map3_shape srelu _ _ _ _ Hs1) as Hs1r.
  destruct (CNNLayer_forward_shape _ _ _ _ b n _ _ Hc2 Hs1r) as (c2 & Hy2 & Hs2); [lia|].
  replace (n + 2 * 1 + 1 - 3) with n in Hs2 by lia.
  destruct (add3_shape b n _ c2 r Hs2 Hrs) as (s & Hs & Hss).
  fold (relu3 r) in Hy1. fold (relu3 c1) in Hy2.
  exists e, r, c1, c2, s.
  repeat (split; [assumption|]).
  unfold DPCNNModel_forward. ran He. ran Hr. ran Hy1. ran Hy2. ran Hs.
  destruct (Sequential_forward torch (DPCNN_blocks m) s) as [err|z];
    [reflexivity|].
  cbn [bind ret Monad_either]. now rewrite lift_torch.
Qed.

(** Entry by entry, the sum of two tensors of one shape. *)
Lemma add3_entry (a c s : T3) (i t : nat) (sa sc : list Vec) (u v : Vec) :
  add3 a c = Ok s ->
  nth_error a i = Some sa -> nth_error c i = Some sc ->
  nth_error sa t = Some u -> nth_error sc t = Some v ->
  exists ss, nth_error s i = Some ss /\ nth_error ss t = Some (vadd u v).
Proof.
  intros Hs Ha Hc Hu Hv. unfold add3 in Hs.
  destruct (zipM_nth _ _ _ _ _ _ _ Hs Ha Hc) as (ss & Hss & Hsi).
  destruct (zipM_nth _ _ _ _ _ _ _ Hss Hu Hv) as (uv & Huv & Hst).
  destruct (length u =? length v); [|discriminate].
  injection Huv as <-. exists ss. auto.
Qed.

(** X6.  The three convolutions of [DPCNNModel], of window 3 and padding
    1, keep the length of the sequence.  On rows of [n >= 1] positions
    the region embedding, [conv1] of its rectified output and [conv2] of
    the rectified output of [conv1] all return tensors of shape
    (b, n, 250); their sum [conv2 + region], entry by entry, is what the
    block stack receives, and the forward pass continues from it with
    the blocks, the maximum over positions and the linear head.  On rows
    without any position the embedding returns and the region embedding
    stops the pass with the library's size error. *)
Theorem DPCNNModel_sequence_length (config : Config) (m : DPCNNModel) (b n : nat) (x : Ids) :
  DPCNNModel_built config m = true -> batch_of config b n x -> 1 <= b ->
  (n = 0 ->
   exists emb : T3,
     Embedding_forward (DPCNN_embedding m) x = Ok emb
     /\ CNNLayer_forward (DPCNN_region_embedding m) emb = Raise RuntimeError
     /\ DPCNNModel_forward torch m x = Raise RuntimeError)
  /\ (1 <= n ->
      exists (emb region c1 c2 s : T3),
        Embedding_forward (DPCNN_embedding m) x = Ok emb
        /\ CNNLayer_forward (DPCNN_region_embedding m) emb = Ok region
        /\ has_shape3 b n 250 region
        /\ CNNLayer_forward (DPCNN_conv1 m) (relu3 region) = Ok c1
        /\ has_shape3 b n 250 c1
        /\ CNNLayer_forward (DPCNN_conv2 m) (relu3 c1) = Ok c2
        /\ has_shape3 b n 250 c2
        /\ add3 c2 region = Ok s
        /\ has_shape3 b n 250 s
        /\ (forall i t sa sc u v,
              nth_error c2 i = Some sa -> nth_error region i = Some sc ->
              nth_error sa t = Some u -> nth_error sc t = Some v ->
              exists ss, nth_error s i = Some ss /\ nth_error ss t = Some (vadd u v))
        /\ DPCNNModel_forward torch m x
           = (z <- Sequential_forward torch (DPCNN_blocks m) s ;;
              p <- max_dim1 z ;;
              Linear_forward (DPCNN_linear m) p)).
Proof.
  intros Hm Hx Hb. split.
  - intros ->. destruct Hx as [Hx Hv]. unfold DPCNNModel_built in Hm. cbv zeta in Hm.
    apply andb_prop in Hm; destruct Hm as [Hm _].
    apply andb_prop in Hm; destruct Hm as [Hm _].
    apply andb_prop in Hm; destruct Hm as [Hm _].
    apply andb_prop in Hm; destruct Hm as [Hm _].
    apply andb_prop in Hm; destruct Hm as [Hemb Hreg].
    destruct (Embedding_forward_shape _ _ b 0 _ x Hemb Hx Hv) as (e & He & Hes).
    pose proof (CNNLayer_forward_raise _ _ _ _ b 0 _ e Hreg Hes Hb ltac:(lia)) as Hraise.
    exists e. split; [exact He|]. split; [exact Hraise|].
    unfold DPCNNModel_forward. ran He. ran Hraise. reflexivity.
  - intros Hn.
    destruct (DPCNNModel_trace config m b n x Hm Hx Hn)
      as (emb & region & c1 & c2 & s & He & _ & Hr & Hrs & Hc1 & Hs1 & Hc2 & Hs2
          & Hs & Hss & Hfwd).
    exists emb, region, c1, c2, s.
    repeat (split; [assumption|]). split; [|exact Hfwd].
    intros i t sa sc u v Ha Hc Hu Hv. now apply add3_entry with c2 region sa sc.
Qed.

(** *** What the scores of [LSTMModel] depend on *)

(** The forward pass is the linear head applied to the gathered
    vectors. *)
Lemma LSTMModel_forward_selected (m : LSTMModel) (x : Ids) :
  LSTMModel_forward torch m x
  = (s <- LSTMModel_selected torch m x ;; Linear_forward (LSTM_linear m) s).
Proof.
  unfold LSTMModel_forward, LSTMModel_selected. destruct (shape2 x) as [bs ml].
  cbv beta iota zeta.
  cbn [call_embedding call_lstm call_linear torch bind Monad_either].
  destruct (Embedding_forward (LSTM_embedding m) x) as [e|emb]; [reflexivity|].
  destruct (LSTMLayer_forward (LSTM_lstm m) emb) as [e|h]; [reflexivity|].
  now rewrite !lift_torch.
Qed.

(** X7.  The scores [LSTMModel] gives a row depend only on the first
    [len] tokens of the row, [len >= 1] its computed length: two rows,
    of whatever widths, with one computed length and the same first
    [len] tokens get the same scores.  What follows the gathered
    position never reaches the linear head. *)
Theorem LSTMModel_scores_of_prefix (config : Config) (m : LSTMModel)
        (row1 row2 : list Z) (len : nat) :
  LSTMModel_built config m = true ->
  ids_in_vocab (vocab config) [row1] = true ->
  ids_in_vocab (vocab config) [row2] = true ->
  1 <= len ->
  length row1 - count_padding row1 (padding_id config) = len ->
  length row2 - count_padding row2 (padding_id config) = len ->
  firstn len row1 = firstn len row2 ->
  exists out,
    LSTMModel_forward torch m [row1] = Ok out
    /\ LSTMModel_forward torch m [row2] = Ok out.
Proof.
  intros Hm Hv1 Hv2 Hlen H1 H2 Hpre.
  destruct (LSTMModel_selected_single config m row1 Hm Hv1) as (v1 & Hs1 & Hf1); [lia|].
  destruct (LSTMModel_selected_single config m row2 Hm Hv2) as (v2 & Hs2 & Hf2); [lia|].
  rewrite H1 in Hf1. rewrite H2, <- Hpre, Hf1 in Hf2. injection Hf2 as <-.
  assert (Hx : batch_of config 1 (length row1) [row1])
    by (split; [split; [reflexivity | now constructor] | exact Hv1]).
  destruct (LSTMModel_trace config m 1 (length row1) [row1] Hm Hx ltac:(lia))
    as (emb & sel & out & _ & _ & _ & _ & _ & _ & Hsel & Hout & _ & Hfwd).
  rewrite Hs1 in Hsel. injection Hsel as <-.
  exists out. split; [exact Hfwd|].
  rewrite LSTMModel_forward_selected, Hs2. exact Hout.
Qed.

Lemma mapM_single {A B : Type} (f : A -> Result B) (a : A) (b : B) :
  f a = Ok b -> mapM f [a] = Ok [b].
Proof. intros H. simpl. now rewrite H. Qed.

(** X8.  The rows of a batch do not interact in [LSTMModel]: row [i] of
    the scores of a batch is what the model returns for row [i] alone.
    The gather by [torch.arange(batch_size)] pairs each example with its
    own length. *)
Theorem LSTMModel_rows_independent (config : Config) (m : LSTMModel) (b n : nat) (x : Ids) :
  LSTMModel_built config m = true -> batch_of config b n x -> 1 <= n ->
  exists out,
    LSTMModel_forward torch m x = Ok out
    /\ forall (i : nat) (row : list Z),
         nth_error x i = Some row ->
         exists o, nth_error out i = Some o
                   /\ LSTMModel_forward torch m [row] = Ok [o].
Proof.
  intros Hm Hx Hn.
  destruct (LSTMModel_trace config m b n x Hm Hx Hn)
    as (emb & sel & out & He & Hes & _ & Hhs & Hzip & _ & _ & Hout & _ & Hfwd).
  exists out. split; [exact Hfwd|]. intros i row Hrow.
  (* row i through the batch *)
  destruct (mapM_nth _ _ _ _ _ He Hrow) as (e & Hrow_e & Hemb_i).
  assert (Hh_i : nth_error (map (lstm_stack (hidden_dim config) (lstm_layers (LSTM_lstm m)))
                                emb) i
                 = Some (lstm_stack (hidden_dim config) (lstm_layers (LSTM_lstm m)) e))
    by (now apply map_nth_error).
  assert (Hcol : nth_error (last_columns n (padding_id config) x) i
                 = Some (Z.of_nat n - Z.of_nat (count_padding row (padding_id config)) - 1)%Z).
  { unfold last_columns. rewrite map_map. now rewrite (map_nth_error _ _ _ Hrow). }
  destruct (zipM_nth _ _ _ _ _ _ _ Hzip Hh_i Hcol) as (v & Hv & Hsel_i).
  destruct (mapM_nth _ _ _ _ _ Hout Hsel_i) as (o & Ho & Hout_i).
  exists o. split; [exact Hout_i|].
  (* row i alone *)
  assert (Hrowlen : length row = n).
  { destruct Hx as [[_ Hx] _]. rewrite Forall_forall in Hx.
    apply nth_error_In in Hrow. now apply Hx. }
  assert (Hx1 : batch_of config 1 n [row]).
  { split; [split; [reflexivity | now constructor]|].
    destruct Hx as [_ Hv0]. unfold ids_in_vocab in *. simpl. rewrite andb_true_r.
    rewrite forallb_forall in Hv0. apply Hv0. now apply nth_error_In with i. }
  destruct (LSTMModel_trace config m 1 n [row] Hm Hx1 Hn)
    as (emb1 & sel1 & out1 & He1 & _ & _ & _ & Hzip1 & _ & _ & Hout1 & _ & Hfwd1).
  unfold Embedding_forward in He1. rewrite (mapM_single _ _ _ Hrow_e) in He1.
  injection He1 as <-.
  unfold last_columns in Hzip1. cbn [map zipM] in Hzip1. rewrite Hv in Hzip1.
  injection Hzip1 as <-.
  unfold Linear_forward in Hout1. rewrite (mapM_single _ _ _ Ho) in Hout1.
  injection Hout1 as <-. exact Hfwd1.
Qed.

(** *** The maximum over positions *)

Lemma map2_map (f : R -> R) (g : R -> R -> R) (u v : Vec) :
  (forall a b, f (g a b) = g (f a) (f b)) ->
  map f (map2 g u v) = map2 g (map f u) (map f v).
Proof.
  intros H. revert v; induction u as [|a u IH]; intros [|b v]; simpl; try reflexivity.
  now rewrite H, IH.
Qed.

Lemma fold_vmax_map (f : R -> R) (s : list Vec) (v : Vec) :
  (forall a b, f (smax a b) = smax (f a) (f b)) ->
  map f (fold_left vmax s v) = fold_left vmax (map (map f) s) (map f v).
Proof.
  intros H. revert v; induction s as [|u s IH]; intros v; simpl; [reflexivity|].
  rewrite IH. unfold vmax. now rewrite map2_map.
Qed.

Lemma max_dim1_map (f : R -> R) (x : T3) :
  (forall a b, f (smax a b) = smax (f a) (f b)) ->
  max_dim1 (map (map (map f)) x)
  = match max_dim1 x with
    | inl e => Raise e
    | inr p => Ok (map (map f) p)
    end.
Proof.
  intros H. unfold max_dim1. induction x as [|s x IH]; [reflexivity|].
  cbn [map mapM]. rewrite IH.
  destruct s as [|v s]; [reflexivity|]. cbn [map max_positions].
  rewrite <- (fold_vmax_map f s v H).
  destruct (mapM max_positions x); reflexivity.
Qed.

(** X9.  [CNNModel] applies relu after the maximum over positions
    (lines 104-105), the branches of [TextCNNModel] before it
    (lines 130-141).  For a relu that commutes with the maximum, as a
    monotone function does, the order makes no difference: on every
    batch [CNNModel.forward] is the embedding, the convolution, the
    maximum over positions of the rectified features and the linear
    head. *)
Theorem CNNModel_relu_before_max (m : CNNModel) (x : Ids) :
  (forall a b : R, srelu (smax a b) = smax (srelu a) (srelu b)) ->
  CNNModel_forward torch m x
  = (emb <- Embedding_forward (CNN_embedding m) x ;;
     feat <- CNNLayer_forward (CNN_conv m) emb ;;
     pooled <- max_dim1 (relu3 feat) ;;
     Linear_forward (CNN_linear m) pooled).
Proof.
  intros H. unfold CNNModel_forward.
  cbn [call_embedding call_cnn call_linear torch bind Monad_either].
  destruct (Embedding_forward (CNN_embedding m) x) as [e|emb]; [reflexivity|].
  destruct (CNNLayer_forward (CNN_conv m) emb) as [e|feat]; [reflexivity|].
  unfold relu3. rewrite (max_dim1_map srelu feat H), lift_torch.
  destruct (max_dim1 feat) as [e|p]; reflexivity.
Qed.

Lemma vmax_comm (u v : Vec) :
  (forall a b : R, smax a b = smax b a) -> vmax u v = vmax v u.
Proof.
  intros H. unfold vmax. revert v; induction u as [|a u IH]; intros [|b v]; simpl;
    try reflexivity.
  now rewrite H, IH.
Qed.

Lemma vmax_assoc (u v w : Vec) :
  (forall a b c : R, smax (smax a b) c = smax a (smax b c)) ->
  vmax (vmax u v) w = vmax u (vmax v w).
Proof.
  intros H. unfold vmax. revert v w; induction u as [|a u IH]; intros [|b v] [|c w]; simpl;
    try reflexivity.
  now rewrite H, IH.
Qed.

Lemma fold_vmax_permutation (s s' : list Vec) :
  (forall a b : R, smax a b = smax b a) ->
  (forall a b c : R, smax (smax a b) c = smax a (smax b c)) ->
  Permutation s s' -> forall acc, fold_left vmax s acc = fold_left vmax s' acc.
Proof.
  intros Hc Ha Hp. induction Hp as [|u s s' _ IH|u v s|s1 s2 s3 _ IH1 _ IH2]; intros acc;
    simpl.
  - reflexivity.
  - apply IH.
  - f_equal. rewrite !(vmax_assoc _ _ _ Ha). f_equal. now apply vmax_comm.
  - now rewrite IH1.
Qed.

Lemma max_positions_permutation (s s' : list Vec) :
  (forall a b : R, smax a b = smax b a) ->
  (forall a b c : R, smax (smax a b) c = smax a (smax b c)) ->
  Permutation s s' -> max_positions s = max_positions s'.
Proof.
  intros Hc Ha Hp. induction Hp as [|u s s' Hp _|u v s|s1 s2 s3 _ IH1 _ IH2]; simpl.
  - reflexivity.
  - f_equal. now apply fold_vmax_permutation.
  - f_equal. f_equal. now apply vmax_comm.
  - now rewrite IH1.
Qed.

(** X10.  The maximum over positions that [CNNModel], [RCNNModel],
    [TextCNNModel] and [DPCNNModel] take before the linear head does not
    see the order of the positions: for a maximum that is commutative
    and associative, rearranging the positions of each example leaves
    the pooled tensor, or the exception, as it was. *)
Theorem max_dim1_permutation (x x' : T3) :
  (forall a b : R, smax a b = smax b a) ->
  (forall a b c : R, smax (smax a b) c = smax a (smax b c)) ->
  Forall2 (@Permutation (list R)) x x' -> max_dim1 x = max_dim1 x'.
Proof.
  intros Hc Ha Hx. unfold max_dim1. induction Hx as [|s s' x x' Hs _ IH]; [reflexivity|].
  cbn [mapM]. now rewrite (max_positions_permutation s s' Hc Ha Hs), IH.
Qed.

End Properties.

(** * Concrete runs *)

(** The pooling block meets the contract asked of a pyramid block. *)
Lemma pool_pairs_shape (d : nat) (n : nat) (s : list (list Z)) :
  length s <= n -> Forall (fun v => length v = d) s ->
  seq_shape ((length s + 1) / 2) d (pool_pairs s).
Proof.
  revert s; induction n as [|n IH]; intros s Hn Hs.
  - destruct s; [|simpl in Hn; lia]. split; [reflexivity | constructor].
  - destruct s as [|u [|v s']].
    + split; [reflexivity | constructor].
    + split; [reflexivity | exact Hs].
    + inversion Hs as [|? ? Hu Hs1]; subst. inversion Hs1 as [|? ? Hv Hs2]; subst.
      destruct (IH s') as [Hl Hf]; [simpl in Hn; lia | exact Hs2 |].
      cbn [pool_pairs length].
      replace (S (S (length s')) + 1) with (length s' + 1 + 1 * 2) by lia.
      rewrite Nat.div_add by lia. split.
      * cbn [length]. rewrite Hl. lia.
      * constructor; [|exact Hf]. rewrite vmax_length. lia.
Qed.

Lemma example_block_contract : CNNBlock_contract example_block.
Proof.
  intros b len y [Hb Hy] Hlen.
  exists ((len + 1) / 2), (map pool_pairs y). split; [|split].
  - replace (len + 1) with (len - 1 + 1 * 2) by lia. rewrite Nat.div_add by lia. lia.
  - reflexivity.
  - split; [now rewrite length_map|].
    rewrite Forall_map. eapply Forall_impl; [|exact Hy].
    intros s [Hs Hv]. cbv beta. rewrite <- Hs.
    now apply pool_pairs_shape with (length s).
Qed.

Lemma example_batch_ok : batch_of example_config_block 2 5 example_batch.
Proof. split; [split; [reflexivity | repeat constructor] | reflexivity]. Qed.

(** Witness of C1: the seven models on the batch of the scenario, one
    pyramid block in the DPCNN. *)
Lemma forward_output_shape_witness :
  batch_of example_config_block 2 5 example_batch
  /\ (exists out, LSTMModel_forward torch (example_LSTMModel example_config_block)
                                    example_batch = Ok out
                  /\ has_shape2 2 3 out)
  /\ (exists out, RCNNModel_forward torch (example_RCNNModel example_config_block)
                                    example_batch = Ok out
                  /\ has_shape2 2 3 out)
  /\ (exists out, BiLSTMAttnModel_forward torch
                    (example_BiLSTMAttnModel example_config_block) example_batch = Ok out
                  /\ has_shape2 2 3 out)
  /\ (exists out, CNNModel_forward torch (example_CNNModel example_config_block)
                                   example_batch = Ok out
                  /\ has_shape2 2 3 out)
  /\ (exists out, TextCNNModel_forward torch (example_TextCNNModel example_config_block)
                                       example_batch = Ok out
                  /\ has_shape2 2 3 out)
  /\ (exists out, DPCNNModel_forward torch
                    (example_DPCNNModel example_config_block) example_batch = Ok out
                  /\ has_shape2 2 3 out)
  /\ (exists out, CNNAttnModel_forward torch (example_CNNAttnModel example_config_block)
                                       example_batch = Ok out
                  /\ has_shape2 2 3 out).
Proof.
  split; [exact example_batch_ok|].
  destruct (forward_output_shape example_config_block 2 5
              example_batch example_batch_ok (le_S _ _ (le_S _ _ (le_S _ _ (le_S _ _ (le_n 1))))))
    as (H1 & H2 & H3 & H4 & H5 & H6 & H7).
  split; [apply H1; vm_compute; reflexivity|].
  split; [apply H2; vm_compute; reflexivity|].
  split; [apply H3; vm_compute; reflexivity|].
  split; [apply H4; vm_compute; reflexivity|].
  split; [apply H5; [vm_compute; reflexivity | repeat constructor]|].
  split; [apply H6; [vm_compute; reflexivity
                    | repeat constructor; exact example_block_contract]|].
  apply H7; vm_compute; reflexivity.
Defined.

Lemma example_batch_config : batch_of example_config 2 5 example_batch.
Proof. split; [split; [reflexivity | repeat constructor] | reflexivity]. Qed.

(** Witness of C2: on the batch of the scenario the forward pass
    returns, and the vector gathered for the first row, three tokens and
    two padding ids, is the encoder's state at position 2. *)
Lemma LSTMModel_forward_gathers_witness :
  exists (h : list (list (list Z))) (sel out : list (list Z)),
    LSTMModel_forward torch (example_LSTMModel example_config) example_batch = Ok out
    /\ has_shape3 2 5 16 h
    /\ forall s, nth_error h 0 = Some s ->
                 exists v, nth_error sel 0 = Some v /\ nth_error s 2 = Some v.
Proof.
  destruct (LSTMModel_forward_gathers example_config (example_LSTMModel example_config)
              2 5 example_batch eq_refl example_batch_config
              (le_S _ _ (le_S _ _ (le_S _ _ (le_S _ _ (le_n 1))))))
    as (emb & h & sel & out & _ & _ & Hh & _ & _ & Hout & _ & Hrow & _).
  exists h, sel, out. split; [exact Hout|]. split; [exact Hh|].
  intros s Hs.
  apply (Hrow 0 2 [5; 6; 7]%Z s eq_refl); [|discriminate|exact Hs].
  simpl. intros [H|[H|[H|[]]]]; discriminate.
Defined.

(** Counterexample to C2 as stated.  In the first row the padding id
    stands between two tokens: the computed length is 2 and the vector
    gathered is the encoder's state at position 1, a padded position,
    which differs from the state at position 2, the last non-padding
    position.  The second row is padding throughout: it has no
    non-padding position, and the vector gathered is the state at the
    last padded position. *)
Lemma LSTMModel_gathers_padded_position :
  LSTMModel_built example_config_single (example_signed_LSTMModel example_config_single) = true
  /\ batch_of example_config_single 2 3 [[5; 0; 6]; [0; 0; 0]]%Z
  /\ cal_seq_len [[5; 0; 6]; [0; 0; 0]]%Z 3 (padding_id example_config_single) = [2; 0]%Z
  /\ spec_last_non_padding [5; 0; 6]%Z (padding_id example_config_single) = Some 2
  /\ spec_last_non_padding [0; 0; 0]%Z (padding_id example_config_single) = None
  /\ exists (emb h : list (list (list Z))) (sel : list (list Z)),
       Embedding_forward (LSTM_embedding (example_signed_LSTMModel example_config_single))
                         [[5; 0; 6]; [0; 0; 0]]%Z = Ok emb
       /\ LSTMLayer_forward (LSTM_lstm (example_signed_LSTMModel example_config_single)) emb
          = Ok h
       /\ LSTMModel_selected torch (example_signed_LSTMModel example_config_single)
                             [[5; 0; 6]; [0; 0; 0]]%Z = Ok sel
       /\ (exists (s : list (list Z)) (v : list Z),
              nth_error h 0 = Some s /\ nth_error sel 0 = Some v
              /\ nth_error s 1 = Some v /\ nth_error s 2 <> Some v)
       /\ (exists (s : list (list Z)) (v : list Z),
              nth_error h 1 = Some s /\ nth_error sel 1 = Some v
              /\ nth_error s 2 = Some v).
Proof.
  split; [vm_compute; reflexivity|].
  split; [split; [split; [reflexivity | repeat constructor] | reflexivity]|].
  split; [reflexivity|]. split; [reflexivity|]. split; [reflexivity|].
  eexists. eexists. eexists.
  split; [vm_compute; reflexivity|].
  split; [vm_compute; reflexivity|].
  split; [vm_compute; reflexivity|].
  split.
  - eexists. eexists. split; [reflexivity|]. split; [reflexivity|].
    split; [reflexivity|]. cbn [nth_error]. discriminate.
  - eexists. eexists. split; [reflexivity|]. split; reflexivity.
Qed.

(** Witness of C3: the tokens 5, 6, 7 followed by two padding ids, and
    by none. *)
Lemma LSTMModel_padding_invariance_witness :
  exists v,
    LSTMModel_selected torch (example_LSTMModel example_config) [[5; 6; 7; 0; 0]%Z] = Ok [v]
    /\ LSTMModel_selected torch (example_LSTMModel example_config) [[5; 6; 7]%Z] = Ok [v]
    /\ LSTMModel_final_state (example_LSTMModel example_config) [5; 6; 7]%Z = Ok v.
Proof.
  exact (LSTMModel_padding_invariance example_config (example_LSTMModel example_config)
           [5; 6; 7]%Z 2 0 eq_refl eq_refl (conj (Z.le_refl 0) eq_refl)
           (le_S _ _ (le_S _ _ (le_n 1)))).
Defined.

(** Witness of C4: four positions pass, three do not. *)
Lemma TextCNNModel_length_boundary_witness :
  (exists out, TextCNNModel_forward torch (example_TextCNNModel example_config)
                                    example_batch4 = Ok out
               /\ has_shape2 2 3 out)
  /\ TextCNNModel_forward torch (example_TextCNNModel example_config) example_batch3
     = Raise RuntimeError.
Proof.
  destruct (TextCNNModel_length_boundary example_config
              (example_TextCNNModel example_config) 2 example_batch4 eq_refl)
    as (H4 & _).
  destruct (TextCNNModel_length_boundary example_config
              (example_TextCNNModel example_config) 2 example_batch3 eq_refl)
    as (_ & H3 & _).
  split.
  - apply H4. split; [split; [reflexivity | repeat constructor] | reflexivity].
  - apply H3; [|repeat constructor].
    split; [split; [reflexivity | repeat constructor] | reflexivity].
Defined.

(** Witness of C5: the lengths of the batch of the scenario are 3
    and 5. *)
Lemma cal_seq_len_spec_witness :
  cal_seq_len example_batch 5 0 = [3; 5]%Z
  /\ Forall (fun len => (0 <= len <= 5)%Z) (cal_seq_len example_batch 5 0).
Proof.
  destruct (cal_seq_len_spec example_batch 5 0) as [Hrows Hbounds];
    [repeat constructor|].
  split; [exact Hrows | exact Hbounds].
Defined.

(** Counterexample to C6 as stated: the first row of the batch is
    padding throughout, its computed length is 0 and its column index
    -1, and the forward pass raises nothing: it returns scores for both
    rows. *)
Lemma LSTMModel_all_padding_returns :
  LSTMModel_built example_config (example_LSTMModel example_config) = true
  /\ cal_seq_len [[0; 0]; [5; 6]]%Z 2 (padding_id example_config) = [0; 2]%Z
  /\ LSTMModel_forward torch (example_LSTMModel example_config) [[0; 0]; [5; 6]]%Z
     = Ok [[0; 0; 0]; [16; 16; 16]]%Z
  /\ ~ (exists e, LSTMModel_forward torch (example_LSTMModel example_config)
                                    [[0; 0]; [5; 6]]%Z = Raise e).
Proof.
  split; [reflexivity|]. split; [reflexivity|].
  assert (H : LSTMModel_forward torch (example_LSTMModel example_config)
                                [[0; 0]; [5; 6]]%Z = Ok [[0; 0; 0]; [16; 16; 16]]%Z)
    by (vm_compute; reflexivity).
  split; [exact H|]. intros [e He]. rewrite H in He. discriminate.
Qed.

(** Witness of C6 as the code has it, on the same batch. *)
Lemma LSTMModel_all_padding_row_witness :
  nth_error (cal_seq_len [[0; 0]; [5; 6]]%Z 2 0) 0 = Some 0%Z
  /\ wrap_index 2 (0 - 1) = Ok 1
  /\ exists out, LSTMModel_forward torch (example_LSTMModel example_config)
                                   [[0; 0]; [5; 6]]%Z = Ok out
                 /\ has_shape2 2 3 out.
Proof.
  destruct (LSTMModel_all_padding_row example_config (example_LSTMModel example_config)
              2 2 [[0; 0]; [5; 6]]%Z 0)
    as (Hlen & Hwrap & emb & h & sel & out & _ & _ & _ & Hout & Hos & _);
    [ reflexivity
    | split; [split; [reflexivity | repeat constructor] | reflexivity]
    | repeat constructor
    | reflexivity
    | ].
  split; [exact Hlen|]. split; [exact Hwrap|]. exists out. split; assumption.
Defined.

(** Witness of C7: the RCNN model of the scenario on its batch. *)
Lemma RCNNModel_forward_structure_witness :
  exists (cat : list (list (list Z))) (out : list (list Z)),
    has_shape3 2 5 16 cat
    /\ RCNNModel_forward torch (example_RCNNModel example_config) example_batch = Ok out
    /\ has_shape2 2 3 out.
Proof.
  destruct (RCNNModel_forward_structure example_config (example_RCNNModel example_config)
              2 5 example_batch eq_refl example_batch_config
              (le_S _ _ (le_S _ _ (le_S _ _ (le_S _ _ (le_n 1))))) eq_refl)
    as (word & context & cat & enc & pooled & out
        & _ & _ & _ & _ & Hcat & _ & _ & _ & _ & _ & _ & _ & Hos & Hout).
  exists cat, out. split; [exact Hcat|]. split; assumption.
Defined.

(** Witness of C8: the DPCNN model of the scenario has no block. *)
Lemma DPCNNModel_no_block_witness :
  DPCNNModel_forward torch (example_DPCNNModel example_config) example_batch
  = DPCNNModel_without_blocks (example_DPCNNModel example_config) example_batch.
Proof.
  exact (proj2 (proj2 (DPCNNModel_no_block example_config
                         (example_DPCNNModel example_config) example_batch
                         eq_refl eq_refl))).
Defined.

(** Witness of C10: embed_dim = 8 returns, embed_dim = 7 does not. *)
Lemma RCNNModel_even_embed_dim_witness :
  (exists out, RCNNModel_forward torch (example_RCNNModel example_config) example_batch
               = Ok out)
  /\ RCNNModel_forward torch (example_RCNNModel example_config_odd) example_batch
     = Raise RuntimeError.
Proof.
  destruct (RCNNModel_even_embed_dim example_config (example_RCNNModel example_config)
              2 5 example_batch eq_refl example_batch_config
              (le_S _ _ (le_n 1)) (le_S _ _ (le_S _ _ (le_S _ _ (le_S _ _ (le_n 1))))))
    as (_ & _ & _ & Heven & _).
  destruct (RCNNModel_even_embed_dim example_config_odd
              (example_RCNNModel example_config_odd)
              2 5 example_batch eq_refl example_batch_config
              (le_S _ _ (le_n 1)) (le_S _ _ (le_S _ _ (le_S _ _ (le_S _ _ (le_n 1))))))
    as (_ & _ & _ & _ & Hodd).
  split; [apply Heven; reflexivity | apply Hodd; reflexivity].
Defined.



(** Witness of X1: the id 100 is outside the vocabulary of 100 tokens. *)
Lemma forward_unknown_token_witness :
  LSTMModel_forward torch (example_LSTMModel example_config) [[5; 100]]%Z
  = Raise IndexError
  /\ RCNNModel_forward torch (example_RCNNModel example_config) [[5; 100]]%Z
     = Raise IndexError
  /\ BiLSTMAttnModel_forward torch (example_BiLSTMAttnModel example_config) [[5; 100]]%Z
     = Raise IndexError
  /\ CNNModel_forward torch (example_CNNModel example_config) [[5; 100]]%Z
     = Raise IndexError
  /\ TextCNNModel_forward torch (example_TextCNNModel example_config) [[5; 100]]%Z
     = Raise IndexError
  /\ DPCNNModel_forward torch (example_DPCNNModel example_config) [[5; 100]]%Z
     = Raise IndexError
  /\ CNNAttnModel_forward torch (example_CNNAttnModel example_config) [[5; 100]]%Z
     = Raise IndexError.
Proof.
  destruct (forward_unknown_token example_config [[5; 100]]%Z eq_refl)
    as (H1 & H2 & H3 & H4 & H5 & H6 & H7).
  split; [apply H1; vm_compute; reflexivity|].
  split; [apply H2; vm_compute; reflexivity|].
  split; [apply H3; vm_compute; reflexivity|].
  split; [apply H4; vm_compute; reflexivity|].
  split; [apply H5; vm_compute; reflexivity|].
  split; [apply H6; vm_compute; reflexivity|].
  apply H7; vm_compute; reflexivity.
Defined.


(** Witness of X4: the batch of the scenario has five positions. *)
Lemma TextCNNModel_returns_iff_witness :
  (exists out, TextCNNModel_forward torch (example_TextCNNModel example_config)
                                    example_batch = Ok out)
  <-> 4 <= 5.
Proof.
  destruct (TextCNNModel_returns_iff example_config (example_TextCNNModel example_config)
              2 5 example_batch) as [Hiff _];
    [reflexivity | exact example_batch_config | repeat constructor | exact Hiff].
Defined.

(** Witness of X5: hidden_dim = 16. *)
Lemma BiLSTMAttnModel_even_hidden_dim_witness :
  (exists out, BiLSTMAttnModel_forward torch (example_BiLSTMAttnModel example_config)
                                       example_batch = Ok out)
  <-> Nat.even 16 = true.
Proof.
  destruct (BiLSTMAttnModel_even_hidden_dim example_config
              (example_BiLSTMAttnModel example_config) 2 5 example_batch) as [Hiff _];
    [reflexivity | exact example_batch_config | repeat constructor
     | repeat constructor | exact Hiff].
Defined.

(** Witness of X6: on the batch of the scenario the three convolutions
    return five positions each, and their sum reaches the block stack. *)
Lemma DPCNNModel_sequence_length_witness :
  exists region c1 c2 s : list (list (list Z)),
    CNNLayer_forward (DPCNN_conv1 (example_DPCNNModel example_config)) (relu3 region) = Ok c1
    /\ has_shape3 2 5 250 c1
    /\ CNNLayer_forward (DPCNN_conv2 (example_DPCNNModel example_config)) (relu3 c1) = Ok c2
    /\ has_shape3 2 5 250 c2
    /\ add3 c2 region = Ok s
    /\ has_shape3 2 5 250 s
    /\ DPCNNModel_forward torch (example_DPCNNModel example_config) example_batch
       = (z <- Sequential_forward torch (DPCNN_blocks (example_DPCNNModel example_config)) s ;;
          p <- max_dim1 z ;;
          Linear_forward (DPCNN_linear (example_DPCNNModel example_config)) p).
Proof.
  destruct (DPCNNModel_sequence_length example_config (example_DPCNNModel example_config)
              2 5 example_batch) as [_ Hsum];
    [vm_compute; reflexivity | exact example_batch_config | repeat constructor |].
  destruct Hsum as (emb & region & c1 & c2 & s & _ & _ & _ & Hc1 & Hs1 & Hc2 & Hs2
                    & Hs & Hss & _ & Hfwd); [repeat constructor|].
  exists region, c1, c2, s. repeat (split; [assumption|]). exact Hfwd.
Defined.

(** Witness of X7: two rows of different widths, of computed length 3,
    that start with the tokens 5, 6, 7. *)
Lemma LSTMModel_scores_of_prefix_witness :
  exists out,
    LSTMModel_forward torch (example_LSTMModel example_config) [[5; 6; 7; 0; 0]%Z] = Ok out
    /\ LSTMModel_forward torch (example_LSTMModel example_config) [[5; 6; 7; 0]%Z] = Ok out.
Proof.
  apply (LSTMModel_scores_of_prefix example_config (example_LSTMModel example_config)
           [5; 6; 7; 0; 0]%Z [5; 6; 7; 0]%Z 3);
    try reflexivity. repeat constructor.
Defined.

(** Witness of X8: the batch of the scenario, row by row. *)
Lemma LSTMModel_rows_independent_witness :
  exists out,
    LSTMModel_forward torch (example_LSTMModel example_config) example_batch = Ok out
    /\ forall (i : nat) (row : list Z),
         nth_error example_batch i = Some row ->
         exists o, nth_error out i = Some o
                   /\ LSTMModel_forward torch (example_LSTMModel example_config) [row]
                      = Ok [o].
Proof.
  apply (LSTMModel_rows_independent example_config (example_LSTMModel example_config) 2 5);
    [reflexivity | exact example_batch_config | repeat constructor].
Defined.

(** Witness of X9: on the integers relu is the maximum with 0. *)
Lemma CNNModel_relu_before_max_witness :
  CNNModel_forward torch (example_CNNModel example_config) example_batch
  = (emb <- Embedding_forward (CNN_embedding (example_CNNModel example_config))
                              example_batch ;;
     feat <- CNNLayer_forward (CNN_conv (example_CNNModel example_config)) emb ;;
     pooled <- max_dim1 (relu3 feat) ;;
     Linear_forward (CNN_linear (example_CNNModel example_config)) pooled).
Proof.
  apply (CNNModel_relu_before_max (example_CNNModel example_config) example_batch).
  intros a b. cbn [srelu smax Z_scalar]. lia.
Defined.

(** Witness of X10: two positions, exchanged. *)
Lemma max_dim1_permutation_witness :
  max_dim1 [[[1; 4]; [3; 2]]]%Z = max_dim1 [[[3; 2]; [1; 4]]]%Z.
Proof.
  apply max_dim1_permutation.
  - intros a b. cbn [smax Z_scalar]. lia.
  - intros a b c. cbn [smax Z_scalar]. lia.
  - constructor; [apply perm_swap | constructor].
Defined.
